(** * cv-gallery: hand-gesture classifier and interaction controllers

    A shallow embedding of the gesture pipeline of the gallery application,
    and what holds of it.

    Definitions, from the source:
    - [HandTracking]  the hook [useHandTracking]: the per-hand classifier
      ([calculatePinch], [detectThumbGesture], [detectOpenPalm]) and the
      throttled frame assembler ([processResults]);
    - [ImageGallery]  the gallery side bar with thumbs-up / thumbs-down
      navigation, its cooldown, and pinch-to-drag;
    - [ImageGalleryScroll]  the version of the side bar in which the thumb
      gestures scroll;
    - [ImageViewer]  the viewer: right-hand move / dismiss and left-hand
      zoom / pan.
    Then [Spec], the vocabulary of the specification, and [Samples],
    concrete hands, callbacks and ticks.

    Further definitions, from the source:
    - [Detector]  the calls of [processResults] over time;
    - [Home]  the page: its handlers, the props it hands down, and the
      mirrored camera image;
    - [Timer]  the timer and its display;
    - [Viewing]  sequences of effect runs and of commits of the viewer.
    Then [Terms] and [Cases], the terms and the sample inputs of the
    further results.

    Results: [HandTrackingFacts], [GalleryFacts] and [ViewerFacts]; then
    [ClassifierFacts], [DetectorFacts], [GalleryMore], [ScrollFacts],
    [ViewerMore], [HomeFacts] and [TimerFacts].

    Conventions of the embedding.
    - A JavaScript number that carries a coordinate, a distance or a
      high-resolution time stamp is a real number ([R]): rounding, NaN and
      the infinities of IEEE doubles are not modelled.  [Date.now()] and
      array indices are integers ([Z]).
    - A property access on [undefined] throws a [TypeError]; functions that
      index the landmark array therefore return [option], [None] standing
      for the exception.
    - A React component is a record ([Store]) of its state variables and
      refs.  An effect is a function of the props, of the store [r] of the
      render whose closure it is, and of the current store [c]; it reads
      state variables from [r] and refs from [c], writes to [c], and
      returns the new store with the callbacks it called, in order. *)

From Stdlib Require Import Reals Lra Lia ZArith List String Ascii Bool
  DecimalString.
Import ListNotations.

Set Implicit Arguments.

(** ** JavaScript numbers and helpers *)

Module JS.

Local Open Scope R_scope.

(** [a < b], [a > b], [a <= b], [a >= b] as JavaScript booleans. *)
Definition ltb (a b : R) : bool := if Rlt_dec a b then true else false.
Definition gtb (a b : R) : bool := ltb b a.
Definition leb (a b : R) : bool := if Rle_dec a b then true else false.
Definition geb (a b : R) : bool := leb b a.

(** The [clamp] of the specification: [clamp v lo hi] is [v] limited to
    the interval from [lo] to [hi]. *)
Definition clamp (v lo hi : R) : R :=
  if Rlt_dec v lo then lo else if Rlt_dec hi v then hi else v.

(** Reading an optional value; [None] propagates (a thrown exception). *)
Definition bind {A B : Type} (o : option A) (k : A -> option B) : option B :=
  match o with
  | Some a => k a
  | None => None
  end.

End JS.

Notation "x <- e ;; k" := (JS.bind e (fun x => k))
  (at level 61, e at next level, right associativity).

Infix "<?" := JS.ltb (at level 70, no associativity) : R_scope.
Infix ">?" := JS.gtb (at level 70, no associativity) : R_scope.

(** ** Data model *)

Module Landmark.
Record t : Type := mk { x : R; y : R; z : R }.
End Landmark.

Module Point.
Record t : Type := mk { x : R; y : R }.
End Point.

Inductive Handedness : Type := Left | Right.

Module PinchData.
Record t : Type := mk
  { isPinching : bool; position : Point.t; strength : R }.
End PinchData.

Module ThumbGesture.
Record t : Type := mk { isThumbsUp : bool; isThumbsDown : bool }.
End ThumbGesture.

Module HandData.
Record t : Type := mk
  { landmarks : list Landmark.t;
    handedness : Handedness;
    isPinching : bool;
    pinchPosition : Point.t;
    pinchStrength : R;
    isThumbsUp : bool;
    isThumbsDown : bool;
    isOpenPalm : bool }.
End HandData.

(** ** The gesture classifier ([useHandTracking]) *)

Module HandTracking.

Local Open Scope R_scope.

Definition PINCH_THRESHOLD : R := 0.08.
Definition THUMB_GESTURE_THRESHOLD : R := 0.06.

(** [landmarks[i]]; reading a coordinate of a missing entry throws. *)
Definition at_ (landmarks : list Landmark.t) (i : nat) : option Landmark.t :=
  nth_error landmarks i.

Definition calculatePinch (landmarks : list Landmark.t) : option PinchData.t :=
  thumbTip <- at_ landmarks 4 ;;
  indexTip <- at_ landmarks 8 ;;
  let distance :=
    sqrt ((Landmark.x thumbTip - Landmark.x indexTip) ^ 2 +
          (Landmark.y thumbTip - Landmark.y indexTip) ^ 2 +
          (Landmark.z thumbTip - Landmark.z indexTip) ^ 2) in
  let isPinching := distance <? PINCH_THRESHOLD in
  let strength := Rmax 0 (1 - distance / PINCH_THRESHOLD) in
  Some (PinchData.mk
          isPinching
          (Point.mk ((Landmark.x thumbTip + Landmark.x indexTip) / 2)
                    ((Landmark.y thumbTip + Landmark.y indexTip) / 2))
          strength).

(** [tip.y > pip.y] for the landmarks at the two indices. *)
Definition tipBelowPIP (landmarks : list Landmark.t) (tipIdx pipIdx : nat)
  : option bool :=
  tip <- at_ landmarks tipIdx ;;
  pip <- at_ landmarks pipIdx ;;
  Some (Landmark.y tip >? Landmark.y pip).

(** [a && b] on values whose evaluation may throw: [b] is evaluated only
    when [a] is true. *)
Definition andThen (a b : option bool) : option bool :=
  match a with
  | Some true => b
  | Some false => Some false
  | None => None
  end.

Definition detectThumbGesture (landmarks : list Landmark.t)
  : option ThumbGesture.t :=
  fingersCurled <-
    andThen (andThen (andThen (tipBelowPIP landmarks 8 6)
                              (tipBelowPIP landmarks 12 10))
                     (tipBelowPIP landmarks 16 14))
            (tipBelowPIP landmarks 20 18) ;;
  thumbTip <- at_ landmarks 4 ;;
  wrist <- at_ landmarks 0 ;;
  let thumbExtended :=
    (Rabs (Landmark.x thumbTip - Landmark.x wrist) >? 0.05) ||
    (Rabs (Landmark.y thumbTip - Landmark.y wrist) >? 0.1) in
  thumbCMC <- at_ landmarks 1 ;;
  let thumbVertical := Landmark.y thumbCMC - Landmark.y thumbTip in
  let isThumbsUp :=
    fingersCurled && thumbExtended &&
    (thumbVertical >? THUMB_GESTURE_THRESHOLD) in
  let isThumbsDown :=
    fingersCurled && thumbExtended &&
    (thumbVertical <? - THUMB_GESTURE_THRESHOLD) in
  Some (ThumbGesture.mk isThumbsUp isThumbsDown).

(** [fingerTips.every((tipIdx, i) => landmarks[tipIdx].y <
    landmarks[fingerPIPs[i]].y)]: [every] stops at the first finger that
    is not extended, so later landmarks are not read. *)
Fixpoint every_extended (landmarks : list Landmark.t)
         (fingers : list (nat * nat)) : option bool :=
  match fingers with
  | [] => Some true
  | (tipIdx, pipIdx) :: rest =>
      tip <- at_ landmarks tipIdx ;;
      pip <- at_ landmarks pipIdx ;;
      if Landmark.y tip <? Landmark.y pip
      then every_extended landmarks rest
      else Some false
  end.

Definition detectOpenPalm (landmarks : list Landmark.t) : option bool :=
  fingersExtended <-
    every_extended landmarks [(8, 6); (12, 10); (16, 14); (20, 18)]%nat ;;
  thumbTip <- at_ landmarks 4 ;;
  thumbMCP <- at_ landmarks 2 ;;
  let thumbExtended :=
    Rabs (Landmark.x thumbTip - Landmark.x thumbMCP) >? 0.05 in
  Some (fingersExtended && thumbExtended).

(** *** The frame assembler ([processResults]) *)

(** One entry of [results.multiHandedness]; only its [label] is read. *)
Record HandednessEntry : Type := { label : string }.

(** The detector's callback argument.  Either array may be missing. *)
Record Results : Type :=
  { multiHandLandmarks : option (list (list Landmark.t));
    multiHandedness : option (list HandednessEntry) }.

Record HandTrackingState : Type :=
  { leftHand : option HandData.t;
    rightHand : option HandData.t;
    isReady : bool }.

(** The hook: its React state and the ref [lastProcessTime]. *)
Record Hook : Type :=
  { state : HandTrackingState;
    lastProcessTime : R }.

Definition initialHook : Hook :=
  {| state := {| leftHand := None; rightHand := None; isReady := false |};
     lastProcessTime := 0 |}.

(** MediaPipe returns mirrored handedness, so the label is flipped. *)
Definition actualHandedness (handedness : HandednessEntry) : Handedness :=
  if String.eqb (label handedness) "Left" then Right else Left.

(** The body of the loop up to the construction of [handData]. *)
Definition classify (landmarks : list Landmark.t)
           (handedness : HandednessEntry) : option HandData.t :=
  pinchData <- calculatePinch landmarks ;;
  thumbGesture <- detectThumbGesture landmarks ;;
  isOpenPalm <- detectOpenPalm landmarks ;;
  Some (HandData.mk
          (map (fun l => Landmark.mk (Landmark.x l) (Landmark.y l)
                                     (Landmark.z l)) landmarks)
          (actualHandedness handedness)
          (PinchData.isPinching pinchData)
          (PinchData.position pinchData)
          (PinchData.strength pinchData)
          (ThumbGesture.isThumbsUp thumbGesture)
          (ThumbGesture.isThumbsDown thumbGesture)
          isOpenPalm).

(** The two local variables [leftHand] and [rightHand] of the loop. *)
Definition Sides : Type := (option HandData.t * option HandData.t)%type.

Definition assign (handData : HandData.t) (sides : Sides) : Sides :=
  match HandData.handedness handData with
  | Left => (Some handData, snd sides)
  | Right => (fst sides, Some handData)
  end.

(** [for (let i = 0; i < results.multiHandLandmarks.length; i++)], from
    index [i] on; [hands] are the landmark sets not yet visited. *)
Fixpoint assemble (hands : list (list Landmark.t)) (i : nat)
         (handednesses : list HandednessEntry) (sides : Sides)
  : option Sides :=
  match hands with
  | [] => Some sides
  | landmarks :: rest =>
      handedness <- nth_error handednesses i ;;
      handData <- classify landmarks handedness ;;
      assemble rest (S i) handednesses (assign handData sides)
  end.

(** What a call of [processResults] did. *)
Inductive Outcome : Type :=
| Dropped      (* returned at the throttle *)
| Threw        (* an exception left the loop; [setState] was not reached *)
| Published.   (* [setState] was called *)

Definition processResults (now : R) (results : Results) (h : Hook)
  : Hook * Outcome :=
  if now - lastProcessTime h <? 16 then (h, Dropped)
  else
    let sides :=
      match multiHandLandmarks results, multiHandedness results with
      | Some hands, Some handednesses =>
          assemble hands 0 handednesses (None, None)
      | _, _ => Some (None, None)
      end in
    match sides with
    | None => ({| state := state h; lastProcessTime := now |}, Threw)
    | Some (leftHand', rightHand') =>
        ({| state := {| leftHand := leftHand';
                        rightHand := rightHand';
                        isReady := isReady (state h) |};
            lastProcessTime := now |}, Published)
    end.

End HandTracking.

(** ** Shared by the page, the gallery and the viewer *)

Module GalleryImage.
Record t : Type := mk { id : string; src : string; title : string }.
End GalleryImage.

(** What the components read from the browser: the size of the window. *)
Record Window : Type :=
  { innerWidth : R;
    innerHeight : R }.

(** Screen position of a hand: the camera image is mirrored horizontally. *)
Definition pinchX (w : Window) (hand : HandData.t) : R :=
  ((1 - Point.x (HandData.pinchPosition hand)) * innerWidth w)%R.

Definition pinchY (w : Window) (hand : HandData.t) : R :=
  (Point.y (HandData.pinchPosition hand) * innerHeight w)%R.

(** ** The gallery side bar ([ImageGallery], the version with next /
    previous navigation) *)

Module ImageGallery.

Local Open Scope Z_scope.

Definition GALLERY_IMAGES : list GalleryImage.t :=
  [ GalleryImage.mk "1" "/gallery/image1.jpg" "codeforces";
    GalleryImage.mk "2" "/gallery/image2.jpg" "kep.uz";
    GalleryImage.mk "3" "/gallery/image3.jpg" "acmp.ru";
    GalleryImage.mk "4" "/gallery/image4.jpg" "linux";
    GalleryImage.mk "5" "/gallery/image5.jpg" "olympiad 1";
    GalleryImage.mk "6" "/gallery/image6.jpg" "olympiad 2";
    GalleryImage.mk "7" "/gallery/image7.jpg" "olympiad 3";
    GalleryImage.mk "8" "/gallery/image8.jpg" "sarmolabs";
    GalleryImage.mk "9" "/gallery/image9.jpg" "presTechAward";
    GalleryImage.mk "10" "/gallery/image10.jpg" "peony.uz";
    GalleryImage.mk "11" "/gallery/image11.gif" "hackathon";
    GalleryImage.mk "12" "/gallery/image12.jpg" "github";
    GalleryImage.mk "13" "/gallery/image13.jpg" "almaty";
    GalleryImage.mk "14" "/gallery/image14.jpg" "marathons";
    GalleryImage.mk "15" "/gallery/image15.jpg" "marathons";
    GalleryImage.mk "16" "/gallery/image16.jpg" "marathons";
    GalleryImage.mk "17" "/gallery/image17.jpg" "run";
    GalleryImage.mk "18" "/gallery/image18.jpg" "run";
    GalleryImage.mk "19" "/gallery/image19.jpg" "run";
    GalleryImage.mk "20" "/gallery/image20.jpg" "run";
    GalleryImage.mk "21" "/gallery/image21.jpg" "run";
    GalleryImage.mk "22" "/gallery/image22.jpg" "run";
    GalleryImage.mk "23" "/gallery/image23.jpg" "run" ]%string.

(** [Array.prototype.findIndex]: the first index whose element satisfies
    the predicate, [-1] when there is none. *)
Fixpoint findIndexFrom {A : Type} (p : A -> bool) (l : list A) (i : Z) : Z :=
  match l with
  | [] => -1
  | a :: rest => if p a then i else findIndexFrom p rest (i + 1)
  end.

Definition findIndex {A : Type} (p : A -> bool) (l : list A) : Z :=
  findIndexFrom p l 0.

(** [l[i]] for an integer index: [undefined] outside the array. *)
Definition index {A : Type} (l : list A) (i : Z) : option A :=
  if i <? 0 then None else nth_error l (Z.to_nat i).

(** [arr.length]. *)
Definition len {A : Type} (l : list A) : Z := Z.of_nat (List.length l).

(** A string used as a condition: the empty string is falsy. *)
Definition truthy (s : string) : bool :=
  match s with
  | EmptyString => false
  | _ => true
  end.

Inductive ScrollDir : Type := up | down.

Record Rect : Type :=
  { left : R; right : R; top : R; bottom : R }.

(** What the gallery reads from the document: the bounding rectangle of
    the gallery element (absent while the ref is empty), and
    [document.elementFromPoint(x, y)?.closest('[data-image-id]')]
    followed by [getAttribute('data-image-id')]. *)
Record Dom : Type :=
  { window : Window;
    galleryRect : option Rect;
    imageIdAt : R -> R -> option string }.

Record Props : Type :=
  { rightHand : option HandData.t;
    selectedImage : option GalleryImage.t }.

(** State variables and refs of the component. *)
Record Store : Type :=
  { scrollY : Z;
    hoveredImage : option string;
    draggedImage : option GalleryImage.t;
    dragPosition : Point.t;
    isThumbScrolling : option ScrollDir;
    lastPinchState : bool;
    lastThumbActionTime : Z;
    lastSelectedId : option string }.

Definition initialStore : Store :=
  {| scrollY := 0;
     hoveredImage := None;
     draggedImage := None;
     dragPosition := Point.mk 0 0;
     isThumbScrolling := None;
     lastPinchState := false;
     lastThumbActionTime := 0;
     lastSelectedId := None |}.

(** Calls of the callbacks received from the page. *)
Inductive Event : Type :=
| onImageSelect (image : option GalleryImage.t) (dragPosition : option Point.t)
| setIsDragging (dragging : bool).

Definition setScrollY (v : Z) (s : Store) : Store :=
  {| scrollY := v;
     hoveredImage := hoveredImage s;
     draggedImage := draggedImage s;
     dragPosition := dragPosition s;
     isThumbScrolling := isThumbScrolling s;
     lastPinchState := lastPinchState s;
     lastThumbActionTime := lastThumbActionTime s;
     lastSelectedId := lastSelectedId s |}.

Definition setHoveredImage (v : option string) (s : Store) : Store :=
  {| scrollY := scrollY s;
     hoveredImage := v;
     draggedImage := draggedImage s;
     dragPosition := dragPosition s;
     isThumbScrolling := isThumbScrolling s;
     lastPinchState := lastPinchState s;
     lastThumbActionTime := lastThumbActionTime s;
     lastSelectedId := lastSelectedId s |}.

Definition setDraggedImage (v : option GalleryImage.t) (s : Store) : Store :=
  {| scrollY := scrollY s;
     hoveredImage := hoveredImage s;
     draggedImage := v;
     dragPosition := dragPosition s;
     isThumbScrolling := isThumbScrolling s;
     lastPinchState := lastPinchState s;
     lastThumbActionTime := lastThumbActionTime s;
     lastSelectedId := lastSelectedId s |}.

Definition setDragPosition (v : Point.t) (s : Store) : Store :=
  {| scrollY := scrollY s;
     hoveredImage := hoveredImage s;
     draggedImage := draggedImage s;
     dragPosition := v;
     isThumbScrolling := isThumbScrolling s;
     lastPinchState := lastPinchState s;
     lastThumbActionTime := lastThumbActionTime s;
     lastSelectedId := lastSelectedId s |}.

Definition setIsThumbScrolling (v : option ScrollDir) (s : Store) : Store :=
  {| scrollY := scrollY s;
     hoveredImage := hoveredImage s;
     draggedImage := draggedImage s;
     dragPosition := dragPosition s;
     isThumbScrolling := v;
     lastPinchState := lastPinchState s;
     lastThumbActionTime := lastThumbActionTime s;
     lastSelectedId := lastSelectedId s |}.

Definition setLastPinchState (v : bool) (s : Store) : Store :=
  {| scrollY := scrollY s;
     hoveredImage := hoveredImage s;
     draggedImage := draggedImage s;
     dragPosition := dragPosition s;
     isThumbScrolling := isThumbScrolling s;
     lastPinchState := v;
     lastThumbActionTime := lastThumbActionTime s;
     lastSelectedId := lastSelectedId s |}.

Definition setLastThumbActionTime (v : Z) (s : Store) : Store :=
  {| scrollY := scrollY s;
     hoveredImage := hoveredImage s;
     draggedImage := draggedImage s;
     dragPosition := dragPosition s;
     isThumbScrolling := isThumbScrolling s;
     lastPinchState := lastPinchState s;
     lastThumbActionTime := v;
     lastSelectedId := lastSelectedId s |}.

Definition setLastSelectedId (v : option string) (s : Store) : Store :=
  {| scrollY := scrollY s;
     hoveredImage := hoveredImage s;
     draggedImage := draggedImage s;
     dragPosition := dragPosition s;
     isThumbScrolling := isThumbScrolling s;
     lastPinchState := lastPinchState s;
     lastThumbActionTime := lastThumbActionTime s;
     lastSelectedId := v |}.

Section Effects.

(** The collection shown by the gallery; [GALLERY_IMAGES] in the
    source.  The effects are written over any collection so that the
    results below do not depend on the 23 entries. *)
Variable images : list GalleryImage.t.

(** Every effect takes the props and the store [r] of the render whose
    closure it is, and the current store [c]: state variables are read
    from [r], refs from [c], and every write goes to [c]. *)

(** Keep track of the last selected image. *)
Definition trackSelectedEffect (p : Props) (r c : Store)
  : Store * list Event :=
  match selectedImage p with
  | Some image => (setLastSelectedId (Some (GalleryImage.id image)) c, [])
  | None => (c, [])
  end.

(** The index the navigation starts from: that of the selected image,
    else that of the last selected one, else [dflt]. *)
Definition currentIndex (dflt : Z) (p : Props) (c : Store) : Z :=
  match selectedImage p with
  | Some sel =>
      findIndex
        (fun img => String.eqb (GalleryImage.id img) (GalleryImage.id sel))
        images
  | None =>
      match lastSelectedId c with
      | Some lastId =>
          if truthy lastId
          then findIndex
                 (fun img => String.eqb (GalleryImage.id img) lastId)
                 images
          else dflt
      | None => dflt
      end
  end.

(** Thumbs up / down for next / previous image; [now] is [Date.now()]. *)
Definition thumbEffect (now : Z) (p : Props) (r c : Store)
  : Store * list Event :=
  match rightHand p, draggedImage r with
  | Some hand, None =>
      if now - lastThumbActionTime c <? 1000 then (c, [])
      else if HandData.isThumbsUp hand then
        let c := setIsThumbScrolling (Some down) c in
        let c := setLastThumbActionTime now c in
        let currentIndex := currentIndex (-1) p c in
        let nextIndex :=
          if currentIndex + 1 <? len images then currentIndex + 1 else 0 in
        let nextImage := index images nextIndex in
        let targetScroll := Z.max 0 (nextIndex * 140 - 100) in
        (setScrollY targetScroll c, [onImageSelect nextImage None])
      else if HandData.isThumbsDown hand then
        let c := setIsThumbScrolling (Some up) c in
        let c := setLastThumbActionTime now c in
        let currentIndex := currentIndex 0 p c in
        let prevIndex :=
          if currentIndex - 1 >=? 0 then currentIndex - 1
          else len images - 1 in
        let prevImage := index images prevIndex in
        let targetScroll := Z.max 0 (prevIndex * 140 - 100) in
        (setScrollY targetScroll c, [onImageSelect prevImage None])
      else (setIsThumbScrolling None c, [])
  | _, _ => (setIsThumbScrolling None c, [])
  end.

Definition isInGallery (rect : Rect) (x y : R) : bool :=
  JS.geb x (left rect) && JS.leb x (right rect) &&
  JS.geb y (top rect) && JS.leb y (bottom rect).

(** Pinch-to-drag: the start of a pinch over an image of the gallery.
    The geometric fallback of the source changes nothing (its body is
    commented out) and is left out. *)
Definition pinchStartEffect (dom : Dom) (p : Props) (r c : Store)
  : Store * list Event :=
  match rightHand p, draggedImage r with
  | Some hand, None =>
      if HandData.isThumbsUp hand || HandData.isThumbsDown hand
      then (c, [])
      else
        match galleryRect dom with
        | None => (c, [])
        | Some rect =>
            let x := pinchX (window dom) hand in
            let y := pinchY (window dom) hand in
            let started :=
              if HandData.isPinching hand && isInGallery rect x y
              then
                if negb (lastPinchState c) then
                  match imageIdAt dom x y with
                  | Some id =>
                      match find (fun img =>
                                    String.eqb (GalleryImage.id img) id)
                                 images with
                      | Some image =>
                          (setDragPosition (Point.mk x y)
                             (setDraggedImage (Some image) c),
                           [setIsDragging true])
                      | None => (c, [])
                      end
                  | None => (c, [])
                  end
                else (c, [])
              else (c, []) in
            (setLastPinchState (HandData.isPinching hand) (fst started),
             snd started)
        end
  | _, _ => (c, [])
  end.

(** Dragging an image, and its release when the pinch ends. *)
Definition dragEffect (w : Window) (p : Props) (r c : Store)
  : Store * list Event :=
  match draggedImage r, rightHand p with
  | Some dragged, Some hand =>
      let x := pinchX w hand in
      let y := pinchY w hand in
      let c := setDragPosition (Point.mk x y) c in
      if negb (HandData.isPinching hand) then
        let selected :=
          if (x <? innerWidth w * 0.75)%R
          then [onImageSelect (Some dragged) (Some (Point.mk x y))]
          else [] in
        (setDraggedImage None c, selected ++ [setIsDragging false])
      else (c, [])
  | _, _ => (c, [])
  end.

(** The hovered image under the hand; [id || null] maps the empty
    string to [null]. *)
Definition hoverEffect (dom : Dom) (p : Props) (r c : Store)
  : Store * list Event :=
  match rightHand p, draggedImage r with
  | Some hand, None =>
      match galleryRect dom with
      | None => (c, [])
      | Some rect =>
          let x := pinchX (window dom) hand in
          let y := pinchY (window dom) hand in
          if isInGallery rect x y then
            match imageIdAt dom x y with
            | Some id =>
                (setHoveredImage (if truthy id then Some id else None) c, [])
            | None => (setHoveredImage None c, [])
            end
          else (setHoveredImage None c, [])
      end
  | _, _ => (setHoveredImage None c, [])
  end.

(** One commit in which every effect runs, in the order of the source;
    all of them are closures of the same render [r].  (React runs an effect
    when one of its dependencies changed.  Every published snapshot with a
    hand carries a new [rightHand] object, on which all effects but the
    first depend; the first only copies the selected id again.) *)
Definition commit (now : Z) (dom : Dom) (p : Props) (r : Store)
  : Store * list Event :=
  let '(c1, e1) := trackSelectedEffect p r r in
  let '(c2, e2) := thumbEffect now p r c1 in
  let '(c3, e3) := pinchStartEffect dom p r c2 in
  let '(c4, e4) := dragEffect (window dom) p r c3 in
  let '(c5, e5) := hoverEffect dom p r c4 in
  (c5, e1 ++ e2 ++ e3 ++ e4 ++ e5).

(** A tick: a render with props [p] at time [now], followed by its commit.
    A run threads the store through a sequence of ticks; it returns the
    final store and the callbacks, each with the time of its tick. *)
Fixpoint run (dom : Dom) (ticks : list (Z * Props)) (s : Store)
  : Store * list (Z * Event) :=
  match ticks with
  | [] => (s, [])
  | (now, p) :: rest =>
      let '(s1, events) := commit now dom p s in
      let '(s2, later) := run dom rest s1 in
      (s2, map (pair now) events ++ later)
  end.

End Effects.

End ImageGallery.

(** ** The gallery side bar, scrolling version
    ([components/ImageGallery.tsx]: thumbs scroll the list) *)

Module ImageGalleryScroll.

Local Open Scope R_scope.

Definition GALLERY_IMAGES : list GalleryImage.t :=
  [ GalleryImage.mk "1" "/gallery/image1.jpg" "Project 1";
    GalleryImage.mk "2" "/gallery/image2.jpg" "Project 2";
    GalleryImage.mk "3" "/gallery/image3.jpg" "Project 3";
    GalleryImage.mk "4" "/gallery/image4.jpg" "Certificate 1";
    GalleryImage.mk "5" "/gallery/image5.jpg" "Certificate 2";
    GalleryImage.mk "6" "/gallery/image6.jpg" "Screenshot 1";
    GalleryImage.mk "7" "/gallery/image7.jpg" "Screenshot 2";
    GalleryImage.mk "8" "/gallery/image8.jpg" "Screenshot 3" ]%string.

Definition SCROLL_SPEED : R := 16.

Record Rect : Type :=
  { left : R; right : R; top : R; bottom : R; height : R }.

(** The window and the bounding rectangle of the gallery element. *)
Record Dom : Type :=
  { window : Window;
    galleryRect : option Rect }.

Record Props : Type :=
  { rightHand : option HandData.t }.

(** State variables and the ref [lastPinchState]. *)
Record Store : Type :=
  { scrollY : R;
    hoveredImage : option string;
    draggedImage : option GalleryImage.t;
    dragPosition : Point.t;
    isThumbScrolling : option ImageGallery.ScrollDir;
    lastPinchState : bool }.

Definition setScrollY (v : R) (s : Store) : Store :=
  {| scrollY := v;
     hoveredImage := hoveredImage s;
     draggedImage := draggedImage s;
     dragPosition := dragPosition s;
     isThumbScrolling := isThumbScrolling s;
     lastPinchState := lastPinchState s |}.

Definition setHoveredImage (v : option string) (s : Store) : Store :=
  {| scrollY := scrollY s;
     hoveredImage := v;
     draggedImage := draggedImage s;
     dragPosition := dragPosition s;
     isThumbScrolling := isThumbScrolling s;
     lastPinchState := lastPinchState s |}.

Definition setDraggedImage (v : option GalleryImage.t) (s : Store) : Store :=
  {| scrollY := scrollY s;
     hoveredImage := hoveredImage s;
     draggedImage := v;
     dragPosition := dragPosition s;
     isThumbScrolling := isThumbScrolling s;
     lastPinchState := lastPinchState s |}.

Definition setDragPosition (v : Point.t) (s : Store) : Store :=
  {| scrollY := scrollY s;
     hoveredImage := hoveredImage s;
     draggedImage := draggedImage s;
     dragPosition := v;
     isThumbScrolling := isThumbScrolling s;
     lastPinchState := lastPinchState s |}.

Definition setIsThumbScrolling (v : option ImageGallery.ScrollDir)
           (s : Store) : Store :=
  {| scrollY := scrollY s;
     hoveredImage := hoveredImage s;
     draggedImage := draggedImage s;
     dragPosition := dragPosition s;
     isThumbScrolling := v;
     lastPinchState := lastPinchState s |}.

Definition setLastPinchState (v : bool) (s : Store) : Store :=
  {| scrollY := scrollY s;
     hoveredImage := hoveredImage s;
     draggedImage := draggedImage s;
     dragPosition := dragPosition s;
     isThumbScrolling := isThumbScrolling s;
     lastPinchState := v |}.

Definition isInGallery (rect : Rect) (x y : R) : bool :=
  JS.geb x (left rect) && JS.leb x (right rect) &&
  JS.geb y (top rect) && JS.leb y (bottom rect).

(** The gallery item under a height: [Math.floor(relY / 140)]. *)
Definition imageIndex (relY : R) : Z := Int_part (relY / 140).

Definition inRange (i : Z) : bool :=
  ((i >=? 0) && (i <? ImageGallery.len GALLERY_IMAGES))%Z.

(** Thumbs up / down scroll the gallery. *)
Definition scrollEffect (dom : Dom) (p : Props) (r c : Store)
  : Store * list ImageGallery.Event :=
  match rightHand p, draggedImage r with
  | Some hand, None =>
      match galleryRect dom with
      | None => (c, [])
      | Some rect =>
          let maxScroll :=
            Rmax 0 (IZR (ImageGallery.len GALLERY_IMAGES) * 140
                    - (height rect - 60)) in
          if HandData.isThumbsUp hand then
            (setScrollY (Rmax 0 (scrollY c - SCROLL_SPEED))
               (setIsThumbScrolling (Some ImageGallery.up) c), [])
          else if HandData.isThumbsDown hand then
            (setScrollY (Rmin maxScroll (scrollY c + SCROLL_SPEED))
               (setIsThumbScrolling (Some ImageGallery.down) c), [])
          else (setIsThumbScrolling None c, [])
      end
  | _, _ => (setIsThumbScrolling None c, [])
  end.

(** Pinch-to-drag: the start of a pinch over an item of the gallery. *)
Definition pinchStartEffect (dom : Dom) (p : Props) (r c : Store)
  : Store * list ImageGallery.Event :=
  match rightHand p, draggedImage r with
  | Some hand, None =>
      if HandData.isThumbsUp hand || HandData.isThumbsDown hand then (c, [])
      else
        match galleryRect dom with
        | None => (c, [])
        | Some rect =>
            let x := pinchX (window dom) hand in
            let y := pinchY (window dom) hand in
            let started :=
              if HandData.isPinching hand && isInGallery rect x y then
                if negb (lastPinchState c) then
                  let relY := y - top rect + scrollY r in
                  if inRange (imageIndex relY) then
                    (setDragPosition (Point.mk x y)
                       (setDraggedImage
                          (ImageGallery.index GALLERY_IMAGES (imageIndex relY))
                          c),
                     [ImageGallery.setIsDragging true])
                  else (c, [])
                else (c, [])
              else (c, []) in
            (setLastPinchState (HandData.isPinching hand) (fst started),
             snd started)
        end
  | _, _ => (c, [])
  end.

(** Dragging an image, and its release when the pinch ends. *)
Definition dragEffect (w : Window) (p : Props) (r c : Store)
  : Store * list ImageGallery.Event :=
  match draggedImage r, rightHand p with
  | Some dragged, Some hand =>
      let x := pinchX w hand in
      let y := pinchY w hand in
      let c := setDragPosition (Point.mk x y) c in
      if negb (HandData.isPinching hand) then
        let selected :=
          if x <? innerWidth w * 0.75
          then [ImageGallery.onImageSelect (Some dragged)
                                           (Some (Point.mk x y))]
          else [] in
        (setDraggedImage None c, selected ++ [ImageGallery.setIsDragging false])
      else (c, [])
  | _, _ => (c, [])
  end.

(** The hovered item under the hand. *)
Definition hoverEffect (dom : Dom) (p : Props) (r c : Store)
  : Store * list ImageGallery.Event :=
  match rightHand p, draggedImage r with
  | Some hand, None =>
      match galleryRect dom with
      | None => (c, [])
      | Some rect =>
          let x := pinchX (window dom) hand in
          let y := pinchY (window dom) hand in
          if isInGallery rect x y then
            let relY := y - top rect + scrollY r in
            if inRange (imageIndex relY) then
              (setHoveredImage
                 (option_map GalleryImage.id
                    (ImageGallery.index GALLERY_IMAGES (imageIndex relY))) c,
               [])
            else (setHoveredImage None c, [])
          else (setHoveredImage None c, [])
      end
  | _, _ => (setHoveredImage None c, [])
  end.

(** One commit in which every effect runs, in the order of the source. *)
Definition commit (dom : Dom) (p : Props) (r : Store)
  : Store * list ImageGallery.Event :=
  let '(c1, e1) := scrollEffect dom p r r in
  let '(c2, e2) := pinchStartEffect dom p r c1 in
  let '(c3, e3) := dragEffect (window dom) p r c2 in
  let '(c4, e4) := hoverEffect dom p r c3 in
  (c4, e1 ++ e2 ++ e3 ++ e4).

End ImageGalleryScroll.

(** ** The viewer ([ImageViewer]) *)

Module ImageViewer.

Local Open Scope R_scope.

Record Props : Type :=
  { image : option GalleryImage.t;
    leftHand : option HandData.t;
    rightHand : option HandData.t }.

(** State variables and refs of the component. *)
Record Store : Type :=
  { zoom : R;
    pan : Point.t;
    isDraggingWithRight : bool;
    isInDismissZone : bool;
    isDismissing : bool;
    lastPinchY : R;
    lastPinchX : R;
    isPinching : bool;
    rightPinchStart : option Point.t }.

Definition initialStore : Store :=
  {| zoom := 1;
     pan := Point.mk 0 0;
     isDraggingWithRight := false;
     isInDismissZone := false;
     isDismissing := false;
     lastPinchY := 0;
     lastPinchX := 0;
     isPinching := false;
     rightPinchStart := None |}.

(** What an effect asks of its environment: a call of [onClose], or a
    timer with its callback (a function on the store that may call in
    turn) and its delay in milliseconds. *)
#[warnings="-register-all"]
Inductive Event : Type :=
| onClose
| setTimeout (callback : Store -> Store * list Event) (delay : Z).

Definition setZoom (v : R) (s : Store) : Store :=
  {| zoom := v;
     pan := pan s;
     isDraggingWithRight := isDraggingWithRight s;
     isInDismissZone := isInDismissZone s;
     isDismissing := isDismissing s;
     lastPinchY := lastPinchY s;
     lastPinchX := lastPinchX s;
     isPinching := isPinching s;
     rightPinchStart := rightPinchStart s |}.

Definition setPan (v : Point.t) (s : Store) : Store :=
  {| zoom := zoom s;
     pan := v;
     isDraggingWithRight := isDraggingWithRight s;
     isInDismissZone := isInDismissZone s;
     isDismissing := isDismissing s;
     lastPinchY := lastPinchY s;
     lastPinchX := lastPinchX s;
     isPinching := isPinching s;
     rightPinchStart := rightPinchStart s |}.

Definition setIsDraggingWithRight (v : bool) (s : Store) : Store :=
  {| zoom := zoom s;
     pan := pan s;
     isDraggingWithRight := v;
     isInDismissZone := isInDismissZone s;
     isDismissing := isDismissing s;
     lastPinchY := lastPinchY s;
     lastPinchX := lastPinchX s;
     isPinching := isPinching s;
     rightPinchStart := rightPinchStart s |}.

Definition setIsInDismissZone (v : bool) (s : Store) : Store :=
  {| zoom := zoom s;
     pan := pan s;
     isDraggingWithRight := isDraggingWithRight s;
     isInDismissZone := v;
     isDismissing := isDismissing s;
     lastPinchY := lastPinchY s;
     lastPinchX := lastPinchX s;
     isPinching := isPinching s;
     rightPinchStart := rightPinchStart s |}.

Definition setIsDismissing (v : bool) (s : Store) : Store :=
  {| zoom := zoom s;
     pan := pan s;
     isDraggingWithRight := isDraggingWithRight s;
     isInDismissZone := isInDismissZone s;
     isDismissing := v;
     lastPinchY := lastPinchY s;
     lastPinchX := lastPinchX s;
     isPinching := isPinching s;
     rightPinchStart := rightPinchStart s |}.

Definition setLastPinch (x y : R) (s : Store) : Store :=
  {| zoom := zoom s;
     pan := pan s;
     isDraggingWithRight := isDraggingWithRight s;
     isInDismissZone := isInDismissZone s;
     isDismissing := isDismissing s;
     lastPinchY := y;
     lastPinchX := x;
     isPinching := isPinching s;
     rightPinchStart := rightPinchStart s |}.

Definition setIsPinching (v : bool) (s : Store) : Store :=
  {| zoom := zoom s;
     pan := pan s;
     isDraggingWithRight := isDraggingWithRight s;
     isInDismissZone := isInDismissZone s;
     isDismissing := isDismissing s;
     lastPinchY := lastPinchY s;
     lastPinchX := lastPinchX s;
     isPinching := v;
     rightPinchStart := rightPinchStart s |}.

Definition setRightPinchStart (v : option Point.t) (s : Store) : Store :=
  {| zoom := zoom s;
     pan := pan s;
     isDraggingWithRight := isDraggingWithRight s;
     isInDismissZone := isInDismissZone s;
     isDismissing := isDismissing s;
     lastPinchY := lastPinchY s;
     lastPinchX := lastPinchX s;
     isPinching := isPinching s;
     rightPinchStart := v |}.

(** As in the gallery, an effect reads state variables from the store [r]
    of its render and refs from the current store [c], and writes to
    [c]. *)

(** The callback of the timer started at a dismissing release:
    [onClose(); setIsDismissing(false); setIsInDismissZone(false)]. *)
Definition dismissTimeout (c : Store) : Store * list Event :=
  (setIsInDismissZone false (setIsDismissing false c), [onClose]).

(** Right hand: dragging the image, and dismissing it. *)
Definition rightHandEffect (w : Window) (p : Props) (r c : Store)
  : Store * list Event :=
  match image p, rightHand p with
  | Some _, Some hand =>
      if isDismissing r then (c, [])
      else
        let x := pinchX w hand in
        let y := pinchY w hand in
        let isInMainView := x <? innerWidth w * 0.75 in
        if HandData.isPinching hand && isInMainView then
          match rightPinchStart c with
          | None =>
              (setIsDraggingWithRight true
                 (setRightPinchStart (Some (Point.mk x y)) c), [])
          | Some start =>
              let deltaX := x - Point.x start in
              let deltaY := y - Point.y start in
              let dismissThreshold := innerHeight w * 0.85 in
              (setIsInDismissZone (y >? dismissThreshold)
                 (setPan (Point.mk deltaX deltaY) c), [])
          end
        else
          match negb (HandData.isPinching hand), rightPinchStart c with
          | true, Some _ =>
              let released :=
                if isInDismissZone r
                then (setIsDismissing true c, [setTimeout dismissTimeout 400])
                else (setPan (Point.mk 0 0) c, []) in
              (setIsInDismissZone false
                 (setIsDraggingWithRight false
                    (setRightPinchStart None (fst released))),
               snd released)
          | _, _ => (c, [])
          end
  | _, _ => (c, [])
  end.

(** Left hand: zoom and pan. *)
Definition leftHandEffect (w : Window) (p : Props) (r c : Store)
  : Store * list Event :=
  match image p, leftHand p with
  | Some _, Some hand =>
      if isDraggingWithRight r then (c, [])
      else
        let y := pinchY w hand in
        let x := pinchX w hand in
        if HandData.isPinching hand then
          if negb (isPinching c) then
            (setIsPinching true (setLastPinch x y c), [])
          else
            let deltaY := y - lastPinchY c in
            let deltaX := x - lastPinchX c in
            let c :=
              if Rabs deltaY >? Rabs deltaX * 0.5 then
                let zoomDelta := - deltaY * 0.008 in
                setZoom (Rmax 0.5 (Rmin 4 (zoom c + zoomDelta))) c
              else c in
            let c :=
              if Rabs deltaX >? 5 then
                setPan (Point.mk
                          (Rmax (-300) (Rmin 300 (Point.x (pan c) + deltaX * 0.5)))
                          (Point.y (pan c))) c
              else c in
            (setLastPinch x y c, [])
        else (setIsPinching false c, [])
  | _, _ => (c, [])
  end.

(** Reset when the image changes (runs when [image?.id] changed). *)
Definition resetEffect (c : Store) : Store * list Event :=
  (setRightPinchStart None
     (setIsDismissing false
        (setIsInDismissZone false
           (setIsDraggingWithRight false
              (setPan (Point.mk 0 0) (setZoom 1 c))))), []).

End ImageViewer.

(** ** The specification's vocabulary

    Definitions that follow the words of the specification; the results
    below compare them with the code. *)

Module Spec.

Local Open Scope R_scope.

(** Landmark [i] of a hand of 21 landmarks: 0 is the wrist, 1 to 4 the
    thumb (CMC, MCP, IP, tip), then MCP, PIP, DIP and tip of the index
    (5 to 8), middle (9 to 12), ring (13 to 16) and pinky (17 to 20). *)
Definition landmark (hand : list Landmark.t) (i : nat) : Landmark.t :=
  nth i hand (Landmark.mk 0 0 0).

Definition wrist hand := landmark hand 0.
Definition thumbCMC hand := landmark hand 1.
Definition thumbTip hand := landmark hand 4.
Definition indexTip hand := landmark hand 8.

(** Euclidean distance in (x, y, z). *)
Definition distance (a b : Landmark.t) : R :=
  sqrt (Rsqr (Landmark.x a - Landmark.x b) +
        Rsqr (Landmark.y a - Landmark.y b) +
        Rsqr (Landmark.z a - Landmark.z b)).

(** Midpoint in (x, y) only. *)
Definition midpoint (a b : Landmark.t) : Point.t :=
  Point.mk ((Landmark.x a + Landmark.x b) / 2)
           ((Landmark.y a + Landmark.y b) / 2).

(** "Fingers curled": for index, middle, ring and pinky the tip is below
    its PIP joint (y grows downward). *)
Definition curled (hand : list Landmark.t) : Prop :=
  Landmark.y (landmark hand 8) > Landmark.y (landmark hand 6) /\
  Landmark.y (landmark hand 12) > Landmark.y (landmark hand 10) /\
  Landmark.y (landmark hand 16) > Landmark.y (landmark hand 14) /\
  Landmark.y (landmark hand 20) > Landmark.y (landmark hand 18).

(** "Thumb extended": the thumb tip is far enough from the wrist. *)
Definition extended (hand : list Landmark.t) : Prop :=
  Rabs (Landmark.x (thumbTip hand) - Landmark.x (wrist hand)) > 0.05 \/
  Rabs (Landmark.y (thumbTip hand) - Landmark.y (wrist hand)) > 0.1.

(** Thumb verticality: positive when the tip is above its base. *)
Definition thumbVertical (hand : list Landmark.t) : R :=
  Landmark.y (thumbCMC hand) - Landmark.y (thumbTip hand).

(** A callback whose evaluation completes: when both arrays are present,
    every hand has its 21 landmarks and its handedness entry. *)
Definition wellFormed (results : HandTracking.Results) : Prop :=
  match HandTracking.multiHandLandmarks results,
        HandTracking.multiHandedness results with
  | Some hands, Some handednesses =>
      (List.length hands <= List.length handednesses)%nat /\
      Forall (fun hand => List.length hand = 21%nat) hands
  | _, _ => True
  end.

(** The detections of a callback, in the order of the arrays. *)
Definition Detection : Type :=
  (list Landmark.t * HandTracking.HandednessEntry)%type.

Definition detections (results : HandTracking.Results) : list Detection :=
  match HandTracking.multiHandLandmarks results,
        HandTracking.multiHandedness results with
  | Some hands, Some handednesses => combine hands handednesses
  | _, _ => []
  end.

(** The side a detection maps to: the source label flipped. *)
Definition sideOf (d : Detection) : Handedness :=
  if String.eqb (HandTracking.label (snd d)) "Left" then Right else Left.

Definition sameSide (a b : Handedness) : bool :=
  match a, b with
  | Left, Left | Right, Right => true
  | _, _ => false
  end.

(** The last detection that maps to [side], if there is one. *)
Fixpoint lastOnSide (side : Handedness) (ds : list Detection)
  : option Detection :=
  match ds with
  | [] => None
  | d :: rest =>
      match lastOnSide side rest with
      | Some later => Some later
      | None => if sameSide (sideOf d) side then Some d else None
      end
  end.

(** The hand published on [side] by a list of detections: the
    classification of the last detection that maps to that side, [null]
    when there is none. *)
Definition published (side : Handedness) (ds : list Detection)
  : option HandData.t :=
  d <- lastOnSide side ds ;; HandTracking.classify (fst d) (snd d).

(** *** Navigation *)

(** [k] is the position of the item with identifier [id] in the
    collection (the first one, should identifiers repeat). *)
Definition positionOf (images : list GalleryImage.t) (id : string) (k : Z)
  : Prop :=
  (exists img, ImageGallery.index images k = Some img /\
               GalleryImage.id img = id) /\
  (forall j img, (0 <= j < k)%Z -> ImageGallery.index images j = Some img ->
                 GalleryImage.id img <> id).

(** The current index: that of the selected item or, when nothing is
    selected, that of the last selected item known to the gallery. *)
Definition isCurrent (images : list GalleryImage.t) (p : ImageGallery.Props)
           (c : ImageGallery.Store) (k : Z) : Prop :=
  match ImageGallery.selectedImage p with
  | Some sel => positionOf images (GalleryImage.id sel) k
  | None =>
      match ImageGallery.lastSelectedId c with
      | Some lastId => positionOf images lastId k
      | None => False
      end
  end.

(** Identifiers are not empty. *)
Definition idsNonEmpty (images : list GalleryImage.t) : Prop :=
  Forall (fun img => GalleryImage.id img <> EmptyString) images.

(** A tick without a gesture: no hand, or a hand that shows no thumb and
    does not pinch. *)
Definition idle (tick : Z * ImageGallery.Props) : Prop :=
  match ImageGallery.rightHand (snd tick) with
  | None => True
  | Some hand =>
      HandData.isThumbsUp hand = false /\
      HandData.isThumbsDown hand = false /\
      HandData.isPinching hand = false
  end.

(** A tick that shows a thumb gesture ([isThumbsUp] or [isThumbsDown]). *)
Definition thumb (tick : Z * ImageGallery.Props) : Prop :=
  exists hand,
    ImageGallery.rightHand (snd tick) = Some hand /\
    (HandData.isThumbsUp hand = true \/ HandData.isThumbsDown hand = true).

(** The thumb signal goes from false to true once and then stays true:
    idle ticks, then a non-empty sequence of thumb ticks, none of them
    earlier than the first, which comes at least 1000 ms after the start
    of the epoch. *)
Definition risesOnce (ticks : list (Z * ImageGallery.Props)) : Prop :=
  exists before first held,
    ticks = before ++ first :: held /\
    Forall idle before /\
    thumb first /\ Forall thumb held /\
    (1000 <= fst first)%Z /\
    Forall (fun tick => (fst first <= fst tick)%Z) held.

(** The times at which a held thumb gesture is accepted, given the time of
    the last accepted gesture and the times of the ticks that show it: a
    tick is accepted when it comes 1000 ms or more after the last
    accepted one. *)
Fixpoint accepted (last : Z) (times : list Z) : list Z :=
  match times with
  | [] => []
  | t :: rest =>
      if (t - last <? 1000)%Z then accepted last rest
      else t :: accepted t rest
  end.

(** The fields that decide navigation and drag. *)
Definition sameDrag (s s' : ImageGallery.Store) : Prop :=
  ImageGallery.draggedImage s' = ImageGallery.draggedImage s /\
  ImageGallery.lastThumbActionTime s' = ImageGallery.lastThumbActionTime s.

End Spec.

(** ** Sample inputs *)

Module Samples.

Local Open Scope R_scope.

Definition L (x y z : R) : Landmark.t := Landmark.mk x y z.

(** A fist with the thumb pointing up: every finger tip is below its PIP
    joint and the thumb tip is 0.15 above the thumb CMC. *)
Definition thumbsUpHand : list Landmark.t :=
  [ L 0.5 0.8 0;                                         (* wrist *)
    L 0.45 0.7 0; L 0.42 0.65 0; L 0.41 0.6 0; L 0.4 0.55 0;   (* thumb *)
    L 0.5 0.6 0; L 0.5 0.55 0; L 0.5 0.58 0; L 0.5 0.62 0;     (* index *)
    L 0.55 0.6 0; L 0.55 0.55 0; L 0.55 0.58 0; L 0.55 0.62 0; (* middle *)
    L 0.6 0.6 0; L 0.6 0.55 0; L 0.6 0.58 0; L 0.6 0.62 0;     (* ring *)
    L 0.65 0.6 0; L 0.65 0.55 0; L 0.65 0.58 0; L 0.65 0.62 0  (* pinky *)
  ].

(** The same fist turned over: the thumb tip is 0.15 below the CMC. *)
Definition thumbsDownHand : list Landmark.t :=
  [ L 0.5 0.4 0;
    L 0.45 0.5 0; L 0.42 0.55 0; L 0.41 0.6 0; L 0.4 0.65 0;
    L 0.5 0.6 0; L 0.5 0.55 0; L 0.5 0.58 0; L 0.5 0.62 0;
    L 0.55 0.6 0; L 0.55 0.55 0; L 0.55 0.58 0; L 0.55 0.62 0;
    L 0.6 0.6 0; L 0.6 0.55 0; L 0.6 0.58 0; L 0.6 0.62 0;
    L 0.65 0.6 0; L 0.65 0.55 0; L 0.65 0.58 0; L 0.65 0.62 0 ].

(** A hand that reaches down from above and pinches at (x, y): thumb tip
    and index tip are both at (x, y); the middle, ring and pinky fingers
    are stretched. *)
Definition pinchingAt (x y : R) : list Landmark.t :=
  [ L x (y - 0.3) 0;
    L (x - 0.05) (y - 0.2) 0; L (x - 0.06) (y - 0.12) 0;
    L (x - 0.04) (y - 0.05) 0; L x y 0;
    L (x + 0.02) (y - 0.15) 0; L (x + 0.03) (y - 0.08) 0;
    L (x + 0.02) (y - 0.03) 0; L x y 0;
    L (x + 0.05) (y - 0.15) 0; L (x + 0.06) (y - 0.1) 0;
    L (x + 0.06) (y - 0.12) 0; L (x + 0.05) (y - 0.14) 0;
    L (x + 0.08) (y - 0.15) 0; L (x + 0.09) (y - 0.1) 0;
    L (x + 0.09) (y - 0.12) 0; L (x + 0.08) (y - 0.14) 0;
    L (x + 0.11) (y - 0.15) 0; L (x + 0.12) (y - 0.1) 0;
    L (x + 0.12) (y - 0.12) 0; L (x + 0.11) (y - 0.14) 0 ].

(** The same hand with thumb tip and index tip 0.2 apart, around (x, y). *)
Definition openAt (x y : R) : list Landmark.t :=
  [ L x (y - 0.3) 0;
    L (x - 0.1) (y - 0.2) 0; L (x - 0.12) (y - 0.12) 0;
    L (x - 0.11) (y - 0.05) 0; L (x - 0.1) y 0;
    L (x + 0.08) (y - 0.15) 0; L (x + 0.1) (y - 0.08) 0;
    L (x + 0.1) (y - 0.03) 0; L (x + 0.1) y 0;
    L (x + 0.13) (y - 0.15) 0; L (x + 0.14) (y - 0.1) 0;
    L (x + 0.14) (y - 0.12) 0; L (x + 0.13) (y - 0.14) 0;
    L (x + 0.16) (y - 0.15) 0; L (x + 0.17) (y - 0.1) 0;
    L (x + 0.17) (y - 0.12) 0; L (x + 0.16) (y - 0.14) 0;
    L (x + 0.19) (y - 0.15) 0; L (x + 0.2) (y - 0.1) 0;
    L (x + 0.2) (y - 0.12) 0; L (x + 0.19) (y - 0.14) 0 ].

(** What the classifier makes of these hands ([classify_pinchingAt],
    [classify_openAt], [classify_thumbsUpHand] and
    [classify_thumbsDownHand] below). *)
Definition pinchSignal (side : Handedness) (x y : R) : HandData.t :=
  HandData.mk (pinchingAt x y) side true (Point.mk x y) 1 false false false.

Definition openSignal (side : Handedness) (x y : R) : HandData.t :=
  HandData.mk (openAt x y) side false (Point.mk x y) 0 false false false.

Definition upSignal : HandData.t :=
  HandData.mk thumbsUpHand Right false (Point.mk 0.45 0.585) 0
              true false false.

Definition downSignal : HandData.t :=
  HandData.mk thumbsDownHand Right false (Point.mk 0.45 0.635) 0
              false true false.

Definition restSignal : HandData.t := openSignal Right 0.45 0.585.

(** A hook whose last processed callback was at 1000 ms. *)
Definition hookAt1000 : HandTracking.Hook :=
  {| HandTracking.state :=
       {| HandTracking.leftHand := None;
          HandTracking.rightHand := None;
          HandTracking.isReady := true |};
     HandTracking.lastProcessTime := 1000 |}.

(** A callback in which the detector labels both hands 'Left'. *)
Definition twoLeftLabels : HandTracking.Results :=
  {| HandTracking.multiHandLandmarks := Some [thumbsUpHand; thumbsDownHand];
     HandTracking.multiHandedness :=
       Some [ {| HandTracking.label := "Left" |};
              {| HandTracking.label := "Left" |} ] |}.

(** A callback with one hand, labelled 'Right' by the detector. *)
Definition oneRightLabel : HandTracking.Results :=
  {| HandTracking.multiHandLandmarks := Some [pinchingAt 0.5 0.5];
     HandTracking.multiHandedness :=
       Some [ {| HandTracking.label := "Right" |} ] |}.

Definition image (k : Z) : option GalleryImage.t :=
  ImageGallery.index ImageGallery.GALLERY_IMAGES k.

(** A window of 1280 by 720 pixels whose right quarter is the gallery; the
    hands of the samples are over the main view, where no gallery image
    is. *)
Definition window : Window :=
  {| innerWidth := 1280; innerHeight := 720 |}.

Definition dom : ImageGallery.Dom :=
  {| ImageGallery.window := window;
     ImageGallery.galleryRect :=
       Some {| ImageGallery.left := 960; ImageGallery.right := 1280;
               ImageGallery.top := 60; ImageGallery.bottom := 720 |};
     ImageGallery.imageIdAt := fun _ _ => None |}.

(** A thumbs-up that is held for one second.  The hand shows nothing at
    1700000000000 ms and a thumbs-up 100 ms later; the page answers by
    selecting the first image, which runs the effect again, and the
    snapshots that follow every 100 ms all show the thumbs-up. *)
Definition idleTick : Z * ImageGallery.Props :=
  (1700000000000,
   {| ImageGallery.rightHand := Some restSignal;
      ImageGallery.selectedImage := None |})%Z.

Definition riseTick : Z * ImageGallery.Props :=
  (1700000000100,
   {| ImageGallery.rightHand := Some upSignal;
      ImageGallery.selectedImage := None |})%Z.

Definition heldTick (k : Z) : Z * ImageGallery.Props :=
  (1700000000100 + 100 * k,
   {| ImageGallery.rightHand := Some upSignal;
      ImageGallery.selectedImage := image 0 |})%Z.

Definition heldThumbsUp : list (Z * ImageGallery.Props) :=
  idleTick :: riseTick :: map heldTick [0; 1; 2; 3; 4; 5; 6; 7; 8; 9; 10]%Z.

(** A gallery in the middle of a drag of the first image. *)
Definition draggingStore : ImageGallery.Store :=
  ImageGallery.setDragPosition (Point.mk 1100 200)
    (ImageGallery.setDraggedImage (image 0)
       (ImageGallery.setLastPinchState true ImageGallery.initialStore)).

(** The hand is lost: the snapshot has no right hand. *)
Definition handLost : ImageGallery.Props :=
  {| ImageGallery.rightHand := None;
     ImageGallery.selectedImage := None |}.

(** Right hands over the main view of the viewer: pinching inside the
    bottom 15% of the window (y = 0.9), pinching above it (y = 0.5), and
    open at y = 0.9. *)
Definition pinchLow : HandData.t := pinchSignal Right 0.5 0.9.
Definition pinchMid : HandData.t := pinchSignal Right 0.5 0.5.

(** Left hands: pinching at (0.5, 0.5), and pinching 0.0125 further to the
    left of the camera image and 0.025 lower (16 px to the right on the
    mirrored screen and 18 px down). *)
Definition leftPinch : HandData.t := pinchSignal Left 0.5 0.5.
Definition leftPinchMoved : HandData.t := pinchSignal Left 0.4875 0.525.

Definition viewing (left right : option HandData.t) : ImageViewer.Props :=
  {| ImageViewer.image := image 0;
     ImageViewer.leftHand := left;
     ImageViewer.rightHand := right |}.

End Samples.

(** ** The detector's callbacks over time *)

Module Detector.

Import HandTracking.
Local Open Scope R_scope.

(** [setState(prev => ({ ...prev, isReady: true }))], once the detector is
    loaded. *)
Definition ready (h : Hook) : Hook :=
  {| state := {| leftHand := leftHand (state h);
                 rightHand := rightHand (state h);
                 isReady := true |};
     lastProcessTime := lastProcessTime h |}.

(** [hands.onResults(processResults)]: the detector calls [processResults]
    with the results of every frame it has analysed.  A call is given by
    the value of [performance.now()] during the call and by the results.
    The frame loop catches what a call throws ("Ignore send errors") and
    goes on with the next frame. *)
Fixpoint onResults (calls : list (R * Results)) (h : Hook)
  : Hook * list Outcome :=
  match calls with
  | [] => (h, [])
  | (now, results) :: rest =>
      let '(h1, outcome) := processResults now results h in
      let '(h2, outcomes) := onResults rest h1 in
      (h2, outcome :: outcomes)
  end.

Definition dropped (outcome : Outcome) : bool :=
  match outcome with
  | Dropped => true
  | _ => false
  end.

(** The times of the calls that got past the throttle. *)
Fixpoint processedTimes (calls : list (R * Results))
         (outcomes : list Outcome) : list R :=
  match calls, outcomes with
  | (now, _) :: calls', outcome :: outcomes' =>
      if dropped outcome then processedTimes calls' outcomes'
      else now :: processedTimes calls' outcomes'
  | _, _ => []
  end.

(** Each time is 16 ms or more after the one before it, the first one
    16 ms or more after [last]. *)
Fixpoint spaced (last : R) (times : list R) : Prop :=
  match times with
  | [] => True
  | t :: rest => t - last >= 16 /\ spaced t rest
  end.

(** Each slot of the snapshot holds a hand of its own side. *)
Definition sidesAgree (st : HandTrackingState) : Prop :=
  (forall hand, leftHand st = Some hand ->
                HandData.handedness hand = Left) /\
  (forall hand, rightHand st = Some hand ->
                HandData.handedness hand = Right).

End Detector.

(** ** The page ([Home]) *)

Module Home.

Local Open Scope R_scope.

(** The state variables of the page. *)
Record Store : Type :=
  { isLoading : bool;
    cameraReady : bool;
    selectedImage : option GalleryImage.t;
    isDragging : bool;
    initialDragPos : option Point.t }.

Definition initialStore : Store :=
  {| isLoading := true;
     cameraReady := false;
     selectedImage := None;
     isDragging := false;
     initialDragPos := None |}.

Definition setIsDragging (dragging : bool) (s : Store) : Store :=
  {| isLoading := isLoading s;
     cameraReady := cameraReady s;
     selectedImage := selectedImage s;
     isDragging := dragging;
     initialDragPos := initialDragPos s |}.

Definition handleImageSelect (image : option GalleryImage.t)
           (dragPosition : option Point.t) (s : Store) : Store :=
  {| isLoading := isLoading s;
     cameraReady := cameraReady s;
     selectedImage := image;
     isDragging := isDragging s;
     initialDragPos := dragPosition |}.

Definition handleCloseImage (s : Store) : Store :=
  {| isLoading := isLoading s;
     cameraReady := cameraReady s;
     selectedImage := None;
     isDragging := isDragging s;
     initialDragPos := None |}.

(** The props the page hands to the gallery and to the viewer. *)
Definition galleryProps (tracking : HandTracking.HandTrackingState)
           (s : Store) : ImageGallery.Props :=
  {| ImageGallery.rightHand := HandTracking.rightHand tracking;
     ImageGallery.selectedImage := selectedImage s |}.

Definition viewerProps (tracking : HandTracking.HandTrackingState)
           (s : Store) : ImageViewer.Props :=
  {| ImageViewer.image := selectedImage s;
     ImageViewer.leftHand := HandTracking.leftHand tracking;
     ImageViewer.rightHand := HandTracking.rightHand tracking |}.

(** A call of one of the callbacks the gallery received:
    [onImageSelect={handleImageSelect}] and
    [setIsDragging={setIsDragging}]. *)
Definition galleryCall (s : Store) (e : ImageGallery.Event) : Store :=
  match e with
  | ImageGallery.onImageSelect image dragPosition =>
      handleImageSelect image dragPosition s
  | ImageGallery.setIsDragging dragging => setIsDragging dragging s
  end.

Definition galleryCalls (events : list ImageGallery.Event) (s : Store)
  : Store :=
  fold_left galleryCall events s.

(** A published snapshot reaches the gallery: the page renders it with
    [galleryProps], the gallery commits, and its calls change the page. *)
Definition galleryTick (images : list GalleryImage.t) (now : Z)
           (dom : ImageGallery.Dom)
           (tracking : HandTracking.HandTrackingState)
           (app : Store * ImageGallery.Store)
  : Store * ImageGallery.Store :=
  let '(gallery, events) :=
    ImageGallery.commit images now dom (galleryProps tracking (fst app))
                        (snd app) in
  (galleryCalls events (fst app), gallery).

(** A call the viewer makes: [onClose={handleCloseImage}]; a timer the
    viewer starts is the browser's business and leaves the page as it
    is. *)
Definition viewerCall (s : Store) (e : ImageViewer.Event) : Store :=
  match e with
  | ImageViewer.onClose => handleCloseImage s
  | ImageViewer.setTimeout _ _ => s
  end.

Definition viewerCalls (events : list ImageViewer.Event) (s : Store)
  : Store :=
  fold_left viewerCall events s.

(** *** The mirrored camera image ([drawFrame]) *)

Record Video : Type :=
  { videoWidth : R;
    videoHeight : R }.

(** The local variables of [drawFrame]. *)
Record Cover : Type :=
  { drawWidth : R;
    drawHeight : R;
    offsetX : R;
    offsetY : R }.

(** "Calculate cover dimensions"; the canvas has the size of the
    window. *)
Definition cover (video : Video) (w : Window) : Cover :=
  let videoAspect := videoWidth video / videoHeight video in
  let canvasAspect := innerWidth w / innerHeight w in
  if canvasAspect >? videoAspect then
    let drawWidth := innerWidth w in
    let drawHeight := innerWidth w / videoAspect in
    {| drawWidth := drawWidth;
       drawHeight := drawHeight;
       offsetX := 0;
       offsetY := (innerHeight w - drawHeight) / 2 |}
  else
    let drawWidth := innerHeight w * videoAspect in
    let drawHeight := innerHeight w in
    {| drawWidth := drawWidth;
       drawHeight := drawHeight;
       offsetX := (innerWidth w - drawWidth) / 2;
       offsetY := 0 |}.

(** [ctx.scale(-1, 1); ctx.drawImage(video, -offsetX - drawWidth, offsetY,
    drawWidth, drawHeight)]: under the mirroring a point drawn at [x] lands
    at [-x], so the image fills the rectangle of the canvas given here. *)
Definition drawn (c : Cover) : ImageGallery.Rect :=
  let dx := - offsetX c - drawWidth c in
  {| ImageGallery.left := - (dx + drawWidth c);
     ImageGallery.right := - dx;
     ImageGallery.top := offsetY c;
     ImageGallery.bottom := offsetY c + drawHeight c |}.

End Home.

(** ** The timer ([Timer]) *)

Module Timer.

(** [setSeconds(prev => prev + 1)], once per second. *)
Definition tick (seconds : nat) : nat := seconds + 1.

(** Single digit minutes. *)
Definition minutes (seconds : nat) : nat := (seconds / 60) mod 10.

Definition secs (seconds : nat) : nat := seconds mod 60.

(** [n.toString()] and the number in a template literal, for a natural
    number. *)
Definition toString (n : nat) : string :=
  NilZero.string_of_uint (Nat.to_uint n).

(** The first [k] characters of [rest] followed by [fill] over and over. *)
Fixpoint cycle (k : nat) (fill rest : string) : string :=
  match k with
  | O => EmptyString
  | S k' =>
      match rest with
      | String c rest' => String c (cycle k' fill rest')
      | EmptyString =>
          match fill with
          | String c rest' => String c (cycle k' fill rest')
          | EmptyString => EmptyString
          end
      end
  end.

(** [s.padStart(targetLength, padString)]. *)
Definition padStart (targetLength : nat) (padString s : string) : string :=
  (cycle (targetLength - String.length s) padString padString ++ s)%string.

Definition formatTime (seconds : nat) : string :=
  (toString (minutes seconds) ++ ":" ++
   padStart 2 "0" (toString (secs seconds)))%string.

(** The display read back: the seconds that a display of the form
    [m:ss] stands for. *)
Definition digit (c : ascii) : nat := nat_of_ascii c - 48.

Definition readTime (shown : string) : nat :=
  match shown with
  | String m (String _ (String s1 (String s2 EmptyString))) =>
      digit m * 60 + digit s1 * 10 + digit s2
  | _ => 0
  end.

(** The display after [n] ticks of the interval. *)
Definition display (n : nat) : string :=
  formatTime (Nat.iter n tick 0%nat).

End Timer.

(** ** Sequences of effect runs of the viewer *)

Module Viewing.

Import ImageViewer.

(** One run of an effect of the viewer, or of the callback of its timer.
    An effect is the closure of a render: it comes with the props and the
    store [r] of that render. *)
Inductive Action : Type :=
| RightHand (p : Props) (r : Store)
| LeftHand (p : Props) (r : Store)
| NewImage
| TimerFired.

Definition act (w : Window) (c : Store) (a : Action) : Store :=
  match a with
  | RightHand p r => fst (rightHandEffect w p r c)
  | LeftHand p r => fst (leftHandEffect w p r c)
  | NewImage => fst (resetEffect c)
  | TimerFired => fst (dismissTimeout c)
  end.

Definition acts (w : Window) (actions : list Action) (c : Store) : Store :=
  fold_left (act w) actions c.

(** The width of the zoom indicator, in percent:
    [((zoom - 0.5) / 3.5) * 100]. *)
Definition zoomBarWidth (s : Store) : R :=
  ((zoom s - 0.5) / 3.5 * 100)%R.

(** The left hand that a run of the left-hand effect works on: none when
    the guard [!image || !leftHand || isDraggingWithRight] ends the run,
    and none for the other actions. *)
Definition processedHand (a : Action) : option HandData.t :=
  match a with
  | LeftHand p r =>
      match image p, leftHand p with
      | Some _, Some hand =>
          if isDraggingWithRight r then None else Some hand
      | _, _ => None
      end
  | _ => None
  end.

(** The hand of the last run of the left-hand effect that got past its
    guard, [last] when [a] is no such run. *)
Definition processed (last : option HandData.t) (a : Action)
  : option HandData.t :=
  match processedHand a with
  | Some hand => Some hand
  | None => last
  end.

Definition lastProcessed (actions : list Action) : option HandData.t :=
  fold_left processed actions None.

(** The pinch that the controller holds after [actions]: the hand of the
    last processed run, when it was pinching. *)
Definition held (actions : list Action) : option HandData.t :=
  match lastProcessed actions with
  | Some hand => if HandData.isPinching hand then Some hand else None
  | None => None
  end.

(** The latch and the reference of the left-hand effect go with the hand
    [last] of the last processed run. *)
Definition follows (w : Window) (last : option HandData.t) (c : Store)
  : Prop :=
  match last with
  | Some hand =>
      isPinching c = HandData.isPinching hand /\
      (HandData.isPinching hand = true ->
       lastPinchX c = pinchX w hand /\ lastPinchY c = pinchY w hand)
  | None => isPinching c = false
  end.

(** The gesture signal of the left hand in a snapshot: a hand that is not
    seen does not pinch. *)
Definition leftPinching (p : Props) : bool :=
  match leftHand p with
  | Some hand => HandData.isPinching hand
  | None => false
  end.

(** [image?.id], [None] for [undefined]. *)
Definition imageId (p : Props) : option string :=
  match image p with
  | Some shown => Some (GalleryImage.id shown)
  | None => None
  end.

(** The comparison of a dependency [image?.id] with its last value. *)
Definition sameId (a b : option string) : bool :=
  match a, b with
  | Some x, Some y => String.eqb x y
  | None, None => true
  | _, _ => false
  end.

(** One commit of a render with new props from the page (a new snapshot
    or a new image).  The effects run in the order in which the component
    declares them, closures of the same render [r]: the right-hand effect,
    the left-hand effect and, at the mount and when [image?.id] is not
    what it was at the render before, the reset effect.  [last] is
    [image?.id] of the render before, [None] at the mount. *)
Definition commit (w : Window) (last : option (option string)) (p : Props)
           (r : Store) : Store * list Event :=
  let '(c1, e1) := rightHandEffect w p r r in
  let '(c2, e2) := leftHandEffect w p r c1 in
  let '(c3, e3) :=
    match last with
    | Some id => if sameId id (imageId p) then (c2, []) else resetEffect c2
    | None => resetEffect c2
    end in
  (c3, e1 ++ e2 ++ e3).

Fixpoint run (w : Window) (last : option (option string))
         (ticks : list Props) (s : Store) : Store * list Event :=
  match ticks with
  | [] => (s, [])
  | p :: rest =>
      let '(s1, events) := commit w last p s in
      let '(s2, later) := run w (Some (imageId p)) rest s1 in
      (s2, events ++ later)
  end.

(** A tick of a drag with the right hand: the image [id] is shown and the
    right hand pinches over the main view. *)
Definition dragging (w : Window) (id : string) (p : Props) : Prop :=
  imageId p = Some id /\
  exists hand,
    rightHand p = Some hand /\ HandData.isPinching hand = true /\
    (pinchX w hand < innerWidth w * 0.75)%R.

(** A tick at which the viewer has nothing to do: [image?.id] is [last],
    what it was before, and no image is shown, or the store [s] is in a
    drag with the right hand and the right hand is out of sight. *)
Definition still (last : option string) (s : Store) (p : Props) : Prop :=
  imageId p = last /\
  (image p = None \/
   (isDraggingWithRight s = true /\ rightHand p = None)).

End Viewing.

(** ** Terms of the further results *)

Module Terms.

(** A tick at which the right hand, if it is seen, is pinching. *)
Definition noRelease (tick : Z * ImageGallery.Props) : Prop :=
  match ImageGallery.rightHand (snd tick) with
  | Some hand => HandData.isPinching hand = true
  | None => True
  end.

(** The identifier of the image selected last in a sequence of ticks,
    [init] when no tick has a selected image. *)
Fixpoint remembered (init : option string)
         (ticks : list (Z * ImageGallery.Props)) : option string :=
  match ticks with
  | [] => init
  | (_, p) :: rest =>
      remembered
        match ImageGallery.selectedImage p with
        | Some sel => Some (GalleryImage.id sel)
        | None => init
        end rest
  end.

(** The page's [isDragging] says whether the gallery holds an image. *)
Definition inSync (app : Home.Store * ImageGallery.Store) : Prop :=
  Home.isDragging (fst app) =
    match ImageGallery.draggedImage (snd app) with
    | Some _ => true
    | None => false
    end.

(** What a sequence of calls of the gallery leaves in the page's
    [isDragging]. *)
Definition lastDragging (events : list ImageGallery.Event) (init : bool)
  : bool :=
  fold_left (fun dragging e =>
               match e with
               | ImageGallery.setIsDragging d => d
               | ImageGallery.onImageSelect _ _ => dragging
               end) events init.

End Terms.

(** ** Further sample inputs *)

Module Cases.

Local Open Scope R_scope.

(** An open hand held up: the four fingers point upward, every tip above
    its PIP joint, and the thumb is spread to the side. *)
Definition palmHand : list Landmark.t :=
  [ Samples.L 0.5 0.8 0;
    Samples.L 0.45 0.75 0; Samples.L 0.4 0.7 0;
    Samples.L 0.35 0.65 0; Samples.L 0.3 0.6 0;
    Samples.L 0.45 0.6 0; Samples.L 0.45 0.5 0;
    Samples.L 0.45 0.45 0; Samples.L 0.45 0.4 0;
    Samples.L 0.5 0.6 0; Samples.L 0.5 0.5 0;
    Samples.L 0.5 0.42 0; Samples.L 0.5 0.35 0;
    Samples.L 0.55 0.6 0; Samples.L 0.55 0.5 0;
    Samples.L 0.55 0.45 0; Samples.L 0.55 0.4 0;
    Samples.L 0.6 0.62 0; Samples.L 0.6 0.52 0;
    Samples.L 0.6 0.48 0; Samples.L 0.6 0.45 0 ].

(** What the classifier makes of it ([classify_palmHand] below). *)
Definition palmSignal : HandData.t :=
  HandData.mk palmHand Right false (Point.mk 0.375 0.5) 0 false false true.

(** A detection cut short: only the wrist and the thumb. *)
Definition thumbOnly : list Landmark.t :=
  [ Samples.L 0.5 0.8 0;
    Samples.L 0.45 0.75 0; Samples.L 0.4 0.7 0;
    Samples.L 0.35 0.65 0; Samples.L 0.3 0.6 0 ].

Definition cutShort : HandTracking.Results :=
  {| HandTracking.multiHandLandmarks :=
       Some [Samples.pinchingAt 0.5 0.5; thumbOnly];
     HandTracking.multiHandedness :=
       Some [ {| HandTracking.label := "Right" |};
              {| HandTracking.label := "Left" |} ] |}.

(** A callback of a frame without hands, as the detector delivers it. *)
Definition noHands : HandTracking.Results :=
  {| HandTracking.multiHandLandmarks := Some [];
     HandTracking.multiHandedness := Some [] |}.

(** The sample window with the third image of the gallery under every
    point of the side bar. *)
Definition domOverImage : ImageGallery.Dom :=
  {| ImageGallery.window := Samples.window;
     ImageGallery.galleryRect :=
       Some {| ImageGallery.left := 960; ImageGallery.right := 1280;
               ImageGallery.top := 60; ImageGallery.bottom := 720 |};
     ImageGallery.imageIdAt := fun _ _ => Some "3"%string |}.

(** A right hand that pinches over the side bar: x = 0.1 of the camera
    image is 1152 px on the mirrored screen. *)
Definition pinchOverGallery : HandData.t := Samples.pinchSignal Right 0.1 0.5.

(** An open right hand over the side bar, and one over the main view. *)
Definition openOverGallery : HandData.t := Samples.openSignal Right 0.1 0.5.
Definition openOverMain : HandData.t := Samples.openSignal Right 0.5 0.5.

Definition showing (hand : option HandData.t)
           (selected : option GalleryImage.t) : ImageGallery.Props :=
  {| ImageGallery.rightHand := hand;
     ImageGallery.selectedImage := selected |}.

(** An image that is not in the gallery. *)
Definition stranger : GalleryImage.t :=
  GalleryImage.mk "99" "/gallery/image99.jpg" "stranger".

(** The side bar of the scrolling gallery in the sample window: 660 px
    high, so that the eight items can scroll by 520 px. *)
Definition scrollDom : ImageGalleryScroll.Dom :=
  {| ImageGalleryScroll.window := Samples.window;
     ImageGalleryScroll.galleryRect :=
       Some {| ImageGalleryScroll.left := 960;
               ImageGalleryScroll.right := 1280;
               ImageGalleryScroll.top := 60;
               ImageGalleryScroll.bottom := 720;
               ImageGalleryScroll.height := 660 |} |}.

Definition scrollStore : ImageGalleryScroll.Store :=
  {| ImageGalleryScroll.scrollY := 0;
     ImageGalleryScroll.hoveredImage := None;
     ImageGalleryScroll.draggedImage := None;
     ImageGalleryScroll.dragPosition := Point.mk 0 0;
     ImageGalleryScroll.isThumbScrolling := None;
     ImageGalleryScroll.lastPinchState := false |}.

(** A camera image of 640 by 480 pixels. *)
Definition camera : Home.Video :=
  {| Home.videoWidth := 640; Home.videoHeight := 480 |}.

End Cases.

(** * Results *)

(** ** Facts about JavaScript comparisons *)

Module JSFacts.

Import JS.
Local Open Scope R_scope.

Lemma ltb_true (a b : R) : ltb a b = true <-> a < b.
Proof. unfold ltb. destruct (Rlt_dec a b); split; intros; easy. Qed.

Lemma ltb_false (a b : R) : ltb a b = false <-> b <= a.
Proof.
  unfold ltb. destruct (Rlt_dec a b); split; intros; try easy; lra.
Qed.

Lemma gtb_true (a b : R) : gtb a b = true <-> a > b.
Proof. unfold gtb. rewrite ltb_true. lra. Qed.

Lemma gtb_false (a b : R) : gtb a b = false <-> a <= b.
Proof. apply ltb_false. Qed.

Lemma leb_true (a b : R) : leb a b = true <-> a <= b.
Proof. unfold leb. destruct (Rle_dec a b); split; intros; easy. Qed.

Lemma leb_false (a b : R) : leb a b = false <-> b < a.
Proof.
  unfold leb. destruct (Rle_dec a b); split; intros; try easy; lra.
Qed.

(** [Math.max(lo, Math.min(hi, v))] is the clamp when [lo <= hi]. *)
Lemma max_min_clamp (v lo hi : R) :
  lo <= hi -> Rmax lo (Rmin hi v) = clamp v lo hi.
Proof.
  intros Hle. unfold clamp, Rmax, Rmin.
  destruct (Rlt_dec v lo), (Rlt_dec hi v), (Rle_dec hi v);
    try destruct (Rle_dec lo hi); try destruct (Rle_dec lo v); lra.
Qed.

Lemma Rabs_le_inv (a b : R) : Rabs a <= b -> - b <= a <= b.
Proof. unfold Rabs. destruct (Rcase_abs a); lra. Qed.

Lemma Rabs_gt_iff (a b : R) : Rabs a > b <-> a > b \/ a < - b.
Proof. unfold Rabs. destruct (Rcase_abs a); lra. Qed.

End JSFacts.

(** ** The gesture classifier *)

Module HandTrackingFacts.

Import HandTracking.
Local Open Scope R_scope.

Lemma at_landmark (hand : list Landmark.t) (i : nat) :
  (i < List.length hand)%nat -> at_ hand i = Some (Spec.landmark hand i).
Proof. intros H. unfold at_, Spec.landmark. now apply nth_error_nth'. Qed.

Lemma distance_nonneg (a b : Landmark.t) : 0 <= Spec.distance a b.
Proof. apply sqrt_pos. Qed.

Lemma distance_same (a : Landmark.t) : Spec.distance a a = 0.
Proof.
  unfold Spec.distance. rewrite !Rminus_diag, Rsqr_0, !Rplus_0_r.
  apply sqrt_0.
Qed.

(** [Math.max(0, 1 - d / PINCH_THRESHOLD)] is already below 1, because a
    distance is never negative. *)
Lemma strength_clamp (d : R) :
  0 <= d ->
  Rmax 0 (1 - d / PINCH_THRESHOLD) = JS.clamp (1 - d / 0.08) 0 1.
Proof.
  intros Hd. unfold PINCH_THRESHOLD, JS.clamp, Rmax.
  destruct (Rle_dec 0 (1 - d / 0.08)), (Rlt_dec (1 - d / 0.08) 0),
    (Rlt_dec 1 (1 - d / 0.08)); lra.
Qed.

(** C1.  For a hand of 21 landmarks, [calculatePinch] returns: as
    [isPinching], whether the Euclidean distance in (x, y, z) between
    landmark 4 (thumb tip) and landmark 8 (index tip) is below 0.08; as
    [strength], [1 - distance / 0.08] clamped to the interval from 0 to 1;
    as [position], the (x, y) midpoint of the two tips.  When the two tips
    coincide the hand is pinching with strength 1, and when the distance is
    0.08 or more it is not pinching and the strength is 0. *)
Theorem calculatePinch_spec (hand : list Landmark.t) :
  List.length hand = 21%nat ->
  let thumbTip := Spec.thumbTip hand in
  let indexTip := Spec.indexTip hand in
  let distance := Spec.distance thumbTip indexTip in
  let isPinching := distance <? 0.08 in
  let pinchStrength := JS.clamp (1 - distance / 0.08) 0 1 in
  calculatePinch hand =
    Some (PinchData.mk isPinching (Spec.midpoint thumbTip indexTip)
                       pinchStrength) /\
  (thumbTip = indexTip -> isPinching = true /\ pinchStrength = 1) /\
  (distance >= 0.08 -> isPinching = false /\ pinchStrength = 0).
Proof.
  intros Hlen thumbTip indexTip distance isPinching pinchStrength.
  subst isPinching pinchStrength. split; [|split].
  - unfold calculatePinch. rewrite !at_landmark by lia. cbn [JS.bind].
    replace (sqrt _) with distance
      by (unfold distance, Spec.distance, thumbTip, indexTip, Spec.thumbTip,
            Spec.indexTip, Rsqr; f_equal; ring).
    rewrite strength_clamp by apply distance_nonneg. reflexivity.
  - intros Heq. subst distance. rewrite Heq, distance_same. split.
    + apply JSFacts.ltb_true. lra.
    + unfold JS.clamp.
      destruct (Rlt_dec (1 - 0 / 0.08) 0), (Rlt_dec 1 (1 - 0 / 0.08)); lra.
  - intros Hfar. split.
    + apply JSFacts.ltb_false. lra.
    + unfold JS.clamp.
      destruct (Rlt_dec (1 - distance / 0.08) 0); [reflexivity|].
      destruct (Rlt_dec 1 (1 - distance / 0.08)); lra.
Qed.

Lemma calculatePinch_spec_witness :
  List.length (Samples.pinchingAt 0.5 0.5) = 21%nat /\
  exists pinch,
    calculatePinch (Samples.pinchingAt 0.5 0.5) = Some pinch /\
    PinchData.isPinching pinch = true /\
    PinchData.strength pinch = 1.
Proof.
  split; [reflexivity|].
  destruct (calculatePinch_spec (Samples.pinchingAt 0.5 0.5) eq_refl)
    as (Hrun & Hsame & _).
  destruct (Hsame eq_refl) as (Hpinching & Hstrength).
  eexists. split; [exact Hrun|]. split; assumption.
Defined.

Lemma andThen_Some (a b : bool) :
  andThen (Some a) (Some b) = Some (a && b).
Proof. now destruct a. Qed.

(** No threshold is exceeded upward and downward at once; this holds for
    every landmark array for which a gesture is returned at all. *)
Lemma thumbs_exclusive (landmarks : list Landmark.t) (g : ThumbGesture.t) :
  detectThumbGesture landmarks = Some g ->
  ~ (ThumbGesture.isThumbsUp g = true /\ ThumbGesture.isThumbsDown g = true).
Proof.
  unfold detectThumbGesture, JS.bind, THUMB_GESTURE_THRESHOLD.
  destruct (andThen _ _) as [curled|]; [|discriminate].
  destruct (at_ landmarks 4) as [tip|]; [|discriminate].
  destruct (at_ landmarks 0) as [wr|]; [|discriminate].
  destruct (at_ landmarks 1) as [cmc|]; [|discriminate].
  intros [= <-]. cbn [ThumbGesture.isThumbsUp ThumbGesture.isThumbsDown].
  rewrite !andb_true_iff, JSFacts.gtb_true, JSFacts.ltb_true. lra.
Qed.

(** C2.  For a hand of 21 landmarks, [detectThumbGesture] returns
    [isThumbsUp] exactly when the four non-thumb tips are below their PIP
    joints, the thumb tip is more than 0.05 from the wrist in x or more
    than 0.1 in y, and [thumbCMC.y - thumbTip.y] exceeds 0.06;
    [isThumbsDown] is the same with [thumbCMC.y - thumbTip.y] below
    [-0.06].  The two are never both true, and when the fingers are curled
    and the thumb extended but the vertical difference is at most 0.06 in
    absolute value, neither is true. *)
Theorem detectThumbGesture_spec (hand : list Landmark.t) :
  List.length hand = 21%nat ->
  exists isThumbsUp isThumbsDown : bool,
    detectThumbGesture hand =
      Some (ThumbGesture.mk isThumbsUp isThumbsDown) /\
    (isThumbsUp = true <->
       Spec.curled hand /\ Spec.extended hand /\
       Spec.thumbVertical hand > 0.06) /\
    (isThumbsDown = true <->
       Spec.curled hand /\ Spec.extended hand /\
       Spec.thumbVertical hand < - 0.06) /\
    ~ (isThumbsUp = true /\ isThumbsDown = true) /\
    (Spec.curled hand -> Spec.extended hand ->
     Rabs (Spec.thumbVertical hand) <= 0.06 ->
     isThumbsUp = false /\ isThumbsDown = false).
Proof.
  intros Hlen.
  assert (Hrun : exists isThumbsUp isThumbsDown : bool,
             detectThumbGesture hand =
               Some (ThumbGesture.mk isThumbsUp isThumbsDown) /\
             (isThumbsUp = true <->
                Spec.curled hand /\ Spec.extended hand /\
                Spec.thumbVertical hand > 0.06) /\
             (isThumbsDown = true <->
                Spec.curled hand /\ Spec.extended hand /\
                Spec.thumbVertical hand < - 0.06)).
  { unfold detectThumbGesture, tipBelowPIP.
    rewrite !at_landmark by lia. cbn [JS.bind]. rewrite !andThen_Some.
    cbn [JS.bind]. eexists _, _. split; [reflexivity|].
    unfold Spec.curled, Spec.extended, Spec.thumbVertical, Spec.thumbTip,
      Spec.thumbCMC, Spec.wrist, THUMB_GESTURE_THRESHOLD.
    rewrite !andb_true_iff, orb_true_iff, !JSFacts.gtb_true,
      JSFacts.ltb_true.
    split; (split; [intros (((((?&?)&?)&?)&?)&?)|intros ((?&?&?&?)&?&?)];
            repeat split; try assumption; lra). }
  destruct Hrun as (isUp & isDown & Hrun & Hup & Hdown).
  exists isUp, isDown. repeat (split; [assumption|]). split.
  - apply (thumbs_exclusive hand Hrun).
  - intros Hc He Hv. apply JSFacts.Rabs_le_inv in Hv. split.
    + destruct isUp; [|reflexivity].
      destruct Hup as [Hup _]. specialize (Hup eq_refl). lra.
    + destruct isDown; [|reflexivity].
      destruct Hdown as [Hdown _]. specialize (Hdown eq_refl). lra.
Qed.

Lemma detectThumbGesture_spec_witness :
  List.length Samples.thumbsUpHand = 21%nat /\
  detectThumbGesture Samples.thumbsUpHand =
    Some (ThumbGesture.mk true false).
Proof.
  split; [reflexivity|].
  destruct (detectThumbGesture_spec Samples.thumbsUpHand eq_refl)
    as (isUp & isDown & Hrun & Hup & _ & Hexcl & _).
  assert (HisUp : isUp = true).
  { apply Hup.
    unfold Spec.curled, Spec.extended, Spec.thumbVertical, Spec.thumbTip,
      Spec.thumbCMC, Spec.wrist, Spec.landmark.
    cbn. rewrite JSFacts.Rabs_gt_iff. repeat split; lra. }
  assert (HisDown : isDown = false).
  { destruct isDown; [|reflexivity]. exfalso. apply Hexcl. now split. }
  rewrite Hrun, HisUp, HisDown. reflexivity.
Defined.

Lemma calculatePinch_total (hand : list Landmark.t) :
  List.length hand = 21%nat -> exists pinch, calculatePinch hand = Some pinch.
Proof.
  intros Hlen. unfold calculatePinch. rewrite !at_landmark by lia.
  cbn [JS.bind]. eauto.
Qed.

Lemma detectThumbGesture_total (hand : list Landmark.t) :
  List.length hand = 21%nat ->
  exists gesture, detectThumbGesture hand = Some gesture.
Proof.
  intros Hlen. unfold detectThumbGesture, tipBelowPIP.
  rewrite !at_landmark by lia. cbn [JS.bind]. rewrite !andThen_Some.
  cbn [JS.bind]. eauto.
Qed.

(** *** The frame assembler *)

Lemma every_extended_total (hand : list Landmark.t)
      (fingers : list (nat * nat)) :
  Forall (fun f => (fst f < List.length hand)%nat /\
                   (snd f < List.length hand)%nat) fingers ->
  exists b, every_extended hand fingers = Some b.
Proof.
  induction 1 as [|[tipIdx pipIdx] rest [Htip Hpip] _ IH]; cbn [every_extended].
  - eauto.
  - cbn [fst snd] in Htip, Hpip. rewrite !at_landmark by assumption.
    cbn [JS.bind]. destruct (_ <? _)%R; eauto.
Qed.

(** On a hand of 21 landmarks the classification completes, and the hand it
    builds carries the flipped label. *)
Lemma classify_total (hand : list Landmark.t) (e : HandednessEntry) :
  List.length hand = 21%nat ->
  exists handData,
    classify hand e = Some handData /\
    HandData.handedness handData = Spec.sideOf (hand, e).
Proof.
  intros Hlen. unfold classify.
  destruct (calculatePinch_total hand Hlen) as [pinch ->].
  destruct (detectThumbGesture_total hand Hlen) as [gesture ->].
  destruct (@every_extended_total hand [(8, 6); (12, 10); (16, 14); (20, 18)]%nat)
    as [ext Hext].
  { rewrite Hlen. repeat constructor. }
  unfold detectOpenPalm. rewrite Hext, !at_landmark by lia. cbn [JS.bind].
  eexists. split; [reflexivity|]. reflexivity.
Qed.

(** *** The sample hands, classified *)

(** Decides the comparisons of a goal whose operands are numerals. *)
Ltac js_decide :=
  repeat match goal with
  | |- context [JS.gtb (Rabs ?t) ?c] =>
      first [ rewrite (proj2 (JSFacts.gtb_true (Rabs t) c))
                by (apply JSFacts.Rabs_gt_iff; lra)
            | rewrite (proj2 (JSFacts.gtb_false (Rabs t) c))
                by (unfold Rabs; destruct (Rcase_abs t); lra) ]
  | |- context [JS.gtb ?a ?b] =>
      first [ rewrite (proj2 (JSFacts.gtb_true a b)) by lra
            | rewrite (proj2 (JSFacts.gtb_false a b)) by lra ]
  | |- context [JS.ltb ?a ?b] =>
      first [ rewrite (proj2 (JSFacts.ltb_true a b)) by lra
            | rewrite (proj2 (JSFacts.ltb_false a b)) by lra ]
  end.

Ltac classify_step :=
  unfold at_;
  cbn [Samples.pinchingAt Samples.openAt Samples.thumbsUpHand
       Samples.thumbsDownHand nth_error JS.bind every_extended Samples.L
       Landmark.x Landmark.y Landmark.z map andThen andb orb
       PinchData.isPinching PinchData.position PinchData.strength
       ThumbGesture.isThumbsUp ThumbGesture.isThumbsDown];
  js_decide.

Lemma sqrt_at_least (e c : R) : 0 <= c -> c * c <= e -> c <= sqrt e.
Proof.
  intros Hc He. rewrite <- (sqrt_square c) at 1 by exact Hc.
  now apply sqrt_le_1_alt.
Qed.

Lemma strength_far (d : R) : 0.08 <= d -> Rmax 0 (1 - d / 0.08) = 0.
Proof. intros Hd. unfold Rmax. destruct (Rle_dec 0 (1 - d / 0.08)); lra. Qed.

Lemma classify_pinchingAt (x y : R) (e : HandednessEntry) :
  classify (Samples.pinchingAt x y) e =
    Some (Samples.pinchSignal (actualHandedness e) x y).
Proof.
  unfold classify, calculatePinch, detectThumbGesture, detectOpenPalm,
    tipBelowPIP, PINCH_THRESHOLD, THUMB_GESTURE_THRESHOLD.
  unfold at_. cbn [Samples.pinchingAt nth_error JS.bind Samples.L
                   Landmark.x Landmark.y Landmark.z].
  replace ((x - x) ^ 2 + (y - y) ^ 2 + (0 - 0) ^ 2) with 0 by ring.
  rewrite sqrt_0. repeat (progress classify_step).
  unfold Samples.pinchSignal. f_equal. f_equal.
  - f_equal; lra.
  - unfold Rmax. destruct (Rle_dec 0 (1 - 0 / 0.08)); lra.
Qed.

Lemma classify_openAt (x y : R) (e : HandednessEntry) :
  classify (Samples.openAt x y) e =
    Some (Samples.openSignal (actualHandedness e) x y).
Proof.
  unfold classify, calculatePinch, detectThumbGesture, detectOpenPalm,
    tipBelowPIP, PINCH_THRESHOLD, THUMB_GESTURE_THRESHOLD.
  unfold at_. cbn [Samples.openAt nth_error JS.bind Samples.L
                   Landmark.x Landmark.y Landmark.z].
  replace ((x - 0.1 - (x + 0.1)) ^ 2 + (y - y) ^ 2 + (0 - 0) ^ 2)
    with (0.2 * 0.2) by lra.
  rewrite sqrt_square by lra. repeat (progress classify_step).
  unfold Samples.openSignal. f_equal. f_equal.
  - f_equal; lra.
  - apply strength_far. lra.
Qed.

Lemma classify_thumbsUpHand :
  classify Samples.thumbsUpHand {| label := "Left" |} = Some Samples.upSignal.
Proof.
  unfold classify, calculatePinch, detectThumbGesture, detectOpenPalm,
    tipBelowPIP, PINCH_THRESHOLD, THUMB_GESTURE_THRESHOLD.
  unfold at_. cbn [Samples.thumbsUpHand nth_error JS.bind Samples.L
                   Landmark.x Landmark.y Landmark.z].
  set (d := sqrt _).
  assert (Hd : 0.08 <= d) by (apply sqrt_at_least; lra).
  rewrite (@strength_far d Hd).
  replace (d <? 0.08) with false by (symmetry; now apply JSFacts.ltb_false).
  repeat (progress classify_step).
  unfold Samples.upSignal. f_equal. f_equal. f_equal; lra.
Qed.

Lemma classify_thumbsDownHand :
  classify Samples.thumbsDownHand {| label := "Left" |} =
    Some Samples.downSignal.
Proof.
  unfold classify, calculatePinch, detectThumbGesture, detectOpenPalm,
    tipBelowPIP, PINCH_THRESHOLD, THUMB_GESTURE_THRESHOLD.
  unfold at_. cbn [Samples.thumbsDownHand nth_error JS.bind Samples.L
                   Landmark.x Landmark.y Landmark.z].
  set (d := sqrt _).
  assert (Hd : 0.08 <= d) by (apply sqrt_at_least; lra).
  rewrite (@strength_far d Hd).
  replace (d <? 0.08) with false by (symmetry; now apply JSFacts.ltb_false).
  repeat (progress classify_step).
  unfold Samples.downSignal. f_equal. f_equal. f_equal; lra.
Qed.

Lemma skipn_cons_inv (A : Type) (l : list A) (i : nat) (e : A) (es : list A) :
  skipn i l = e :: es -> nth_error l i = Some e /\ skipn (S i) l = es.
Proof.
  revert l. induction i as [|i IH]; intros [|a l]; cbn; try discriminate.
  - intros [= -> ->]. auto.
  - intros H. apply IH in H. exact H.
Qed.

(** The loop, from index [i] on, against the last-wins reading of the
    detections it still has to visit. *)
Lemma assemble_lastOnSide (hands : list (list Landmark.t)) :
  forall (i : nat) (handednesses : list HandednessEntry) (sides : Sides),
    (List.length hands <= List.length (skipn i handednesses))%nat ->
    Forall (fun hand => List.length hand = 21%nat) hands ->
    let ds := combine hands (skipn i handednesses) in
    assemble hands i handednesses sides =
      Some (match Spec.lastOnSide Left ds with
            | Some _ => Spec.published Left ds
            | None => fst sides
            end,
            match Spec.lastOnSide Right ds with
            | Some _ => Spec.published Right ds
            | None => snd sides
            end).
Proof.
  induction hands as [|hand rest IH]; intros i handednesses sides Hlen Hall.
  - cbn. now destruct sides.
  - destruct (skipn i handednesses) as [|e es] eqn:Hskip; [cbn in Hlen; lia|].
    apply skipn_cons_inv in Hskip. destruct Hskip as [Hnth Hskip].
    pose proof (Forall_inv Hall) as H21.
    pose proof (Forall_inv_tail Hall) as Hrest. cbn beta in H21.
    destruct (@classify_total hand e H21) as (handData & Hclass & Hside).
    cbn [assemble]. rewrite Hnth. cbn [JS.bind]. rewrite Hclass. cbn [JS.bind].
    rewrite IH by (try assumption; cbn in Hlen; rewrite Hskip; lia).
    rewrite Hskip. cbn [combine]. unfold Spec.published, assign.
    cbn [Spec.lastOnSide]. rewrite Hside.
    destruct (Spec.lastOnSide Left (combine rest es)),
      (Spec.lastOnSide Right (combine rest es)),
      (Spec.sideOf (hand, e));
      cbn [Spec.sameSide JS.bind fst snd]; rewrite ?Hclass; reflexivity.
Qed.

Lemma lastOnSide_In (side : Handedness) (ds : list Spec.Detection)
      (d : Spec.Detection) :
  Spec.lastOnSide side ds = Some d -> In d ds /\ Spec.sideOf d = side.
Proof.
  induction ds as [|d0 rest IH]; [discriminate|]. cbn [Spec.lastOnSide].
  destruct (Spec.lastOnSide side rest) as [later|].
  - intros [= ->]. destruct (IH eq_refl). split; [now right|assumption].
  - destruct (Spec.sameSide (Spec.sideOf d0) side) eqn:Hs; [|discriminate].
    intros [= ->]. split; [now left|].
    destruct (Spec.sideOf d), side; cbn in Hs; congruence.
Qed.

(** A callback that passes the throttle and whose evaluation completes is
    published: each side gets the last detection mapped to it. *)
Lemma processResults_publishes (now : R) (results : Results) (h : Hook) :
  now - lastProcessTime h >= 16 ->
  Spec.wellFormed results ->
  processResults now results h =
    ({| state := {| leftHand := Spec.published Left (Spec.detections results);
                    rightHand :=
                      Spec.published Right (Spec.detections results);
                    isReady := isReady (state h) |};
        lastProcessTime := now |}, Published).
Proof.
  intros Hnow Hwf. unfold processResults.
  replace (now - lastProcessTime h <? 16) with false
    by (symmetry; apply JSFacts.ltb_false; lra).
  unfold Spec.detections, Spec.wellFormed in *.
  destruct (multiHandLandmarks results) as [hands|];
    [destruct (multiHandedness results) as [handednesses|]|];
    try reflexivity.
  destruct Hwf as [Hlen Hall].
  rewrite assemble_lastOnSide by (cbn [skipn]; assumption).
  cbn [skipn fst snd].
  assert (E : forall side l,
             match Spec.lastOnSide side l with
             | Some _ => Spec.published side l
             | None => None
             end = Spec.published side l).
  { intros side l. unfold Spec.published.
    destruct (Spec.lastOnSide side l); reflexivity. }
  rewrite !E. reflexivity.
Qed.

(** C9.  A callback that passes the throttle and whose evaluation completes
    publishes, on each side, the classification of the last detection that
    maps to that side, and [null] when no detection maps to it.  A
    detection maps to the side opposite to its source label: label 'Left'
    goes to [rightHand], any other label to [leftHand]; the published hand
    carries the side it is on as its handedness. *)
Theorem processResults_sides (now : R) (results : Results) (h : Hook) :
  now - lastProcessTime h >= 16 ->
  Spec.wellFormed results ->
  let ds := Spec.detections results in
  processResults now results h =
    ({| state := {| leftHand := Spec.published Left ds;
                    rightHand := Spec.published Right ds;
                    isReady := isReady (state h) |};
        lastProcessTime := now |}, Published) /\
  (forall d, In d ds ->
     (label (snd d) = "Left"%string -> Spec.sideOf d = Right) /\
     (label (snd d) <> "Left"%string -> Spec.sideOf d = Left)) /\
  (forall side d, Spec.lastOnSide side ds = Some d ->
     In d ds /\ Spec.sideOf d = side /\
     exists handData,
       Spec.published side ds = Some handData /\
       HandData.handedness handData = side) /\
  (forall side, (forall d, In d ds -> Spec.sideOf d <> side) ->
     Spec.published side ds = None).
Proof.
  intros Hnow Hwf ds. split; [|split; [|split]].
  - now apply processResults_publishes.
  - intros d _. unfold Spec.sideOf. split.
    + intros ->. reflexivity.
    + intros Hne. destruct (String.eqb_spec (label (snd d)) "Left");
        [contradiction|reflexivity].
  - intros side d Hlast.
    destruct (lastOnSide_In _ _ Hlast) as [Hin Hside].
    repeat split; try assumption.
    assert (H21 : List.length (fst d) = 21%nat).
    { subst ds. unfold Spec.detections, Spec.wellFormed in *.
      destruct (multiHandLandmarks results) as [hands|]; [|contradiction].
      destruct (multiHandedness results) as [handednesses|]; [|contradiction].
      destruct d as [hand e]. apply in_combine_l in Hin.
      destruct Hwf as [_ Hall]. rewrite Forall_forall in Hall. now apply Hall. }
    destruct (@classify_total (fst d) (snd d) H21)
      as (handData & Hclass & Hhd).
    exists handData. unfold Spec.published. rewrite Hlast. cbn [JS.bind].
    split; [assumption|]. rewrite Hhd. now destruct d.
  - intros side Hnone. unfold Spec.published.
    destruct (Spec.lastOnSide side ds) as [d|] eqn:Hlast; [|reflexivity].
    destruct (lastOnSide_In _ _ Hlast) as [Hin Hside].
    now apply Hnone in Hin.
Qed.

Lemma processResults_sides_witness :
  processResults 1020 Samples.twoLeftLabels Samples.hookAt1000 =
    ({| state := {| leftHand := None;
                    rightHand := Some Samples.downSignal;
                    isReady := true |};
        lastProcessTime := 1020 |}, Published).
Proof.
  assert (Hnow : 1020 - lastProcessTime Samples.hookAt1000 >= 16)
    by (cbn; lra).
  assert (Hwf : Spec.wellFormed Samples.twoLeftLabels)
    by (cbn; split; [lia|repeat constructor]).
  destruct (@processResults_sides 1020 Samples.twoLeftLabels
              Samples.hookAt1000 Hnow Hwf) as (Hrun & _).
  rewrite Hrun. unfold Spec.published. cbn [Spec.detections
    Samples.twoLeftLabels multiHandLandmarks multiHandedness combine].
  change (Spec.lastOnSide Left _) with (@None Spec.Detection).
  change (Spec.lastOnSide Right _)
    with (Some (Samples.thumbsDownHand, {| label := "Left" |})).
  cbn [JS.bind fst snd]. rewrite classify_thumbsDownHand. reflexivity.
Defined.

(** C8.  A callback that arrives less than 16 ms after the last processed
    one is dropped: [processResults] returns at the throttle and leaves the
    hook as it was.  A callback that arrives 16 ms or more after the last
    processed one, and whose evaluation completes, is classified and
    published, and becomes the last processed one.  So after a processed
    callback at [now], a callback 5 ms later is dropped and a callback
    20 ms later is published. *)
Theorem processResults_throttle (now : R) (results : Results) (h : Hook) :
  (now - lastProcessTime h < 16 ->
   processResults now results h = (h, Dropped)) /\
  (now - lastProcessTime h >= 16 -> Spec.wellFormed results ->
   let ds := Spec.detections results in
   let h' := {| state := {| leftHand := Spec.published Left ds;
                            rightHand := Spec.published Right ds;
                            isReady := isReady (state h) |};
                lastProcessTime := now |} in
   processResults now results h = (h', Published) /\
   forall next : Results,
     processResults (now + 5) next h' = (h', Dropped) /\
     (Spec.wellFormed next ->
      exists h'',
        processResults (now + 20) next h' = (h'', Published) /\
        lastProcessTime h'' = now + 20)).
Proof.
  split.
  - intros Hearly. unfold processResults.
    replace (now - lastProcessTime h <? 16) with true
      by (symmetry; apply JSFacts.ltb_true; lra).
    reflexivity.
  - intros Hlate Hwf ds h'. split.
    + now apply processResults_publishes.
    + intros next. split.
      * unfold processResults.
        replace (now + 5 - lastProcessTime h' <? 16) with true
          by (symmetry; apply JSFacts.ltb_true; cbn; lra).
        reflexivity.
      * intros Hnext.
        assert (Hgap : now + 20 - lastProcessTime h' >= 16) by (cbn; lra).
        eexists. split; [now apply processResults_publishes|]. reflexivity.
Qed.

Lemma processResults_throttle_witness :
  processResults 1005 Samples.oneRightLabel Samples.hookAt1000 =
    (Samples.hookAt1000, Dropped) /\
  exists h',
    processResults 1020 Samples.oneRightLabel Samples.hookAt1000 =
      (h', Published) /\
    lastProcessTime h' = 1020 /\
    processResults 1025 Samples.twoLeftLabels h' = (h', Dropped).
Proof.
  assert (Hwf : Spec.wellFormed Samples.oneRightLabel)
    by (cbn; split; [lia|repeat constructor]).
  split.
  - apply (processResults_throttle 1005 Samples.oneRightLabel
             Samples.hookAt1000). cbn. lra.
  - destruct (processResults_throttle 1020 Samples.oneRightLabel
                Samples.hookAt1000) as [_ Hlate].
    destruct Hlate as [Hrun Hnext]; [cbn; lra|exact Hwf|].
    eexists. split; [exact Hrun|]. split; [reflexivity|].
    replace 1025 with (1020 + 5) by lra.
    apply (Hnext Samples.twoLeftLabels).
Defined.

End HandTrackingFacts.

(** ** The gallery: navigation and drag *)

Module GalleryFacts.

Import ImageGallery.
Local Open Scope Z_scope.

(** *** [findIndex] and array access *)

Lemma findIndexFrom_first (A : Type) (p : A -> bool) (l : list A) :
  forall (n : nat) (base : Z) (a : A),
    nth_error l n = Some a -> p a = true ->
    (forall m a', (m < n)%nat -> nth_error l m = Some a' -> p a' = false) ->
    findIndexFrom p l base = base + Z.of_nat n.
Proof.
  induction l as [|x rest IH]; intros n base a Hnth Hp Hbefore.
  - destruct n; discriminate.
  - destruct n as [|n]; cbn [findIndexFrom].
    + injection Hnth as ->. rewrite Hp. lia.
    + rewrite (Hbefore 0%nat x) by (lia || reflexivity).
      rewrite (IH n (base + 1) a Hnth Hp).
      * lia.
      * intros m a' Hm Ha'. apply (Hbefore (S m)); [lia|exact Ha'].
Qed.

Lemma index_Some (A : Type) (l : list A) (k : Z) (a : A) :
  index l k = Some a ->
  0 <= k < len l /\ nth_error l (Z.to_nat k) = Some a.
Proof.
  unfold index, len. destruct (k <? 0) eqn:Hk; [discriminate|].
  intros Hnth. apply Z.ltb_ge in Hk. split; [|exact Hnth].
  assert (Z.to_nat k < List.length l)%nat
    by (apply nth_error_Some; congruence).
  lia.
Qed.

Lemma index_inside (A : Type) (l : list A) (k : Z) :
  0 <= k < len l -> exists a, index l k = Some a.
Proof.
  unfold index, len. intros Hk.
  replace (k <? 0) with false by (symmetry; apply Z.ltb_ge; lia).
  destruct (nth_error l (Z.to_nat k)) as [a|] eqn:Hnth; [eauto|].
  apply nth_error_None in Hnth. lia.
Qed.

Lemma findIndex_position (images : list GalleryImage.t) (id : string) (k : Z) :
  Spec.positionOf images id k ->
  findIndex (fun img => String.eqb (GalleryImage.id img) id) images = k /\
  0 <= k < len images.
Proof.
  intros [(img & Hidx & Hid) Hfirst].
  apply index_Some in Hidx. destruct Hidx as [Hk Hnth]. split; [|exact Hk].
  unfold findIndex.
  rewrite (@findIndexFrom_first _ _ images (Z.to_nat k) 0 img Hnth).
  - lia.
  - apply String.eqb_eq. exact Hid.
  - intros m a' Hm Ha'. apply String.eqb_neq.
    apply (Hfirst (Z.of_nat m)); [lia|].
    unfold index. replace (Z.of_nat m <? 0) with false
      by (symmetry; apply Z.ltb_ge; lia).
    now rewrite Nat2Z.id.
Qed.

Lemma findIndexFrom_sound (A : Type) (p : A -> bool) (l : list A) :
  forall (base k : Z),
    0 <= base -> findIndexFrom p l base = k -> 0 <= k ->
    base <= k /\
    exists a, nth_error l (Z.to_nat (k - base)) = Some a /\ p a = true /\
              forall m a', (m < Z.to_nat (k - base))%nat ->
                           nth_error l m = Some a' -> p a' = false.
Proof.
  induction l as [|x rest IH]; intros base k Hbase Hfind Hk;
    cbn [findIndexFrom] in Hfind.
  - lia.
  - destruct (p x) eqn:Hpx.
    + subst k. split; [lia|]. rewrite Z.sub_diag. exists x.
      repeat split; auto. cbn. intros m a' Hm. lia.
    + destruct (@IH (base + 1) k ltac:(lia) Hfind Hk)
        as (Hle & a & Hnth & Hpa & Hbefore).
      split; [lia|]. exists a.
      replace (Z.to_nat (k - base)) with (S (Z.to_nat (k - (base + 1))))
        by lia.
      repeat split; auto.
      intros [|m] a' Hm Ha'.
      * cbn in Ha'. congruence.
      * apply (Hbefore m); [lia|exact Ha'].
Qed.

(** A non-negative result of [findIndex] is the position of the
    identifier. *)
Lemma position_findIndex (images : list GalleryImage.t) (id : string) (k : Z) :
  findIndex (fun img => String.eqb (GalleryImage.id img) id) images = k ->
  0 <= k -> Spec.positionOf images id k.
Proof.
  intros Hfind Hk. unfold findIndex in Hfind.
  destruct (@findIndexFrom_sound _ _ _ 0 k ltac:(lia) Hfind Hk)
    as (_ & a & Hnth & Hpa & Hbefore).
  rewrite Z.sub_0_r in Hnth, Hbefore. split.
  - exists a. split; [|now apply String.eqb_eq].
    unfold index. replace (k <? 0) with false
      by (symmetry; apply Z.ltb_ge; lia).
    exact Hnth.
  - intros j img Hj Hidx. apply index_Some in Hidx.
    destruct Hidx as [_ Hidx]. apply String.eqb_neq.
    apply (Hbefore (Z.to_nat j)); [lia|exact Hidx].
Qed.

Lemma idsNonEmpty_GALLERY_IMAGES : Spec.idsNonEmpty GALLERY_IMAGES.
Proof. repeat constructor; discriminate. Qed.

Lemma currentIndex_current (images : list GalleryImage.t) (p : Props)
      (c : Store) (k dflt : Z) :
  Spec.idsNonEmpty images -> Spec.isCurrent images p c k ->
  currentIndex images dflt p c = k /\ 0 <= k < len images.
Proof.
  intros Hids. unfold Spec.isCurrent, currentIndex.
  destruct (selectedImage p) as [sel|].
  - apply findIndex_position.
  - destruct (lastSelectedId c) as [lastId|]; [|contradiction].
    intros Hpos.
    assert (Htruthy : truthy lastId = true).
    { destruct Hpos as [(img & Hidx & Hid) _].
      apply index_Some in Hidx. destruct Hidx as [_ Hnth].
      apply nth_error_In in Hnth. unfold Spec.idsNonEmpty in Hids.
      rewrite Forall_forall in Hids. apply Hids in Hnth.
      rewrite Hid in Hnth. destruct lastId; [contradiction|reflexivity]. }
    rewrite Htruthy. now apply findIndex_position.
Qed.

(** The two conditionals of the source against the wrap-around formulas. *)
Lemma next_wraps (k n : Z) :
  0 <= k < n -> (if k + 1 <? n then k + 1 else 0) = (k + 1) mod n.
Proof.
  intros Hk. destruct (k + 1 <? n) eqn:Hlt.
  - apply Z.ltb_lt in Hlt. symmetry. apply Z.mod_small. lia.
  - apply Z.ltb_ge in Hlt. replace (k + 1) with n by lia.
    symmetry. apply Z.mod_same. lia.
Qed.

Lemma prev_wraps (k n : Z) :
  0 <= k < n -> (if k - 1 >=? 0 then k - 1 else n - 1) = (k - 1 + n) mod n.
Proof.
  intros Hk. destruct (k - 1 >=? 0) eqn:Hge.
  - apply Z.geb_le in Hge.
    replace (k - 1 + n) with (k - 1 + 1 * n) by lia.
    rewrite Z.mod_add by lia. symmetry. apply Z.mod_small. lia.
  - rewrite Z.geb_leb in Hge. apply Z.leb_gt in Hge.
    replace (k - 1 + n) with (n - 1) by lia.
    symmetry. apply Z.mod_small. lia.
Qed.

(** *** The cooldown gate of the thumb effect *)

(** Within 1000 ms of the last accepted gesture the effect calls no
    callback and leaves the time of the last accepted gesture alone. *)
Lemma thumbEffect_cooldown (images : list GalleryImage.t) (now : Z)
      (p : Props) (r c : Store) :
  now - lastThumbActionTime c < 1000 ->
  snd (thumbEffect images now p r c) = [] /\
  lastThumbActionTime (fst (thumbEffect images now p r c)) =
    lastThumbActionTime c.
Proof.
  intros Hcool. unfold thumbEffect.
  destruct (rightHand p), (draggedImage r); try (split; reflexivity).
  replace (now - lastThumbActionTime c <? 1000) with true
    by (symmetry; apply Z.ltb_lt; lia).
  split; reflexivity.
Qed.

(** Outside the cooldown a thumb gesture calls [onImageSelect] exactly
    once and becomes the last accepted gesture. *)
Lemma thumbEffect_fires (images : list GalleryImage.t) (now : Z)
      (p : Props) (r c : Store) (hand : HandData.t) :
  rightHand p = Some hand -> draggedImage r = None ->
  HandData.isThumbsUp hand = true \/ HandData.isThumbsDown hand = true ->
  now - lastThumbActionTime c >= 1000 ->
  (exists image, snd (thumbEffect images now p r c) =
                   [onImageSelect image None]) /\
  lastThumbActionTime (fst (thumbEffect images now p r c)) = now.
Proof.
  intros Hhand Hdrag Hthumb Hnow. unfold thumbEffect.
  rewrite Hhand, Hdrag.
  replace (now - lastThumbActionTime c <? 1000) with false
    by (symmetry; apply Z.ltb_ge; lia).
  destruct (HandData.isThumbsUp hand).
  - split; [eexists|]; reflexivity.
  - destruct Hthumb as [Hup|Hdown]; [discriminate|]. rewrite Hdown.
    split; [eexists|]; reflexivity.
Qed.

(** *** What each effect leaves alone *)

Lemma commit_effects (images : list GalleryImage.t) (now : Z) (dom : Dom)
      (p : Props) (r : Store) :
  commit images now dom p r =
    let t := trackSelectedEffect p r r in
    let th := thumbEffect images now p r (fst t) in
    let ps := pinchStartEffect images dom p r (fst th) in
    let d := dragEffect (window dom) p r (fst ps) in
    let h := hoverEffect dom p r (fst d) in
    (fst h, snd t ++ snd th ++ snd ps ++ snd d ++ snd h).
Proof.
  unfold commit.
  destruct (trackSelectedEffect p r r) as [c1 e1]. cbn [fst snd].
  destruct (thumbEffect images now p r c1) as [c2 e2]. cbn [fst snd].
  destruct (pinchStartEffect images dom p r c2) as [c3 e3]. cbn [fst snd].
  destruct (dragEffect (window dom) p r c3) as [c4 e4]. cbn [fst snd].
  destruct (hoverEffect dom p r c4) as [c5 e5]. reflexivity.
Qed.

Lemma sameDrag_refl (s : Store) : Spec.sameDrag s s.
Proof. split; reflexivity. Qed.

Lemma sameDrag_trans (s1 s2 s3 : Store) :
  Spec.sameDrag s1 s2 -> Spec.sameDrag s2 s3 -> Spec.sameDrag s1 s3.
Proof. intros [? ?] [? ?]. split; congruence. Qed.

Lemma trackSelectedEffect_frame (p : Props) (r c : Store) :
  snd (trackSelectedEffect p r c) = [] /\
  Spec.sameDrag c (fst (trackSelectedEffect p r c)).
Proof.
  unfold trackSelectedEffect. destruct (selectedImage p);
    repeat split; reflexivity.
Qed.

Lemma thumbEffect_frame (images : list GalleryImage.t) (now : Z)
      (p : Props) (r c : Store) :
  draggedImage (fst (thumbEffect images now p r c)) = draggedImage c.
Proof.
  unfold thumbEffect.
  destruct (rightHand p) as [hand|], (draggedImage r); try reflexivity.
  destruct (_ <? _); [reflexivity|].
  destruct (HandData.isThumbsUp hand); [reflexivity|].
  destruct (HandData.isThumbsDown hand); reflexivity.
Qed.

(** No thumb gesture: the effect calls nothing, whatever the time. *)
Lemma thumbEffect_quiet (images : list GalleryImage.t) (now : Z)
      (p : Props) (r c : Store) :
  match rightHand p with
  | Some hand =>
      HandData.isThumbsUp hand = false /\ HandData.isThumbsDown hand = false
  | None => True
  end \/ draggedImage r <> None ->
  snd (thumbEffect images now p r c) = [] /\
  Spec.sameDrag c (fst (thumbEffect images now p r c)).
Proof.
  unfold thumbEffect. intros Hquiet.
  destruct (rightHand p) as [hand|]; [|repeat split; reflexivity].
  destruct (draggedImage r) as [dragged|]; [repeat split; reflexivity|].
  destruct Hquiet as [[Hup Hdown]|Hdrag]; [|congruence].
  rewrite Hup, Hdown.
  destruct (_ <? _); repeat split; reflexivity.
Qed.

(** No drag starts without a pinch, during a thumb gesture, without a
    hand, or while an image is dragged. *)
Lemma pinchStartEffect_quiet (images : list GalleryImage.t) (dom : Dom)
      (p : Props) (r c : Store) :
  match rightHand p with
  | Some hand =>
      HandData.isPinching hand = false \/
      HandData.isThumbsUp hand = true \/ HandData.isThumbsDown hand = true
  | None => True
  end \/ draggedImage r <> None ->
  snd (pinchStartEffect images dom p r c) = [] /\
  Spec.sameDrag c (fst (pinchStartEffect images dom p r c)).
Proof.
  unfold pinchStartEffect. intros Hquiet.
  destruct (rightHand p) as [hand|]; [|repeat split; reflexivity].
  destruct (draggedImage r) as [dragged|]; [repeat split; reflexivity|].
  destruct Hquiet as [Hquiet|Hdrag]; [|congruence].
  destruct (HandData.isThumbsUp hand) eqn:Hup;
    [repeat split; reflexivity|].
  destruct (HandData.isThumbsDown hand) eqn:Hdown;
    [repeat split; reflexivity|].
  destruct Hquiet as [Hpinch|[?|?]]; try discriminate.
  rewrite Hpinch. cbn [orb andb].
  destruct (galleryRect dom); repeat split; reflexivity.
Qed.

Lemma dragEffect_no_drag (w : Window) (p : Props) (r c : Store) :
  draggedImage r = None \/ rightHand p = None ->
  dragEffect w p r c = (c, []).
Proof.
  unfold dragEffect. intros [Hdrag|Hhand].
  - now rewrite Hdrag.
  - rewrite Hhand. now destruct (draggedImage r).
Qed.

Lemma hoverEffect_frame (dom : Dom) (p : Props) (r c : Store) :
  snd (hoverEffect dom p r c) = [] /\
  Spec.sameDrag c (fst (hoverEffect dom p r c)).
Proof.
  unfold hoverEffect.
  destruct (rightHand p) as [hand|], (draggedImage r);
    try (repeat split; reflexivity).
  destruct (galleryRect dom); [|repeat split; reflexivity].
  destruct (isInGallery _ _ _); [|repeat split; reflexivity].
  destruct (imageIdAt dom _ _); repeat split; reflexivity.
Qed.

(** A commit without a pinch and without a drag in progress is the thumb
    effect, as far as callbacks, the dragged image and the cooldown go. *)
Lemma commit_no_pinch (images : list GalleryImage.t) (now : Z) (dom : Dom)
      (p : Props) (s : Store) :
  draggedImage s = None ->
  match rightHand p with
  | Some hand =>
      HandData.isPinching hand = false \/
      HandData.isThumbsUp hand = true \/ HandData.isThumbsDown hand = true
  | None => True
  end ->
  let eff := thumbEffect images now p s (fst (trackSelectedEffect p s s)) in
  snd (commit images now dom p s) = snd eff /\
  draggedImage (fst (commit images now dom p s)) = None /\
  lastThumbActionTime (fst (commit images now dom p s)) =
    lastThumbActionTime (fst eff).
Proof.
  intros Hdrag Hquiet eff. rewrite commit_effects. cbv zeta. cbn [fst snd].
  fold eff.
  destruct (trackSelectedEffect_frame p s s) as [Et [Dt Tt]].
  pose proof (thumbEffect_frame images now p s
                (fst (trackSelectedEffect p s s))) as Dth. fold eff in Dth.
  destruct (@pinchStartEffect_quiet images dom p s (fst eff)
              (or_introl Hquiet)) as [Eps [Dps Tps]].
  rewrite (@dragEffect_no_drag (window dom) p s _ (or_introl Hdrag)).
  cbn [fst snd].
  destruct (hoverEffect_frame dom p s
              (fst (pinchStartEffect images dom p s (fst eff))))
    as [Eh [Dh Th]].
  rewrite Et, Eps, Eh, app_nil_r. cbn [app]. split; [reflexivity|].
  split; congruence.
Qed.

(** *** Navigation *)

(** C3.  Outside the cooldown, with a hand present and no drag in progress,
    a thumbs-up selects the item at index [(current + 1) mod N] and a
    thumbs-down the item at index [(current - 1 + N) mod N], where
    [current] is the index of the selected item or, when nothing is
    selected, of the last selected item.  The gesture becomes the last
    accepted one: every run of the effect less than 1000 ms later calls no
    callback, and a thumb gesture 1000 ms or more later calls
    [onImageSelect] exactly once. *)
Theorem thumb_navigation (images : list GalleryImage.t) (now : Z)
        (p : Props) (r c : Store) (hand : HandData.t) (current : Z) :
  Spec.idsNonEmpty images ->
  rightHand p = Some hand -> draggedImage r = None ->
  now - lastThumbActionTime c >= 1000 ->
  Spec.isCurrent images p c current ->
  let N := len images in
  let selects (target : Z) :=
    exists c' image,
      thumbEffect images now p r c = (c', [onImageSelect (Some image) None]) /\
      index images target = Some image /\
      scrollY c' = Z.max 0 (target * 140 - 100) /\
      lastThumbActionTime c' = now in
  (HandData.isThumbsUp hand = true -> selects ((current + 1) mod N)) /\
  (HandData.isThumbsUp hand = false -> HandData.isThumbsDown hand = true ->
   selects ((current - 1 + N) mod N)) /\
  (forall later p' r' c',
     lastThumbActionTime c' = now -> later - now < 1000 ->
     snd (thumbEffect images later p' r' c') = [] /\
     lastThumbActionTime (fst (thumbEffect images later p' r' c')) = now) /\
  (forall later p' r' c' hand',
     lastThumbActionTime c' = now -> later - now >= 1000 ->
     rightHand p' = Some hand' -> draggedImage r' = None ->
     HandData.isThumbsUp hand' = true \/ HandData.isThumbsDown hand' = true ->
     exists image,
       snd (thumbEffect images later p' r' c') = [onImageSelect image None]).
Proof.
  intros Hids Hhand Hdrag Hnow Hcur N selects.
  assert (Hgate : (now - lastThumbActionTime c <? 1000) = false)
    by (apply Z.ltb_ge; lia).
  split; [|split; [|split]].
  - intros Hup.
    destruct (@currentIndex_current images p c current (-1) Hids Hcur)
      as [Hidx Hrange].
    destruct (@index_inside _ images ((current + 1) mod N)) as [image Himage].
    { apply Z.mod_pos_bound. subst N. lia. }
    exists (setScrollY (Z.max 0 ((current + 1) mod N * 140 - 100))
              (setLastThumbActionTime now
                 (setIsThumbScrolling (Some down) c))), image.
    split; [|split; [exact Himage|split; reflexivity]].
    unfold thumbEffect. rewrite Hhand, Hdrag, Hgate, Hup.
    cbv zeta.
    replace (currentIndex images (-1) p _) with current
      by (symmetry; exact Hidx).
    rewrite next_wraps by exact Hrange. fold N. rewrite Himage. reflexivity.
  - intros Hup Hdown.
    destruct (@currentIndex_current images p c current 0 Hids Hcur)
      as [Hidx Hrange].
    destruct (@index_inside _ images ((current - 1 + N) mod N))
      as [image Himage].
    { apply Z.mod_pos_bound. subst N. lia. }
    exists (setScrollY (Z.max 0 ((current - 1 + N) mod N * 140 - 100))
              (setLastThumbActionTime now
                 (setIsThumbScrolling (Some up) c))), image.
    split; [|split; [exact Himage|split; reflexivity]].
    unfold thumbEffect. rewrite Hhand, Hdrag, Hgate, Hup, Hdown.
    cbv zeta.
    replace (currentIndex images 0 p _) with current
      by (symmetry; exact Hidx).
    rewrite prev_wraps by exact Hrange. fold N. rewrite Himage. reflexivity.
  - intros later p' r' c' Hlast Hsoon. rewrite <- Hlast.
    apply thumbEffect_cooldown. lia.
  - intros later p' r' c' hand' Hlast Hlate Hhand' Hdrag' Hthumb.
    apply (@thumbEffect_fires images later p' r' c' hand'); try assumption.
    lia.
Qed.

Lemma thumb_navigation_witness :
  let p := {| rightHand := Some Samples.upSignal;
              selectedImage := Samples.image 22 |} in
  exists c',
    thumbEffect GALLERY_IMAGES 1700000000000 p initialStore initialStore =
      (c', [onImageSelect (Samples.image 0) None]) /\
    lastThumbActionTime c' = 1700000000000.
Proof.
  intros p.
  assert (Hcur : Spec.isCurrent GALLERY_IMAGES p initialStore 22)
    by (apply position_findIndex; [reflexivity|lia]).
  destruct (@thumb_navigation GALLERY_IMAGES 1700000000000 p initialStore
              initialStore Samples.upSignal 22
              idsNonEmpty_GALLERY_IMAGES eq_refl eq_refl
              ltac:(cbn; lia) Hcur)
    as (Hnext & _).
  destruct (Hnext eq_refl) as (c' & image & Hrun & Himage & _ & Htime).
  exists c'. split; [|exact Htime].
  rewrite Hrun. unfold Samples.image.
  change ((22 + 1) mod len GALLERY_IMAGES) with 0 in Himage.
  rewrite Himage. reflexivity.
Defined.

(** *** Runs *)

Lemma run_app (images : list GalleryImage.t) (dom : Dom)
      (ticks1 ticks2 : list (Z * Props)) (s : Store) :
  run images dom (ticks1 ++ ticks2) s =
    (fst (run images dom ticks2 (fst (run images dom ticks1 s))),
     snd (run images dom ticks1 s) ++
     snd (run images dom ticks2 (fst (run images dom ticks1 s)))).
Proof.
  revert s. induction ticks1 as [|[now p] rest IH]; intros s.
  - cbn. now destruct (run images dom ticks2 s).
  - cbn [app run]. destruct (commit images now dom p s) as [s1 events].
    rewrite IH. destruct (run images dom rest s1) as [s2 later].
    cbn [fst snd]. now rewrite app_assoc.
Qed.

Lemma run_cons (images : list GalleryImage.t) (dom : Dom) (now : Z)
      (p : Props) (rest : list (Z * Props)) (s : Store) :
  run images dom ((now, p) :: rest) s =
    (fst (run images dom rest (fst (commit images now dom p s))),
     map (pair now) (snd (commit images now dom p s)) ++
     snd (run images dom rest (fst (commit images now dom p s)))).
Proof.
  cbn [run]. destruct (commit images now dom p s) as [s1 events].
  cbn [fst snd]. now destruct (run images dom rest s1).
Qed.

(** An idle tick calls nothing and starts no drag. *)
Lemma commit_idle (images : list GalleryImage.t) (now : Z) (dom : Dom)
      (p : Props) (s : Store) :
  Spec.idle (now, p) -> draggedImage s = None ->
  snd (commit images now dom p s) = [] /\
  draggedImage (fst (commit images now dom p s)) = None /\
  lastThumbActionTime (fst (commit images now dom p s)) =
    lastThumbActionTime s.
Proof.
  unfold Spec.idle. cbn [snd]. intros Hidle Hdrag.
  destruct (@commit_no_pinch images now dom p s Hdrag) as (Hev & Hd & Ht).
  { destruct (rightHand p); [left; apply Hidle|exact I]. }
  destruct (@thumbEffect_quiet images now p s
              (fst (trackSelectedEffect p s s))) as [Hq [_ Hqt]].
  { left. destruct (rightHand p); [split; apply Hidle|exact I]. }
  destruct (trackSelectedEffect_frame p s s) as [_ [_ Htt]].
  rewrite Hev, Hq, Ht, Hqt, Htt. auto.
Qed.

(** A thumb tick inside the cooldown calls nothing. *)
Lemma commit_thumb_cooldown (images : list GalleryImage.t) (now : Z)
      (dom : Dom) (p : Props) (s : Store) :
  Spec.thumb (now, p) -> draggedImage s = None ->
  now - lastThumbActionTime s < 1000 ->
  snd (commit images now dom p s) = [] /\
  draggedImage (fst (commit images now dom p s)) = None /\
  lastThumbActionTime (fst (commit images now dom p s)) =
    lastThumbActionTime s.
Proof.
  intros (hand & Hhand & Hthumb) Hdrag Hcool. cbn [snd] in Hhand.
  destruct (@commit_no_pinch images now dom p s Hdrag) as (Hev & Hd & Ht).
  { rewrite Hhand. now right. }
  destruct (trackSelectedEffect_frame p s s) as [_ [_ Htt]].
  destruct (@thumbEffect_cooldown images now p s
              (fst (trackSelectedEffect p s s))) as [Hq Hqt].
  { rewrite Htt. exact Hcool. }
  rewrite Hev, Hq, Ht, Hqt, Htt. auto.
Qed.

(** A thumb tick outside the cooldown calls [onImageSelect] once and
    becomes the last accepted gesture. *)
Lemma commit_thumb_fires (images : list GalleryImage.t) (now : Z)
      (dom : Dom) (p : Props) (s : Store) :
  Spec.thumb (now, p) -> draggedImage s = None ->
  now - lastThumbActionTime s >= 1000 ->
  (exists image,
     snd (commit images now dom p s) = [onImageSelect image None]) /\
  draggedImage (fst (commit images now dom p s)) = None /\
  lastThumbActionTime (fst (commit images now dom p s)) = now.
Proof.
  intros (hand & Hhand & Hthumb) Hdrag Hlate. cbn [snd] in Hhand.
  destruct (@commit_no_pinch images now dom p s Hdrag) as (Hev & Hd & Ht).
  { rewrite Hhand. now right. }
  destruct (trackSelectedEffect_frame p s s) as [_ [_ Htt]].
  destruct (@thumbEffect_fires images now p s
              (fst (trackSelectedEffect p s s)) hand Hhand Hdrag Hthumb)
    as [[image Hq] Hqt].
  { rewrite Htt. exact Hlate. }
  rewrite Hev, Ht, Hqt. split; [exists image; exact Hq|auto].
Qed.

Lemma run_idle (images : list GalleryImage.t) (dom : Dom)
      (ticks : list (Z * Props)) :
  forall s : Store,
    Forall Spec.idle ticks -> draggedImage s = None ->
    snd (run images dom ticks s) = [] /\
    draggedImage (fst (run images dom ticks s)) = None /\
    lastThumbActionTime (fst (run images dom ticks s)) =
      lastThumbActionTime s.
Proof.
  induction ticks as [|[now p] rest IH]; intros s Hidle Hdrag.
  - cbn. auto.
  - rewrite run_cons. cbn [fst snd].
    destruct (@commit_idle images now dom p s (Forall_inv Hidle) Hdrag)
      as (Hev & Hd & Ht).
    destruct (IH _ (Forall_inv_tail Hidle) Hd) as (Hev' & Hd' & Ht').
    rewrite Hev, Hev', Hd', Ht', Ht. auto.
Qed.

(** Thumb ticks that all fall inside the cooldown of the gesture accepted
    at [since] call nothing. *)
Lemma run_cooldown (images : list GalleryImage.t) (dom : Dom) (since : Z)
      (ticks : list (Z * Props)) :
  forall s : Store,
    Forall Spec.thumb ticks ->
    Forall (fun tick => fst tick - since < 1000) ticks ->
    draggedImage s = None -> lastThumbActionTime s = since ->
    snd (run images dom ticks s) = [] /\
    draggedImage (fst (run images dom ticks s)) = None /\
    lastThumbActionTime (fst (run images dom ticks s)) = since.
Proof.
  induction ticks as [|[now p] rest IH]; intros s Hthumb Hsoon Hdrag Hsince.
  - cbn. auto.
  - rewrite run_cons. cbn [fst snd].
    destruct (@commit_thumb_cooldown images now dom p s
                (Forall_inv Hthumb) Hdrag) as (Hev & Hd & Ht).
    { rewrite Hsince. exact (Forall_inv Hsoon). }
    destruct (IH _ (Forall_inv_tail Hthumb) (Forall_inv_tail Hsoon) Hd)
      as (Hev' & Hd' & Ht').
    { rewrite Ht. exact Hsince. }
    rewrite Hev, Hev', Hd', Ht'. auto.
Qed.

(** A gesture that rises outside the cooldown is accepted at its first
    tick, whatever idle ticks came before. *)
Lemma run_rise (images : list GalleryImage.t) (dom : Dom)
      (before : list (Z * Props)) (first : Z * Props) (s : Store) :
  draggedImage s = None -> Forall Spec.idle before -> Spec.thumb first ->
  fst first - lastThumbActionTime s >= 1000 ->
  let s1 := fst (run images dom (before ++ [first]) s) in
  (exists image,
     snd (run images dom (before ++ [first]) s) =
       [(fst first, onImageSelect image None)]) /\
  draggedImage s1 = None /\ lastThumbActionTime s1 = fst first.
Proof.
  intros Hdrag Hidle Hthumb Hlate. cbv zeta. rewrite run_app. cbn [fst snd].
  destruct (@run_idle images dom before s Hidle Hdrag) as (Hev & Hd & Ht).
  destruct first as [now p]. rewrite run_cons. cbn [run fst snd] in *.
  destruct (@commit_thumb_fires images now dom p
              (fst (run images dom before s)) Hthumb Hd)
    as ([image Hev'] & Hd' & Ht').
  { rewrite Ht. exact Hlate. }
  rewrite Hev, Hev', app_nil_r. cbn [map app].
  split; [exists image; reflexivity|auto].
Qed.

(** Held for less than the cooldown, the gesture is accepted once. *)
Lemma run_held_once (images : list GalleryImage.t) (dom : Dom)
      (before held : list (Z * Props)) (first : Z * Props) (s : Store) :
  draggedImage s = None -> Forall Spec.idle before -> Spec.thumb first ->
  Forall Spec.thumb held ->
  fst first - lastThumbActionTime s >= 1000 ->
  Forall (fun tick => fst tick - fst first < 1000) held ->
  let final := fst (run images dom (before ++ first :: held) s) in
  (exists image,
     snd (run images dom (before ++ first :: held) s) =
       [(fst first, onImageSelect image None)]) /\
  draggedImage final = None /\ lastThumbActionTime final = fst first.
Proof.
  intros Hdrag Hidle Hthumb Hheld Hlate Hsoon. cbv zeta.
  replace (before ++ first :: held) with ((before ++ [first]) ++ held)
    by (rewrite <- app_assoc; reflexivity).
  rewrite run_app. cbn [fst snd].
  destruct (@run_rise images dom before first s Hdrag Hidle Hthumb Hlate)
    as ([image Hev] & Hd & Ht).
  destruct (@run_cooldown images dom (fst first) held _ Hheld Hsoon Hd Ht)
    as (Hev' & Hd' & Ht').
  rewrite Hev, Hev', app_nil_r. split; [exists image; reflexivity|auto].
Qed.

(** Held beyond the cooldown, the gesture is accepted again at the first
    tick that is 1000 ms or more after the accepted one. *)
Lemma run_held_again (images : list GalleryImage.t) (dom : Dom)
      (before held1 held2 : list (Z * Props)) (first again : Z * Props)
      (s : Store) :
  draggedImage s = None -> Forall Spec.idle before -> Spec.thumb first ->
  Forall Spec.thumb held1 -> Spec.thumb again ->
  fst first - lastThumbActionTime s >= 1000 ->
  Forall (fun tick => fst tick - fst first < 1000) held1 ->
  fst again - fst first >= 1000 ->
  exists image image' more,
    snd (run images dom (before ++ first :: held1 ++ again :: held2) s) =
      (fst first, onImageSelect image None) ::
      (fst again, onImageSelect image' None) :: more.
Proof.
  intros Hdrag Hidle Hthumb Hheld Hagain Hlate Hsoon Hlater.
  replace (before ++ first :: held1 ++ again :: held2)
    with ((before ++ first :: held1) ++ again :: held2)
    by (rewrite <- app_assoc; reflexivity).
  rewrite run_app. cbn [fst snd].
  destruct (@run_held_once images dom before held1 first s
              Hdrag Hidle Hthumb Hheld Hlate Hsoon) as ([image Hev] & Hd & Ht).
  destruct again as [now p]. rewrite run_cons. cbn [fst snd] in *.
  destruct (@commit_thumb_fires images now dom p _ Hagain Hd)
    as ([image' Hev'] & _).
  { rewrite Ht. exact Hlater. }
  rewrite Hev, Hev'. cbn [map app]. eauto.
Qed.

(** C10.  When nothing is selected and nothing was selected before, a
    thumbs-up outside the cooldown starts from the default index [-1] and
    selects the item at index 0, and a thumbs-down starts from the
    default index [0] and selects the item at index [N - 1]; both items
    exist when the collection is not empty. *)
Theorem thumb_navigation_defaults (images : list GalleryImage.t) (now : Z)
        (p : Props) (r c : Store) (hand : HandData.t) :
  rightHand p = Some hand -> draggedImage r = None ->
  now - lastThumbActionTime c >= 1000 ->
  selectedImage p = None -> lastSelectedId c = None ->
  let N := len images in
  (HandData.isThumbsUp hand = true ->
   currentIndex images (-1) p c = -1 /\
   exists c',
     thumbEffect images now p r c =
       (c', [onImageSelect (index images 0) None])) /\
  (HandData.isThumbsUp hand = false -> HandData.isThumbsDown hand = true ->
   currentIndex images 0 p c = 0 /\
   exists c',
     thumbEffect images now p r c =
       (c', [onImageSelect (index images (N - 1)) None])) /\
  (0 < N -> index images 0 <> None /\ index images (N - 1) <> None).
Proof.
  intros Hhand Hdrag Hnow Hsel Hlast N.
  assert (Hgate : (now - lastThumbActionTime c <? 1000) = false)
    by (apply Z.ltb_ge; lia).
  split; [|split].
  - intros Hup. unfold currentIndex, thumbEffect.
    rewrite Hsel, Hlast, Hhand, Hdrag, Hgate, Hup. split; [reflexivity|].
    eexists. unfold currentIndex. rewrite Hsel. cbn [lastSelectedId
      setLastThumbActionTime setIsThumbScrolling]. rewrite Hlast.
    cbv zeta. fold N. replace (-1 + 1) with 0 by lia.
    destruct (0 <? N); reflexivity.
  - intros Hup Hdown. unfold currentIndex, thumbEffect.
    rewrite Hsel, Hlast, Hhand, Hdrag, Hgate, Hup, Hdown.
    split; [reflexivity|].
    eexists. unfold currentIndex. rewrite Hsel. cbn [lastSelectedId
      setLastThumbActionTime setIsThumbScrolling]. rewrite Hlast.
    cbv zeta. fold N. reflexivity.
  - intros Hpos.
    destruct (@index_inside _ images 0) as [a Ha]; [subst N; lia|].
    destruct (@index_inside _ images (N - 1)) as [b Hb]; [subst N; lia|].
    rewrite Ha, Hb. split; discriminate.
Qed.

Lemma thumb_navigation_defaults_witness :
  let up := {| rightHand := Some Samples.upSignal; selectedImage := None |} in
  let dn := {| rightHand := Some Samples.downSignal; selectedImage := None |} in
  (exists c',
     thumbEffect GALLERY_IMAGES 1700000000000 up initialStore initialStore =
       (c', [onImageSelect (Samples.image 0) None])) /\
  (exists c',
     thumbEffect GALLERY_IMAGES 1700000000000 dn initialStore initialStore =
       (c', [onImageSelect (Samples.image 22) None])).
Proof.
  intros up dn. split.
  - destruct (@thumb_navigation_defaults GALLERY_IMAGES 1700000000000 up
                initialStore initialStore Samples.upSignal eq_refl eq_refl
                ltac:(cbn; lia) eq_refl eq_refl) as (Hup & _).
    destruct (Hup eq_refl) as (_ & c' & Hrun). exists c'. exact Hrun.
  - destruct (@thumb_navigation_defaults GALLERY_IMAGES 1700000000000 dn
                initialStore initialStore Samples.downSignal eq_refl eq_refl
                ltac:(cbn; lia) eq_refl eq_refl) as (_ & Hdown & _).
    destruct (Hdown eq_refl eq_refl) as (_ & c' & Hrun). exists c'.
    exact Hrun.
Defined.

(** C4, as stated, fails.  The thumb effect is gated by the cooldown
    alone; it keeps no previous thumb state.  In [Samples.heldThumbsUp]
    the thumbs-up rises once and is held for 1000 ms, and the gallery
    selects twice. *)
Lemma held_gesture_repeats :
  ~ (forall ticks : list (Z * Props),
       Spec.risesOnce ticks ->
       exists final event,
         run GALLERY_IMAGES Samples.dom ticks initialStore =
           (final, [event])).
Proof.
  intros Hclaim.
  assert (Hup : forall now sel,
             Spec.thumb (now, {| rightHand := Some Samples.upSignal;
                                 selectedImage := sel |})).
  { intros now sel. exists Samples.upSignal.
    split; [reflexivity|now left]. }
  assert (Hidle : Forall Spec.idle [Samples.idleTick])
    by (repeat constructor).
  set (soon := map Samples.heldTick [0; 1; 2; 3; 4; 5; 6; 7; 8; 9]%Z).
  assert (Hsplit : Samples.heldThumbsUp =
                   [Samples.idleTick] ++
                   Samples.riseTick :: soon ++ [Samples.heldTick 10])
    by reflexivity.
  assert (Hsoon_thumb : Forall Spec.thumb soon)
    by (subst soon; cbn [map]; repeat (constructor; [apply Hup|]);
        constructor).
  assert (Hsoon : Forall (fun tick => (fst tick - fst Samples.riseTick
                                       < 1000)%Z) soon)
    by (subst soon; cbn [map]; repeat (constructor; [cbn; lia|]);
        constructor).
  destruct (Hclaim Samples.heldThumbsUp) as (final & event & Hrun).
  { exists [Samples.idleTick], Samples.riseTick,
           (soon ++ [Samples.heldTick 10]).
    split; [exact Hsplit|]. split; [exact Hidle|].
    split; [apply Hup|].
    split; [apply Forall_app; split;
            [exact Hsoon_thumb|constructor; [apply Hup|constructor]]|].
    split; [cbn; lia|].
    subst soon; cbn [map app]; repeat (constructor; [cbn; lia|]);
      constructor. }
  destruct (@run_held_again GALLERY_IMAGES Samples.dom [Samples.idleTick]
              soon [] Samples.riseTick (Samples.heldTick 10) initialStore
              eq_refl Hidle (Hup _ _) Hsoon_thumb (Hup _ _)
              ltac:(cbn; lia) Hsoon ltac:(cbn; lia))
    as (image & image' & more & Htwice).
  rewrite Hsplit in Hrun. rewrite Hrun in Htwice. discriminate Htwice.
Qed.

(** Thumb ticks are accepted at the times the cooldown lets through, and
    nothing else is called. *)
Lemma run_thumbs (images : list GalleryImage.t) (dom : Dom)
      (held : list (Z * Props)) :
  forall s : Store,
    Forall Spec.thumb held -> draggedImage s = None ->
    map fst (snd (run images dom held s)) =
      Spec.accepted (lastThumbActionTime s) (map fst held) /\
    Forall (fun event => exists image, snd event = onImageSelect image None)
           (snd (run images dom held s)).
Proof.
  induction held as [|[now p] rest IH]; intros s Hthumb Hdrag.
  - cbn. auto.
  - rewrite run_cons. cbn [fst snd map Spec.accepted].
    destruct (now - lastThumbActionTime s <? 1000) eqn:Hgate.
    + apply Z.ltb_lt in Hgate.
      destruct (@commit_thumb_cooldown images now dom p s
                  (Forall_inv Hthumb) Hdrag Hgate) as (Hev & Hd & Ht).
      destruct (IH _ (Forall_inv_tail Hthumb) Hd) as [Htimes Hall].
      rewrite Hev, Ht in *. cbn [map app]. auto.
    + apply Z.ltb_ge in Hgate.
      destruct (@commit_thumb_fires images now dom p s
                  (Forall_inv Hthumb) Hdrag) as ([image Hev] & Hd & Ht);
        [lia|].
      destruct (IH _ (Forall_inv_tail Hthumb) Hd) as [Htimes Hall].
      rewrite Hev, Ht in *. cbn [map app fst]. split.
      * now rewrite Htimes.
      * constructor; [exists image; reflexivity|exact Hall].
Qed.

(** C4, amended.  The navigation is gated by its cooldown, not by the edge
    of the gesture.  With no drag in progress, a run of idle ticks followed
    by ticks that all show a thumb gesture calls [onImageSelect] at the
    times the cooldown lets through and nothing else: at each tick that
    comes 1000 ms or more after the last accepted one.  So a gesture that
    rises outside the cooldown is accepted at its first tick; if every
    later tick comes less than 1000 ms after that one, this is the only
    callback of the run; and if the gesture is still held at a tick 1000 ms
    or more after the accepted one, it is accepted again at the first such
    tick. *)
Theorem hold_fires_once_per_cooldown (images : list GalleryImage.t)
        (dom : Dom) (before held : list (Z * Props)) (first : Z * Props)
        (s : Store) :
  draggedImage s = None -> Forall Spec.idle before -> Spec.thumb first ->
  Forall Spec.thumb held ->
  let called := snd (run images dom (before ++ first :: held) s) in
  (map fst called =
     Spec.accepted (lastThumbActionTime s) (map fst (first :: held)) /\
   Forall (fun event => exists image, snd event = onImageSelect image None)
          called) /\
  (fst first - lastThumbActionTime s >= 1000 ->
   (Forall (fun tick => fst tick - fst first < 1000) held ->
    exists image, called = [(fst first, onImageSelect image None)]) /\
   (forall held1 again held2,
      held = held1 ++ again :: held2 ->
      Forall (fun tick => fst tick - fst first < 1000) held1 ->
      fst again - fst first >= 1000 ->
      exists image image' more,
        called = (fst first, onImageSelect image None) ::
                 (fst again, onImageSelect image' None) :: more)).
Proof.
  intros Hdrag Hidle Hthumb Hheld called. split.
  - subst called. rewrite run_app. cbn [fst snd].
    destruct (@run_idle images dom before s Hidle Hdrag) as (Hev & Hd & Ht).
    rewrite Hev, <- Ht. cbn [app].
    apply run_thumbs; [constructor; assumption|exact Hd].
  - intros Hlate. split.
    + intros Hsoon.
      apply (@run_held_once images dom before held first s); assumption.
    + intros held1 again held2 -> Hsoon Hlater.
      apply Forall_app in Hheld. destruct Hheld as [Hheld1 Hrest].
      apply (@run_held_again images dom before held1 held2 first again s);
        try assumption.
      exact (Forall_inv Hrest).
Qed.

Lemma hold_fires_once_per_cooldown_witness :
  let short := [Samples.idleTick; Samples.riseTick;
                Samples.heldTick 0; Samples.heldTick 8] in
  (exists image,
     snd (run GALLERY_IMAGES Samples.dom short initialStore) =
       [(1700000000100, onImageSelect image None)]) /\
  map fst (snd (run GALLERY_IMAGES Samples.dom Samples.heldThumbsUp
                  initialStore)) =
    [1700000000100; 1700000001100].
Proof.
  intros short.
  assert (Hup : forall now sel,
             Spec.thumb (now, {| rightHand := Some Samples.upSignal;
                                 selectedImage := sel |})).
  { intros now sel. exists Samples.upSignal.
    split; [reflexivity|now left]. }
  assert (Hidle : Forall Spec.idle [Samples.idleTick])
    by (repeat constructor).
  split.
  - destruct (@hold_fires_once_per_cooldown GALLERY_IMAGES Samples.dom
                [Samples.idleTick] [Samples.heldTick 0; Samples.heldTick 8]
                Samples.riseTick initialStore eq_refl Hidle (Hup _ _))
      as (_ & Honce).
    + repeat (constructor; [apply Hup|]). constructor.
    + apply Honce; [cbn; lia|].
      repeat (constructor; [cbn; lia|]). constructor.
  - destruct (@hold_fires_once_per_cooldown GALLERY_IMAGES Samples.dom
                [Samples.idleTick]
                (map Samples.heldTick [0; 1; 2; 3; 4; 5; 6; 7; 8; 9; 10]%Z)
                Samples.riseTick initialStore eq_refl Hidle (Hup _ _))
      as ((Htimes & _) & _).
    + cbn [map]. repeat (constructor; [apply Hup|]). constructor.
    + exact Htimes.
Defined.

(** *** Drag *)

(** Without a right hand a commit calls nothing and keeps the dragged
    image and the cooldown. *)
Lemma commit_hand_missing (images : list GalleryImage.t) (now : Z)
      (dom : Dom) (p : Props) (s : Store) :
  rightHand p = None ->
  snd (commit images now dom p s) = [] /\
  Spec.sameDrag s (fst (commit images now dom p s)).
Proof.
  intros Hhand. rewrite commit_effects. cbv zeta. cbn [fst snd].
  destruct (trackSelectedEffect_frame p s s) as [Et St].
  destruct (@thumbEffect_quiet images now p s
              (fst (trackSelectedEffect p s s))) as [Eth Sth].
  { left. now rewrite Hhand. }
  destruct (@pinchStartEffect_quiet images dom p s
              (fst (thumbEffect images now p s
                      (fst (trackSelectedEffect p s s))))) as [Eps Sps].
  { left. now rewrite Hhand. }
  rewrite (@dragEffect_no_drag (window dom) p s _ (or_intror Hhand)).
  cbn [fst snd].
  destruct (hoverEffect_frame dom p s
              (fst (pinchStartEffect images dom p s
                      (fst (thumbEffect images now p s
                              (fst (trackSelectedEffect p s s)))))))
    as [Eh Sh].
  rewrite Et, Eth, Eps, Eh. split; [reflexivity|].
  eauto using sameDrag_trans.
Qed.

(** With the hand back and not pinching, a commit releases the dragged
    image. *)
Lemma commit_release (images : list GalleryImage.t) (now : Z) (dom : Dom)
      (p : Props) (s : Store) (dragged : GalleryImage.t) (hand : HandData.t) :
  draggedImage s = Some dragged -> rightHand p = Some hand ->
  HandData.isPinching hand = false ->
  draggedImage (fst (commit images now dom p s)) = None /\
  In (setIsDragging false) (snd (commit images now dom p s)).
Proof.
  intros Hdrag Hhand Hpinch. rewrite commit_effects. cbv zeta. cbn [fst snd].
  destruct (hoverEffect_frame dom p s
              (fst (dragEffect (window dom) p s
                      (fst (pinchStartEffect images dom p s
                              (fst (thumbEffect images now p s
                                      (fst (trackSelectedEffect p s s)))))))))
    as [_ [Dh _]].
  rewrite Dh. unfold dragEffect at 1 2. rewrite Hdrag, Hhand, Hpinch.
  cbn [negb fst snd]. split; [reflexivity|].
  rewrite !in_app_iff. do 3 right. left. right. now left.
Qed.

(** The scrolling version of the gallery has the same drag effect and the
    same guards. *)
Lemma scroll_commit_hand_missing (dom : ImageGalleryScroll.Dom)
      (p : ImageGalleryScroll.Props) (s : ImageGalleryScroll.Store) :
  ImageGalleryScroll.rightHand p = None ->
  snd (ImageGalleryScroll.commit dom p s) = [] /\
  ImageGalleryScroll.draggedImage (fst (ImageGalleryScroll.commit dom p s)) =
    ImageGalleryScroll.draggedImage s.
Proof.
  intros Hhand.
  unfold ImageGalleryScroll.commit, ImageGalleryScroll.scrollEffect,
    ImageGalleryScroll.pinchStartEffect, ImageGalleryScroll.dragEffect,
    ImageGalleryScroll.hoverEffect.
  rewrite Hhand.
  destruct (ImageGalleryScroll.draggedImage s) eqn:Hdrag;
    cbn; rewrite ?Hdrag; split; reflexivity.
Qed.

Lemma scroll_commit_release (dom : ImageGalleryScroll.Dom)
      (p : ImageGalleryScroll.Props) (s : ImageGalleryScroll.Store)
      (dragged : GalleryImage.t) (hand : HandData.t) :
  ImageGalleryScroll.draggedImage s = Some dragged ->
  ImageGalleryScroll.rightHand p = Some hand ->
  HandData.isPinching hand = false ->
  ImageGalleryScroll.draggedImage (fst (ImageGalleryScroll.commit dom p s)) =
    None /\
  In (setIsDragging false) (snd (ImageGalleryScroll.commit dom p s)).
Proof.
  intros Hdrag Hhand Hpinch.
  unfold ImageGalleryScroll.commit, ImageGalleryScroll.scrollEffect,
    ImageGalleryScroll.pinchStartEffect, ImageGalleryScroll.dragEffect,
    ImageGalleryScroll.hoverEffect.
  rewrite Hhand, Hdrag, Hpinch. cbn [negb fst snd app].
  split; [reflexivity|].
  rewrite !in_app_iff. left. right. now left.
Qed.

(** C5, as stated, fails.  The drag effect returns at once when there is
    no right hand, and no other effect releases a drag: with the first
    image dragged and the hand lost, the image stays dragged and
    [setIsDragging] is not called. *)
Lemma lost_hand_keeps_drag :
  ~ (forall (now : Z) (p : Props) (s : Store),
       draggedImage s <> None -> rightHand p = None ->
       draggedImage (fst (commit GALLERY_IMAGES now Samples.dom p s)) = None /\
       In (setIsDragging false)
          (snd (commit GALLERY_IMAGES now Samples.dom p s))).
Proof.
  intros Hclaim.
  destruct (Hclaim 1700000000000 Samples.handLost Samples.draggingStore)
    as [Hreleased _]; [discriminate|reflexivity|].
  destruct (@commit_hand_missing GALLERY_IMAGES 1700000000000 Samples.dom
              Samples.handLost Samples.draggingStore eq_refl)
    as [_ [Hkept _]].
  rewrite Hreleased in Hkept. discriminate Hkept.
Qed.

(** C5, amended.  While the right hand is missing, a drag in progress
    stays engaged: no callback is called and the dragged image is kept,
    for as many ticks as the hand is missing.  The drag disengages at a
    tick in which the hand is present and does not pinch: the dragged
    image is cleared and [setIsDragging(false)] is called.  The same holds
    in the scrolling version of the gallery. *)
Theorem drag_waits_for_hand (images : list GalleryImage.t) (dom : Dom)
        (s : Store) (dragged : GalleryImage.t) :
  draggedImage s = Some dragged ->
  (forall ticks : list (Z * Props),
     Forall (fun tick => rightHand (snd tick) = None) ticks ->
     snd (run images dom ticks s) = [] /\
     draggedImage (fst (run images dom ticks s)) = Some dragged) /\
  (forall (now : Z) (p : Props) (hand : HandData.t),
     rightHand p = Some hand -> HandData.isPinching hand = false ->
     draggedImage (fst (commit images now dom p s)) = None /\
     In (setIsDragging false) (snd (commit images now dom p s))) /\
  (forall (dom' : ImageGalleryScroll.Dom) (s' : ImageGalleryScroll.Store)
          (p' : ImageGalleryScroll.Props),
     ImageGalleryScroll.draggedImage s' = Some dragged ->
     let after := ImageGalleryScroll.commit dom' p' s' in
     (ImageGalleryScroll.rightHand p' = None ->
      snd after = [] /\
      ImageGalleryScroll.draggedImage (fst after) = Some dragged) /\
     (forall hand : HandData.t,
        ImageGalleryScroll.rightHand p' = Some hand ->
        HandData.isPinching hand = false ->
        ImageGalleryScroll.draggedImage (fst after) = None /\
        In (setIsDragging false) (snd after))).
Proof.
  intros Hdrag. split; [|split].
  - intros ticks. revert s Hdrag.
    induction ticks as [|[now p] rest IH]; intros s Hdrag Hlost.
    + cbn. auto.
    + rewrite run_cons. cbn [fst snd].
      destruct (@commit_hand_missing images now dom p s (Forall_inv Hlost))
        as [Hev [Hd _]].
      destruct (IH (fst (commit images now dom p s))) as [Hev' Hd'].
      * rewrite Hd. exact Hdrag.
      * exact (Forall_inv_tail Hlost).
      * rewrite Hev, Hev'. auto.
  - intros now p hand Hhand Hpinch.
    apply (@commit_release images now dom p s dragged hand); assumption.
  - intros dom' s' p' Hdrag' after. split.
    + intros Hlost.
      destruct (@scroll_commit_hand_missing dom' p' s' Hlost) as [Hev Hd].
      subst after. rewrite Hev, Hd. auto.
    + intros hand Hhand Hpinch.
      apply (@scroll_commit_release dom' p' s' dragged hand); assumption.
Qed.

Lemma drag_waits_for_hand_witness :
  (snd (run GALLERY_IMAGES Samples.dom
          [(1700000000000, Samples.handLost);
           (1700000000020, Samples.handLost)] Samples.draggingStore) = [] /\
   draggedImage
     (fst (run GALLERY_IMAGES Samples.dom
             [(1700000000000, Samples.handLost);
              (1700000000020, Samples.handLost)] Samples.draggingStore)) =
     Samples.image 0) /\
  draggedImage
    (fst (commit GALLERY_IMAGES 1700000000040 Samples.dom
            {| rightHand := Some Samples.restSignal; selectedImage := None |}
            Samples.draggingStore)) = None.
Proof.
  destruct (@drag_waits_for_hand GALLERY_IMAGES Samples.dom
              Samples.draggingStore
              (GalleryImage.mk "1" "/gallery/image1.jpg" "codeforces")
              eq_refl) as (Hkept & Hreleased & _).
  split.
  - apply Hkept. repeat constructor.
  - apply (Hreleased 1700000000040
             {| rightHand := Some Samples.restSignal; selectedImage := None |}
             Samples.restSignal eq_refl eq_refl).
Defined.

End GalleryFacts.

(** ** The viewer: move / dismiss and zoom / pan *)

Module ViewerFacts.

Import ImageViewer.
Local Open Scope R_scope.

(** *** The four branches of the right-hand effect *)


(** A later tick of the pinch in the main view: the image follows the hand
    and the dismiss zone is evaluated. *)
Lemma rightHandEffect_track (w : Window) (p : Props) (r c : Store)
      (shown : GalleryImage.t) (hand : HandData.t) (start : Point.t) :
  image p = Some shown -> rightHand p = Some hand -> isDismissing r = false ->
  HandData.isPinching hand = true ->
  pinchX w hand < innerWidth w * 0.75 ->
  rightPinchStart c = Some start ->
  rightHandEffect w p r c =
    (setIsInDismissZone (pinchY w hand >? innerHeight w * 0.85)
       (setPan (Point.mk (pinchX w hand - Point.x start)
                         (pinchY w hand - Point.y start)) c), []).
Proof.
  intros Himage Hhand Hdismissing Hpinch Hmain Hstart. unfold rightHandEffect.
  rewrite Himage, Hhand, Hdismissing, Hpinch, Hstart.
  replace (pinchX w hand <? innerWidth w * 0.75) with true
    by (symmetry; now apply JSFacts.ltb_true).
  reflexivity.
Qed.



(** *** Move / dismiss *)




(** *** Zoom / pan *)

(** One processed run of the left-hand effect, by the latch: with the
    latch down the position is captured, with the latch up zoom and pan
    follow the move from the reference, and a hand that does not pinch
    lowers the latch. *)
Lemma leftHandEffect_step (w : Window) (p : Props) (r c : Store)
      (shown : GalleryImage.t) (hand : HandData.t) :
  image p = Some shown -> leftHand p = Some hand ->
  isDraggingWithRight r = false ->
  let x := pinchX w hand in
  let y := pinchY w hand in
  let c' := fst (leftHandEffect w p r c) in
  (HandData.isPinching hand = true -> isPinching c = false ->
   zoom c' = zoom c /\ pan c' = pan c /\
   lastPinchX c' = x /\ lastPinchY c' = y /\ isPinching c' = true) /\
  (HandData.isPinching hand = true -> isPinching c = true ->
   let dx := x - lastPinchX c in
   let dy := y - lastPinchY c in
   (Rabs dy > 0.5 * Rabs dx ->
    zoom c' = JS.clamp (zoom c - dy * 0.008) 0.5 4) /\
   (Rabs dy <= 0.5 * Rabs dx -> zoom c' = zoom c) /\
   (Rabs dx > 5 ->
    pan c' = Point.mk (JS.clamp (Point.x (pan c) + dx * 0.5) (-300) 300)
                      (Point.y (pan c))) /\
   (Rabs dx <= 5 -> pan c' = pan c) /\
   lastPinchX c' = x /\ lastPinchY c' = y /\ isPinching c' = true) /\
  (HandData.isPinching hand = false ->
   zoom c' = zoom c /\ pan c' = pan c /\ isPinching c' = false).
Proof.
  intros Himage Hhand Hright x y c'. subst c'. unfold leftHandEffect.
  rewrite Himage, Hhand, Hright. fold x y. split; [|split].
  - intros Hpinch Hlatch. rewrite Hpinch, Hlatch. cbn. auto.
  - intros Hpinch Hlatch. rewrite Hpinch, Hlatch. cbn [negb].
    set (dx := x - lastPinchX c). set (dy := y - lastPinchY c).
    destruct (Rabs dy >? Rabs dx * 0.5) eqn:Hzoom;
      destruct (Rabs dx >? 5) eqn:Hpan; cbn;
      try apply JSFacts.gtb_true in Hzoom;
      try apply JSFacts.gtb_false in Hzoom;
      try apply JSFacts.gtb_true in Hpan;
      try apply JSFacts.gtb_false in Hpan;
      rewrite ?JSFacts.max_min_clamp by lra;
      repeat split; intros; try reflexivity; try lra;
      try assumption;
      try (f_equal; lra); try (f_equal; f_equal; lra).
  - intros Hpinch. rewrite Hpinch. cbn. auto.
Qed.

(** What the guard of the left-hand effect lets through. *)
Lemma processedHand_Some (p : Props) (r : Store) (hand : HandData.t) :
  Viewing.processedHand (Viewing.LeftHand p r) = Some hand ->
  (exists shown, image p = Some shown) /\ leftHand p = Some hand /\
  isDraggingWithRight r = false.
Proof.
  cbn. destruct (image p) as [shown|]; [|discriminate].
  destruct (leftHand p) as [hand'|]; [|discriminate].
  destruct (isDraggingWithRight r); [discriminate|].
  intros [= ->]. eauto.
Qed.

(** A run that the guard ends changes nothing. *)
Lemma leftHandEffect_skipped (w : Window) (p : Props) (r c : Store) :
  Viewing.processedHand (Viewing.LeftHand p r) = None ->
  leftHandEffect w p r c = (c, []).
Proof.
  cbn. unfold leftHandEffect.
  destruct (image p), (leftHand p); try reflexivity.
  destruct (isDraggingWithRight r); [reflexivity|discriminate].
Qed.

(** Latch and reference belong to the left-hand effect: the other effects
    and the callback of the timer leave them alone. *)
Lemma rightHandEffect_latch (w : Window) (p : Props) (r c : Store) :
  let c' := fst (rightHandEffect w p r c) in
  isPinching c' = isPinching c /\ lastPinchX c' = lastPinchX c /\
  lastPinchY c' = lastPinchY c.
Proof.
  unfold rightHandEffect.
  destruct (image p), (rightHand p) as [hand|]; cbn; auto.
  destruct (isDismissing r); cbn; auto.
  destruct (_ && _).
  - destruct (rightPinchStart c); cbn; auto.
  - destruct (negb _), (rightPinchStart c); cbn; auto.
    destruct (isInDismissZone r); cbn; auto.
Qed.

Lemma act_follows (w : Window) (last : option HandData.t) (c : Store)
      (a : Viewing.Action) :
  Viewing.follows w last c ->
  Viewing.follows w (Viewing.processed last a) (Viewing.act w c a).
Proof.
  intros Hfollows. destruct a as [p r|p r| |]; cbn [Viewing.act].
  - destruct (rightHandEffect_latch w p r c) as (Hlatch & Hx & Hy).
    unfold Viewing.processed. cbn [Viewing.processedHand].
    unfold Viewing.follows in *. destruct last as [hand|].
    + now rewrite Hlatch, Hx, Hy.
    + now rewrite Hlatch.
  - unfold Viewing.processed.
    destruct (Viewing.processedHand (Viewing.LeftHand p r)) as [hand|]
      eqn:Hprocessed.
    + apply processedHand_Some in Hprocessed.
      destruct Hprocessed as ([shown Himage] & Hhand & Hright).
      destruct (@leftHandEffect_step w p r c shown hand Himage Hhand Hright)
        as (Hrise & Hmove & Hopen).
      unfold Viewing.follows.
      destruct (HandData.isPinching hand) eqn:Hpinch.
      * destruct (isPinching c) eqn:Hlatch.
        -- destruct (Hmove eq_refl eq_refl) as (_ & _ & _ & _ & Hx & Hy & Hup).
           auto.
        -- destruct (Hrise eq_refl eq_refl) as (_ & _ & Hx & Hy & Hup).
           auto.
      * destruct (Hopen eq_refl) as (_ & _ & Hdown).
        split; [exact Hdown|discriminate].
    + now rewrite leftHandEffect_skipped.
  - exact Hfollows.
  - exact Hfollows.
Qed.

Lemma acts_follows (w : Window) (actions : list Viewing.Action)
      (last : option HandData.t) (c : Store) :
  Viewing.follows w last c ->
  Viewing.follows w (fold_left Viewing.processed actions last)
                  (Viewing.acts w actions c).
Proof.
  unfold Viewing.acts. revert last c.
  induction actions as [|a actions IH]; intros last c Hfollows;
    [exact Hfollows|].
  cbn [fold_left]. apply IH. now apply act_follows.
Qed.

(** *** Commits *)

Lemma sameId_refl (id : option string) : Viewing.sameId id id = true.
Proof.
  destruct id as [x|]; [|reflexivity]. cbn. apply String.eqb_refl.
Qed.

(** A commit that shows the image of the render before runs the two hand
    effects. *)
Lemma viewer_commit_same (w : Window) (p : Props) (r : Store) :
  Viewing.commit w (Some (Viewing.imageId p)) p r =
    (fst (leftHandEffect w p r (fst (rightHandEffect w p r r))),
     snd (rightHandEffect w p r r) ++
     snd (leftHandEffect w p r (fst (rightHandEffect w p r r)))).
Proof.
  unfold Viewing.commit. destruct (rightHandEffect w p r r) as [c1 e1].
  cbn [fst snd]. destruct (leftHandEffect w p r c1) as [c2 e2].
  rewrite sameId_refl. cbn [fst snd]. now rewrite app_nil_r.
Qed.

(** A commit that shows another image, or none where there was one, or
    one where there was none, ends with the reset. *)
Lemma viewer_commit_reset (w : Window) (last : option string) (p : Props)
      (r : Store) :
  Viewing.sameId last (Viewing.imageId p) = false ->
  Viewing.commit w (Some last) p r =
    (fst (resetEffect
            (fst (leftHandEffect w p r (fst (rightHandEffect w p r r))))),
     snd (rightHandEffect w p r r) ++
     snd (leftHandEffect w p r (fst (rightHandEffect w p r r)))).
Proof.
  intros Hchanged. unfold Viewing.commit.
  destruct (rightHandEffect w p r r) as [c1 e1].
  cbn [fst snd]. destruct (leftHandEffect w p r c1) as [c2 e2].
  rewrite Hchanged. cbn [resetEffect fst snd]. now rewrite app_nil_r.
Qed.

Lemma viewer_run_cons (w : Window) (last : option (option string))
      (p : Props) (rest : list Props) (s : Store) :
  Viewing.run w last (p :: rest) s =
    (fst (Viewing.run w (Some (Viewing.imageId p)) rest
            (fst (Viewing.commit w last p s))),
     snd (Viewing.commit w last p s) ++
     snd (Viewing.run w (Some (Viewing.imageId p)) rest
            (fst (Viewing.commit w last p s)))).
Proof.
  cbn [Viewing.run]. destruct (Viewing.commit w last p s) as [s1 events].
  cbn [fst snd]. now destruct (Viewing.run w _ rest s1).
Qed.

(** C7, as stated, fails.  The rising edge of the claim is the step from
    a snapshot in which the left hand does not pinch, or is not seen, to a
    snapshot in which it pinches.  The left-hand effect returns at a
    snapshot without a left hand before it comes to its latch, so the
    latch of a pinch stays up when the hand is lost: with an image shown
    and no right hand, a left hand that pinches at (0.5, 0.5), is lost for
    a snapshot and pinches again 18 px lower changes the zoom from 1 to
    0.856 at the rising edge. *)
Lemma rise_after_lost_hand_zooms :
  ~ (forall (w : Window) (shown : GalleryImage.t) (before : list Props)
            (prev p : Props),
       Forall (fun q => image q = Some shown /\ rightHand q = None)
              (before ++ [prev; p]) ->
       Viewing.leftPinching prev = false -> Viewing.leftPinching p = true ->
       let last := Some (Some (GalleryImage.id shown)) in
       let s := fst (Viewing.run w last (before ++ [prev]) initialStore) in
       let s' := fst (Viewing.commit w last p s) in
       zoom s' = zoom s /\ pan s' = pan s).
Proof.
  intros Hclaim.
  set (shown := GalleryImage.mk "1" "/gallery/image1.jpg" "codeforces").
  set (rise := Samples.viewing (Some Samples.leftPinch) None).
  set (lost := Samples.viewing None None).
  set (back := Samples.viewing (Some Samples.leftPinchMoved) None).
  assert (Hticks : Forall (fun q => image q = Some shown /\ rightHand q = None)
                          ([rise] ++ [lost; back]))
    by (repeat apply Forall_cons; try apply Forall_nil; split; reflexivity).
  destruct (Hclaim Samples.window shown [rise] lost back Hticks
              eq_refl eq_refl) as [Hzoom _].
  revert Hzoom. cbn [app].
  change (Some (Some (GalleryImage.id shown)))
    with (Some (Viewing.imageId rise)).
  rewrite viewer_run_cons, viewer_commit_same. cbn [fst].
  change (Some (Viewing.imageId rise)) with (Some (Viewing.imageId lost)).
  rewrite viewer_run_cons, viewer_commit_same. cbn [fst Viewing.run].
  change (Some (Viewing.imageId lost)) with (Some (Viewing.imageId back)).
  rewrite viewer_commit_same. cbn [fst].
  set (s1 := fst (leftHandEffect Samples.window rise _ _)).
  assert (Hs1 : s1 = setIsPinching true (setLastPinch 640 360 initialStore)).
  { subst s1. cbn. unfold pinchX, pinchY. cbn.
    unfold setIsPinching, setLastPinch. cbn. f_equal; lra. }
  rewrite Hs1.
  set (s2 := fst (leftHandEffect Samples.window lost _ _)).
  assert (Hs2 : s2 = setIsPinching true (setLastPinch 640 360 initialStore))
    by reflexivity.
  rewrite Hs2. clear s1 Hs1 s2 Hs2.
  set (s := setIsPinching true _).
  destruct (@leftHandEffect_step Samples.window back s
              (fst (rightHandEffect Samples.window back s s)) shown
              Samples.leftPinchMoved eq_refl eq_refl eq_refl)
    as (_ & Hmove & _).
  destruct (Hmove eq_refl eq_refl) as (Hzoomed & _).
  cbv zeta in Hzoomed.
  assert (Hdx : pinchX Samples.window Samples.leftPinchMoved - 640 = 16)
    by (unfold pinchX; cbn; lra).
  assert (Hdy : pinchY Samples.window Samples.leftPinchMoved - 360 = 18)
    by (unfold pinchY; cbn; lra).
  cbn [rightHandEffect] in Hzoomed.
  change (lastPinchX (fst (rightHandEffect Samples.window back s s)))
    with 640 in Hzoomed.
  change (lastPinchY (fst (rightHandEffect Samples.window back s s)))
    with 360 in Hzoomed.
  rewrite Hdx, Hdy in Hzoomed.
  rewrite Hzoomed by (rewrite !Rabs_pos_eq by lra; lra).
  change (zoom (fst (rightHandEffect Samples.window back s s))) with 1.
  change (zoom s) with 1. unfold JS.clamp.
  destruct (Rlt_dec (1 - 18 * 0.008) 0.5); [lra|].
  destruct (Rlt_dec 4 (1 - 18 * 0.008)); lra.
Qed.

(** C7, amended.  The Zoom/Pan Controller counts the ticks that it
    processes: a run of the left-hand effect with an image shown, the left
    hand seen and no drag with the right hand in the render.  Any other
    run is skipped and leaves the store, with latch and reference, as it
    is.  After any effects of the viewer, from the mount on, a processed
    run with the left hand pinching is treated as follows.  On the rising
    edge among the processed runs (no run was processed before, or the
    hand of the last processed run did not pinch) the position of the hand
    is captured as the reference; zoom and pan stay as they are.
    Otherwise the hand of the last processed run pinched, however many
    skipped runs lie between, and with [dx] and [dy] the differences to
    the position of that hand: if [|dy| > 0.5 * |dx|] the zoom becomes
    [zoom - dy * 0.008] clamped to the interval from 0.5 to 4, and,
    independently, if [|dx| > 5] the horizontal pan becomes
    [pan.x + dx * 0.5] clamped to the interval from -300 to 300; the
    position becomes the new reference.  A processed run with a hand that
    does not pinch changes neither zoom nor pan. *)
Theorem zoom_pan_between_processed_runs (w : Window)
        (actions : list Viewing.Action) (p : Props) (r : Store) :
  let c := Viewing.acts w actions initialStore in
  let c' := fst (leftHandEffect w p r c) in
  (Viewing.processedHand (Viewing.LeftHand p r) = None -> c' = c) /\
  (forall hand,
     Viewing.processedHand (Viewing.LeftHand p r) = Some hand ->
     let x := pinchX w hand in
     let y := pinchY w hand in
     (HandData.isPinching hand = true -> Viewing.held actions = None ->
      zoom c' = zoom c /\ pan c' = pan c /\
      lastPinchX c' = x /\ lastPinchY c' = y) /\
     (forall before,
        HandData.isPinching hand = true ->
        Viewing.held actions = Some before ->
        let dx := x - pinchX w before in
        let dy := y - pinchY w before in
        (Rabs dy > 0.5 * Rabs dx ->
         zoom c' = JS.clamp (zoom c - dy * 0.008) 0.5 4) /\
        (Rabs dy <= 0.5 * Rabs dx -> zoom c' = zoom c) /\
        (Rabs dx > 5 ->
         pan c' =
           Point.mk (JS.clamp (Point.x (pan c) + dx * 0.5) (-300) 300)
                    (Point.y (pan c))) /\
        (Rabs dx <= 5 -> pan c' = pan c) /\
        lastPinchX c' = x /\ lastPinchY c' = y) /\
     (HandData.isPinching hand = false ->
      zoom c' = zoom c /\ pan c' = pan c)).
Proof.
  intros c c'. split.
  - intros Hskipped. subst c'. now rewrite leftHandEffect_skipped.
  - intros hand Hprocessed x y.
    apply processedHand_Some in Hprocessed.
    destruct Hprocessed as ([shown Himage] & Hhand & Hright).
    destruct (@leftHandEffect_step w p r c shown hand Himage Hhand Hright)
      as (Hrise & Hmove & Hopen).
    fold c' x y in Hrise, Hmove, Hopen.
    assert (Hfollows : Viewing.follows w (Viewing.lastProcessed actions) c)
      by (apply acts_follows; reflexivity).
    unfold Viewing.held. unfold Viewing.follows in Hfollows.
    split; [|split].
    + intros Hpinch Hheld.
      assert (Hlatch : isPinching c = false).
      { destruct (Viewing.lastProcessed actions) as [last|];
          [|exact Hfollows].
        destruct Hfollows as [Hlatch _].
        destruct (HandData.isPinching last); [discriminate|exact Hlatch]. }
      destruct (Hrise Hpinch Hlatch) as (Hzoom & Hpan & Hx & Hy & _). auto.
    + intros before Hpinch Hheld.
      destruct (Viewing.lastProcessed actions) as [last|]; [|discriminate].
      destruct Hfollows as [Hlatch Href].
      destruct (HandData.isPinching last) eqn:Hlast; [|discriminate].
      injection Hheld as ->.
      destruct (Href eq_refl) as [Hrefx Hrefy].
      destruct (Hmove Hpinch Hlatch)
        as (Hzoom & Hzoom' & Hpan & Hpan' & Hx & Hy & _).
      cbv zeta in *. rewrite <- Hrefx, <- Hrefy. auto 10.
    + intros Hpinch. destruct (Hopen Hpinch) as (Hzoom & Hpan & _). auto.
Qed.

Lemma zoom_pan_between_processed_runs_witness :
  let w := Samples.window in
  let rise := Samples.viewing (Some Samples.leftPinch) None in
  let lost := Samples.viewing None None in
  let back := Samples.viewing (Some Samples.leftPinchMoved) None in
  let c1 := fst (leftHandEffect w rise initialStore initialStore) in
  let c2 :=
    Viewing.acts w [Viewing.LeftHand rise initialStore;
                    Viewing.LeftHand lost c1] initialStore in
  let c3 := fst (leftHandEffect w back c2 c2) in
  (zoom c1 = 1 /\ pan c1 = Point.mk 0 0) /\ c2 = c1 /\
  (zoom c3 = 0.856 /\ Point.x (pan c3) = 8).
Proof.
  intros w rise lost back c1 c2 c3.
  destruct (@zoom_pan_between_processed_runs w [] rise initialStore)
    as [_ Hrise].
  destruct (Hrise Samples.leftPinch eq_refl) as (Hcapture & _ & _).
  destruct (Hcapture eq_refl eq_refl) as (Hzoom1 & Hpan1 & _).
  destruct (@zoom_pan_between_processed_runs w
              [Viewing.LeftHand rise initialStore] lost c1) as [Hlost _].
  specialize (Hlost eq_refl).
  destruct (@zoom_pan_between_processed_runs w
              [Viewing.LeftHand rise initialStore;
               Viewing.LeftHand lost c1] back c2) as [_ Hback].
  destruct (Hback Samples.leftPinchMoved eq_refl) as (_ & Hmove & _).
  destruct (Hmove Samples.leftPinch eq_refl eq_refl)
    as (Hzoom3 & _ & Hpan3 & _).
  cbv zeta in Hzoom3, Hpan3. fold c2 in Hzoom3, Hpan3.
  fold c3 in Hzoom3, Hpan3.
  assert (Hc2 : c2 = c1) by exact Hlost.
  split; [split; [exact Hzoom1|exact Hpan1]|]. split; [exact Hc2|].
  assert (Hdx : pinchX w Samples.leftPinchMoved - pinchX w Samples.leftPinch
                = 16) by (unfold pinchX; cbn; lra).
  assert (Hdy : pinchY w Samples.leftPinchMoved - pinchY w Samples.leftPinch
                = 18) by (unfold pinchY; cbn; lra).
  rewrite Hdx, Hdy in *. split.
  - rewrite Hzoom3 by (rewrite !Rabs_pos_eq by lra; lra).
    rewrite Hc2. change (zoom c1) with 1. unfold JS.clamp.
    destruct (Rlt_dec (1 - 18 * 0.008) 0.5); [lra|].
    destruct (Rlt_dec 4 (1 - 18 * 0.008)); lra.
  - rewrite Hpan3 by (rewrite Rabs_pos_eq by lra; lra).
    rewrite Hc2. change (pan c1) with (Point.mk 0 0). cbn [Point.x].
    unfold JS.clamp.
    destruct (Rlt_dec (0 + 16 * 0.5) (-300)); [lra|].
    destruct (Rlt_dec 300 (0 + 16 * 0.5)); lra.
Defined.

End ViewerFacts.

(** ** The classifier, further *)

Module ClassifierFacts.

Import HandTracking.
Local Open Scope R_scope.

Lemma classify_palmHand :
  classify Cases.palmHand {| label := "Left" |} = Some Cases.palmSignal.
Proof.
  unfold classify, calculatePinch, detectThumbGesture, detectOpenPalm,
    tipBelowPIP, PINCH_THRESHOLD, THUMB_GESTURE_THRESHOLD.
  unfold at_. cbn [Cases.palmHand nth_error JS.bind Samples.L
                   Landmark.x Landmark.y Landmark.z].
  set (d := sqrt _).
  assert (Hd : 0.08 <= d) by (apply HandTrackingFacts.sqrt_at_least; lra).
  rewrite (@HandTrackingFacts.strength_far d Hd).
  replace (d <? 0.08) with false by (symmetry; now apply JSFacts.ltb_false).
  repeat (progress
            (unfold at_;
             cbn [Cases.palmHand nth_error JS.bind every_extended Samples.L
                  Landmark.x Landmark.y Landmark.z map andThen andb orb
                  PinchData.isPinching PinchData.position PinchData.strength
                  ThumbGesture.isThumbsUp ThumbGesture.isThumbsDown];
             HandTrackingFacts.js_decide)).
  unfold Cases.palmSignal. f_equal. f_equal. f_equal; lra.
Qed.

(** The first finger read by both gesture tests: what [detectOpenPalm]
    needs of it rules out what [detectThumbGesture] needs. *)
Lemma openPalm_index_extended (landmarks : list Landmark.t) :
  detectOpenPalm landmarks = Some true ->
  exists tip pip,
    at_ landmarks 8 = Some tip /\ at_ landmarks 6 = Some pip /\
    Landmark.y tip < Landmark.y pip.
Proof.
  unfold detectOpenPalm. cbn [every_extended].
  destruct (at_ landmarks 8) as [tip|]; [|discriminate].
  destruct (at_ landmarks 6) as [pip|]; [|discriminate].
  cbn [JS.bind]. destruct (Landmark.y tip <? Landmark.y pip) eqn:Hup.
  - intros _. exists tip, pip. apply JSFacts.ltb_true in Hup. auto.
  - cbn [JS.bind]. destruct (at_ landmarks 4); [|discriminate].
    destruct (at_ landmarks 2); discriminate.
Qed.

Lemma not_curled_no_thumbs (landmarks : list Landmark.t)
      (tip pip : Landmark.t) (gesture : ThumbGesture.t) :
  at_ landmarks 8 = Some tip -> at_ landmarks 6 = Some pip ->
  Landmark.y tip <= Landmark.y pip ->
  detectThumbGesture landmarks = Some gesture ->
  ThumbGesture.isThumbsUp gesture = false /\
  ThumbGesture.isThumbsDown gesture = false.
Proof.
  intros Htip Hpip Hup. unfold detectThumbGesture, tipBelowPIP.
  rewrite Htip, Hpip. cbn [JS.bind].
  replace (Landmark.y tip >? Landmark.y pip) with false
    by (symmetry; now apply JSFacts.gtb_false).
  cbn [andThen JS.bind].
  destruct (at_ landmarks 4); [|discriminate].
  destruct (at_ landmarks 0); [|discriminate].
  destruct (at_ landmarks 1); [|discriminate].
  cbn [JS.bind andb]. intros [= <-]. auto.
Qed.

(** X1.  An open palm is never a thumb gesture: a hand that the
    classifier reports with [isOpenPalm] has neither [isThumbsUp] nor
    [isThumbsDown]. *)
Theorem open_palm_excludes_thumbs (landmarks : list Landmark.t)
        (e : HandednessEntry) (hand : HandData.t) :
  classify landmarks e = Some hand ->
  HandData.isOpenPalm hand = true ->
  HandData.isThumbsUp hand = false /\ HandData.isThumbsDown hand = false.
Proof.
  unfold classify.
  destruct (calculatePinch landmarks) as [pinch|]; [|discriminate].
  destruct (detectThumbGesture landmarks) as [gesture|] eqn:Hthumb;
    [|discriminate].
  destruct (detectOpenPalm landmarks) as [palm|] eqn:Hpalm; [|discriminate].
  cbn [JS.bind]. intros [= <-]. cbn [HandData.isOpenPalm HandData.isThumbsUp
                                     HandData.isThumbsDown].
  intros ->. destruct (@openPalm_index_extended landmarks Hpalm)
    as (tip & pip & Htip & Hpip & Hup).
  apply (@not_curled_no_thumbs landmarks tip pip gesture); auto. lra.
Qed.

Lemma open_palm_excludes_thumbs_witness :
  HandData.isThumbsUp Cases.palmSignal = false /\
  HandData.isThumbsDown Cases.palmSignal = false.
Proof.
  apply (@open_palm_excludes_thumbs Cases.palmHand {| label := "Left" |}).
  - exact classify_palmHand.
  - reflexivity.
Defined.

Lemma calculatePinch_pinchingAt (x y : R) :
  calculatePinch (Samples.pinchingAt x y) =
    Some (PinchData.mk true (Point.mk x y) 1).
Proof.
  unfold calculatePinch, PINCH_THRESHOLD, at_.
  cbn [Samples.pinchingAt nth_error JS.bind Samples.L
       Landmark.x Landmark.y Landmark.z].
  replace ((x - x) ^ 2 + (y - y) ^ 2 + (0 - 0) ^ 2) with 0 by ring.
  rewrite sqrt_0. HandTrackingFacts.js_decide. f_equal. f_equal.
  - f_equal; lra.
  - unfold Rmax. destruct (Rle_dec 0 (1 - 0 / 0.08)); lra.
Qed.

(** X2.  The two outputs of [calculatePinch] agree: the strength lies
    between 0 and 1, it is positive exactly when the hand is reported as
    pinching, and zero exactly when it is not. *)
Theorem pinch_strength_consistent (landmarks : list Landmark.t)
        (pinch : PinchData.t) :
  calculatePinch landmarks = Some pinch ->
  0 <= PinchData.strength pinch <= 1 /\
  (PinchData.isPinching pinch = true <-> PinchData.strength pinch > 0) /\
  (PinchData.isPinching pinch = false <-> PinchData.strength pinch = 0).
Proof.
  unfold calculatePinch, PINCH_THRESHOLD.
  destruct (at_ landmarks 4) as [thumbTip|]; [|discriminate].
  destruct (at_ landmarks 8) as [indexTip|]; [|discriminate].
  cbn [JS.bind]. set (d := sqrt _). intros [= <-].
  cbn [PinchData.strength PinchData.isPinching].
  assert (Hd : 0 <= d) by apply sqrt_pos.
  rewrite JSFacts.ltb_true, JSFacts.ltb_false.
  unfold Rmax. destruct (Rle_dec 0 (1 - d / 0.08)); repeat split; intros; lra.
Qed.

Lemma pinch_strength_consistent_witness :
  0 <= 1 <= 1 /\ (true = true <-> 1 > 0) /\ (true = false <-> 1 = 0).
Proof.
  apply (@pinch_strength_consistent (Samples.pinchingAt 0.5 0.5)
           (PinchData.mk true (Point.mk 0.5 0.5) 1)).
  apply calculatePinch_pinchingAt.
Defined.

(** X3.  When thumb tip and index tip are inside the camera image (x and
    y between 0 and 1), the point at which the controllers and the cursor
    place the hand is inside the window (of non-negative width and
    height). *)
Theorem pinch_point_on_screen (w : Window) (landmarks : list Landmark.t)
        (e : HandednessEntry) (hand : HandData.t) :
  classify landmarks e = Some hand ->
  0 <= Landmark.x (Spec.thumbTip landmarks) <= 1 ->
  0 <= Landmark.y (Spec.thumbTip landmarks) <= 1 ->
  0 <= Landmark.x (Spec.indexTip landmarks) <= 1 ->
  0 <= Landmark.y (Spec.indexTip landmarks) <= 1 ->
  0 <= innerWidth w -> 0 <= innerHeight w ->
  0 <= pinchX w hand <= innerWidth w /\
  0 <= pinchY w hand <= innerHeight w.
Proof.
  unfold classify, calculatePinch, Spec.thumbTip, Spec.indexTip,
    Spec.landmark.
  destruct (at_ landmarks 4) as [thumbTip|] eqn:Hthumb; [|discriminate].
  destruct (at_ landmarks 8) as [indexTip|] eqn:Hindex; [|discriminate].
  rewrite (nth_error_nth _ _ _ Hthumb), (nth_error_nth _ _ _ Hindex).
  cbn [JS.bind].
  destruct (detectThumbGesture landmarks); [|discriminate].
  destruct (detectOpenPalm landmarks); [|discriminate].
  cbn [JS.bind PinchData.position]. intros [= <-].
  unfold pinchX, pinchY. cbn [HandData.pinchPosition Point.x Point.y].
  intros Htx Hty Hix Hiy Hw Hh. split; split; nra.
Qed.

Lemma pinch_point_on_screen_witness :
  0 <= pinchX Samples.window (Samples.pinchSignal Left 0.5 0.5) <= 1280 /\
  0 <= pinchY Samples.window (Samples.pinchSignal Left 0.5 0.5) <= 720.
Proof.
  apply (@pinch_point_on_screen Samples.window (Samples.pinchingAt 0.5 0.5)
           {| label := "Right" |});
    try exact (@HandTrackingFacts.classify_pinchingAt 0.5 0.5
                 {| label := "Right" |});
    cbn; lra.
Defined.

End ClassifierFacts.

(** ** The detector's callbacks *)

Module DetectorFacts.

Import HandTracking Detector.
Local Open Scope R_scope.

Lemma classify_short (hand : list Landmark.t) (e : HandednessEntry) :
  (List.length hand < 9)%nat -> classify hand e = None.
Proof.
  intros Hlen. unfold classify, calculatePinch, at_.
  replace (nth_error hand 8) with (@None Landmark.t)
    by (symmetry; apply nth_error_None; lia).
  destruct (nth_error hand 4); reflexivity.
Qed.

(** The loop throws when an entry of [multiHandedness] is missing or a
    hand has no index tip. *)
Lemma assemble_throws (hands : list (list Landmark.t)) :
  forall (i : nat) (handednesses : list HandednessEntry) (sides : Sides),
    (hands <> [] /\
     (List.length handednesses < i + List.length hands)%nat) \/
    (exists hand, In hand hands /\ (List.length hand < 9)%nat) ->
    assemble hands i handednesses sides = None.
Proof.
  induction hands as [|hand rest IH]; intros i handednesses sides Hbad.
  - destruct Hbad as [[Hne _]|(hand & [] & _)]. congruence.
  - cbn [assemble].
    destruct (nth_error handednesses i) as [e|] eqn:Hnth; [|reflexivity].
    cbn [JS.bind].
    destruct (classify hand e) as [handData|] eqn:Hclass; [|reflexivity].
    cbn [JS.bind]. apply IH.
    destruct Hbad as [[_ Hlen]|(short & [<-|Hin] & Hshort)].
    + left. assert (i < List.length handednesses)%nat
        by (apply nth_error_Some; congruence).
      cbn [List.length] in Hlen. split; [|lia].
      destruct rest; [cbn in Hlen; lia|discriminate].
    + rewrite classify_short in Hclass by assumption. discriminate.
    + right. eauto.
Qed.

(** X4.  A malformed callback is discarded as a whole.  When a hand has
    fewer than 9 landmarks, or [multiHandedness] has fewer entries than
    there are hands, the call throws before [setState]: the snapshot stays
    as it was, also for the hands that were well formed, and the call still
    counts for the throttle. *)
Theorem malformed_callback_aborts (now : R) (results : Results) (h : Hook)
        (hands : list (list Landmark.t))
        (handednesses : list HandednessEntry) :
  now - lastProcessTime h >= 16 ->
  multiHandLandmarks results = Some hands ->
  multiHandedness results = Some handednesses ->
  (List.length handednesses < List.length hands)%nat \/
  (exists hand, In hand hands /\ (List.length hand < 9)%nat) ->
  processResults now results h =
    ({| state := state h; lastProcessTime := now |}, Threw).
Proof.
  intros Hnow Hhands Hlabels Hbad. unfold processResults.
  replace (now - lastProcessTime h <? 16) with false
    by (symmetry; apply JSFacts.ltb_false; lra).
  rewrite Hhands, Hlabels, assemble_throws; [reflexivity|].
  destruct Hbad as [Hlen|Hshort]; [left|now right].
  split; [|lia]. destruct hands; [cbn in Hlen; lia|discriminate].
Qed.

Lemma malformed_callback_aborts_witness :
  processResults 1020 Cases.cutShort Samples.hookAt1000 =
    ({| state := state Samples.hookAt1000; lastProcessTime := 1020 |}, Threw).
Proof.
  apply (@malformed_callback_aborts 1020 Cases.cutShort Samples.hookAt1000
           [Samples.pinchingAt 0.5 0.5; Cases.thumbOnly]
           [ {| label := "Right" |}; {| label := "Left" |} ]).
  - cbn. lra.
  - reflexivity.
  - reflexivity.
  - right. exists Cases.thumbOnly. split; [cbn; auto|cbn; lia].
Defined.

(** X5.  A processed callback without hands clears both sides, whatever
    the snapshot held before: when either array is missing, or no hand is
    listed, [leftHand] and [rightHand] are published as [null], and
    [isReady] is kept. *)
Theorem no_hands_clears (now : R) (results : Results) (h : Hook) :
  now - lastProcessTime h >= 16 ->
  multiHandLandmarks results = None \/
  multiHandedness results = None \/
  multiHandLandmarks results = Some [] ->
  processResults now results h =
    ({| state := {| leftHand := None; rightHand := None;
                    isReady := isReady (state h) |};
        lastProcessTime := now |}, Published).
Proof.
  intros Hnow Hnone. unfold processResults.
  replace (now - lastProcessTime h <? 16) with false
    by (symmetry; apply JSFacts.ltb_false; lra).
  destruct Hnone as [->|[->| ->]].
  - reflexivity.
  - destruct (multiHandLandmarks results); reflexivity.
  - destruct (multiHandedness results); reflexivity.
Qed.

Lemma no_hands_clears_witness :
  processResults 1020 Cases.noHands Samples.hookAt1000 =
    ({| state := {| leftHand := None; rightHand := None; isReady := true |};
        lastProcessTime := 1020 |}, Published).
Proof.
  apply (@no_hands_clears 1020 Cases.noHands Samples.hookAt1000).
  - cbn. lra.
  - right. right. reflexivity.
Defined.

Lemma onResults_cons (now : R) (results : Results)
      (calls : list (R * Results)) (h : Hook) :
  onResults ((now, results) :: calls) h =
    (fst (onResults calls (fst (processResults now results h))),
     snd (processResults now results h) ::
     snd (onResults calls (fst (processResults now results h)))).
Proof.
  cbn [onResults]. destruct (processResults now results h) as [h1 outcome].
  cbn [fst snd]. destruct (onResults calls h1). reflexivity.
Qed.

Lemma last_cons (A : Type) (l : list A) (x d : A) :
  last (x :: l) d = last l x.
Proof.
  revert x d. induction l as [|y l IH]; intros x d; [reflexivity|].
  change (last (y :: l) d = last (y :: l) x).
  now rewrite (IH y d), (IH y x).
Qed.

(** One call against the throttle. *)
Lemma processResults_gate (now : R) (results : Results) (h : Hook) :
  (now - lastProcessTime h < 16 /\
   processResults now results h = (h, Dropped)) \/
  (now - lastProcessTime h >= 16 /\
   lastProcessTime (fst (processResults now results h)) = now /\
   dropped (snd (processResults now results h)) = false).
Proof.
  unfold processResults.
  destruct (now - lastProcessTime h <? 16) eqn:Hgate.
  - left. apply JSFacts.ltb_true in Hgate. auto.
  - right. apply JSFacts.ltb_false in Hgate. split; [lra|].
    destruct (multiHandLandmarks results) as [hands|];
      [destruct (multiHandedness results) as [handednesses|]|];
      try (cbn; auto; fail).
    destruct (assemble hands 0 handednesses (None, None)) as [[l r]|];
      cbn; auto.
Qed.

(** X6.  The throttle over a whole run of the detector.  Whatever the
    times of the calls, the calls that get past the throttle are 16 ms or
    more apart from one another, the first of them 16 ms or more after the
    last call processed before the run; and the hook ends with the time of
    the last of them. *)
Theorem processed_callbacks_spaced (calls : list (R * Results)) (h : Hook) :
  let outcomes := snd (onResults calls h) in
  let times := processedTimes calls outcomes in
  List.length outcomes = List.length calls /\
  spaced (lastProcessTime h) times /\
  lastProcessTime (fst (onResults calls h)) =
    last times (lastProcessTime h).
Proof.
  revert h. induction calls as [|[now results] calls IH]; intros h.
  - cbn. auto.
  - rewrite onResults_cons. cbn [fst snd processedTimes List.length].
    specialize (IH (fst (processResults now results h))).
    cbv zeta in IH. destruct IH as (Hlen & Hspaced & Hlast).
    destruct (processResults_gate now results h)
      as [[Hearly Hdrop]|(Hlate & Htime & Hkept)].
    + rewrite Hdrop in *. cbn [fst snd dropped] in *. auto.
    + rewrite Hkept. rewrite Htime in *. cbn [spaced].
      split; [now rewrite Hlen|]. split; [auto|].
      rewrite Hlast. symmetry. apply last_cons.
Qed.

Lemma classify_handedness (landmarks : list Landmark.t)
      (e : HandednessEntry) (hand : HandData.t) :
  classify landmarks e = Some hand ->
  HandData.handedness hand = actualHandedness e.
Proof.
  unfold classify.
  destruct (calculatePinch landmarks); [|discriminate].
  destruct (detectThumbGesture landmarks); [|discriminate].
  destruct (detectOpenPalm landmarks); [|discriminate].
  cbn [JS.bind]. now intros [= <-].
Qed.

(** The loop keeps each of its two variables on its own side. *)
Lemma assemble_sides (hands : list (list Landmark.t)) :
  forall (i : nat) (handednesses : list HandednessEntry)
         (sides sides' : Sides),
    (forall hand, fst sides = Some hand ->
                  HandData.handedness hand = Left) ->
    (forall hand, snd sides = Some hand ->
                  HandData.handedness hand = Right) ->
    assemble hands i handednesses sides = Some sides' ->
    (forall hand, fst sides' = Some hand ->
                  HandData.handedness hand = Left) /\
    (forall hand, snd sides' = Some hand ->
                  HandData.handedness hand = Right).
Proof.
  induction hands as [|landmarks rest IH];
    intros i handednesses sides sides' Hleft Hright; cbn [assemble].
  - intros [= <-]. auto.
  - destruct (nth_error handednesses i) as [e|]; [|discriminate].
    cbn [JS.bind].
    destruct (classify landmarks e) as [handData|]; [|discriminate].
    cbn [JS.bind]. apply IH; unfold assign;
      destruct (HandData.handedness handData) eqn:Hside;
      cbn [fst snd]; intros hand Hhand;
      try (injection Hhand as <-; assumption); auto.
Qed.

Lemma processResults_sides_agree (now : R) (results : Results) (h : Hook) :
  sidesAgree (state h) ->
  sidesAgree (state (fst (processResults now results h))) /\
  isReady (state (fst (processResults now results h))) = isReady (state h).
Proof.
  intros Hagree. unfold processResults.
  destruct (now - lastProcessTime h <? 16); [auto|].
  assert (Hnone : sidesAgree {| leftHand := None; rightHand := None;
                                isReady := isReady (state h) |})
    by (split; discriminate).
  destruct (multiHandLandmarks results) as [hands|];
    [destruct (multiHandedness results) as [handednesses|]|];
    try (cbn [fst state isReady]; auto; fail).
  destruct (assemble hands 0 handednesses (None, None)) as [[l r]|] eqn:Hloop;
    cbn [fst state isReady]; [|auto].
  split; [|reflexivity].
  apply (@assemble_sides hands 0%nat handednesses (None, None) (l, r));
    try assumption; discriminate.
Qed.

(** X7.  Through any run of the detector, with well-formed callbacks or
    not, a hand in the slot [leftHand] of the snapshot has handedness
    'Left' and a hand in [rightHand] has handedness 'Right'; and no
    callback changes [isReady]. *)
Theorem snapshot_sides_agree (calls : list (R * Results)) (h : Hook) :
  sidesAgree (state h) ->
  sidesAgree (state (fst (onResults calls h))) /\
  isReady (state (fst (onResults calls h))) = isReady (state h).
Proof.
  revert h. induction calls as [|[now results] calls IH]; intros h Hagree.
  - cbn. auto.
  - rewrite onResults_cons. cbn [fst].
    destruct (@processResults_sides_agree now results h Hagree)
      as [Hstep Hready].
    destruct (IH _ Hstep) as [Hrest Hready']. split; [assumption|].
    now rewrite Hready'.
Qed.

Lemma snapshot_sides_agree_witness :
  sidesAgree
    (state (fst (onResults [(1020, Samples.twoLeftLabels);
                            (1040, Cases.cutShort)]
                           (ready initialHook)))) /\
  isReady
    (state (fst (onResults [(1020, Samples.twoLeftLabels);
                            (1040, Cases.cutShort)]
                           (ready initialHook)))) = true.
Proof.
  apply (@snapshot_sides_agree
           [(1020, Samples.twoLeftLabels); (1040, Cases.cutShort)]
           (ready initialHook)).
  split; discriminate.
Defined.

End DetectorFacts.

(** ** The gallery, further *)

Module GalleryMore.

Import ImageGallery.
Local Open Scope Z_scope.

(** *** The range of [findIndex] *)

Lemma findIndexFrom_range (A : Type) (p : A -> bool) (l : list A) :
  forall base : Z,
    findIndexFrom p l base = -1 \/
    base <= findIndexFrom p l base < base + len l.
Proof.
  unfold len. induction l as [|a rest IH]; intros base; cbn [findIndexFrom].
  - now left.
  - destruct (p a).
    + right. cbn [List.length]. lia.
    + destruct (IH (base + 1)) as [->|Hin]; [now left|right].
      cbn [List.length]. lia.
Qed.

Lemma findIndex_range (A : Type) (p : A -> bool) (l : list A) :
  -1 <= findIndex p l < Z.max 1 (len l).
Proof.
  unfold findIndex. destruct (findIndexFrom_range p l 0) as [->|H]; lia.
Qed.

Lemma findIndex_missing (A : Type) (p : A -> bool) (l : list A) :
  (forall a, In a l -> p a = false) -> findIndex p l = -1.
Proof.
  unfold findIndex. generalize 0. induction l as [|a rest IH];
    intros base Hnone; cbn [findIndexFrom]; [reflexivity|].
  rewrite (Hnone a) by now left. apply IH. intros b Hb. apply Hnone.
  now right.
Qed.

Lemma len_pos (A : Type) (l : list A) : l <> [] -> 1 <= len l.
Proof. unfold len. destruct l; [congruence|]. cbn [List.length]. lia. Qed.

Lemma currentIndex_range (images : list GalleryImage.t) (dflt : Z)
      (p : Props) (c : Store) :
  images <> [] -> -1 <= dflt <= 0 ->
  -1 <= currentIndex images dflt p c < len images.
Proof.
  intros Hne Hd. pose proof (len_pos Hne) as Hlen. unfold currentIndex.
  assert (Hfind : forall q : GalleryImage.t -> bool,
             -1 <= findIndex q images < len images).
  { intros q. pose proof (findIndex_range q images). lia. }
  destruct (selectedImage p); [apply Hfind|].
  destruct (lastSelectedId c) as [lastId|]; [|lia].
  destruct (truthy lastId); [apply Hfind|lia].
Qed.

Lemma index_In (A : Type) (l : list A) (k : Z) (a : A) :
  index l k = Some a -> In a l.
Proof.
  unfold index. destruct (k <? 0); [discriminate|]. apply nth_error_In.
Qed.

(** X8.  Navigation never leaves the collection.  Outside the cooldown
    and with a non-empty collection, a thumb gesture calls [onImageSelect]
    once, with an image of the collection, whatever the selected image and
    the remembered identifier are (known to the collection or not); and
    the gallery scrolls to 100 px above that image, or to the top, so that
    the image (at 140 px per image) begins within the first 100 px in
    view. *)
Theorem navigation_stays_in_collection (images : list GalleryImage.t)
        (now : Z) (p : Props) (r c : Store) (hand : HandData.t) :
  images <> [] ->
  rightHand p = Some hand -> draggedImage r = None ->
  now - lastThumbActionTime c >= 1000 ->
  HandData.isThumbsUp hand = true \/ HandData.isThumbsDown hand = true ->
  exists (k : Z) (image : GalleryImage.t),
    0 <= k < len images /\ index images k = Some image /\
    In image images /\
    snd (thumbEffect images now p r c) = [onImageSelect (Some image) None] /\
    scrollY (fst (thumbEffect images now p r c)) = Z.max 0 (k * 140 - 100) /\
    0 <= k * 140 - scrollY (fst (thumbEffect images now p r c)) <= 100.
Proof.
  intros Hne Hhand Hdrag Hnow Hthumb. unfold thumbEffect.
  rewrite Hhand, Hdrag.
  replace (now - lastThumbActionTime c <? 1000) with false
    by (symmetry; apply Z.ltb_ge; lia).
  pose proof (len_pos Hne) as Hlen.
  destruct (HandData.isThumbsUp hand).
  - set (c' := setLastThumbActionTime now _).
    pose proof (@currentIndex_range images (-1) p c' Hne ltac:(lia)) as Hcur.
    set (cur := currentIndex images (-1) p c') in *.
    set (k := if cur + 1 <? len images then cur + 1 else 0).
    assert (Hk : 0 <= k < len images)
      by (subst k; destruct (cur + 1 <? len images) eqn:E;
          [apply Z.ltb_lt in E|]; lia).
    destruct (@GalleryFacts.index_inside _ images k Hk) as [image Himage].
    exists k, image. cbv zeta. fold cur. fold k. rewrite Himage.
    cbn [fst snd scrollY setScrollY].
    repeat split; try lia; eauto using index_In.
  - destruct Hthumb as [Hup|Hdown]; [discriminate|]. rewrite Hdown.
    set (c' := setLastThumbActionTime now _).
    pose proof (@currentIndex_range images 0 p c' Hne ltac:(lia)) as Hcur.
    set (cur := currentIndex images 0 p c') in *.
    set (k := if cur - 1 >=? 0 then cur - 1 else len images - 1).
    assert (Hk : 0 <= k < len images)
      by (subst k; destruct (cur - 1 >=? 0) eqn:E;
          [apply Z.geb_le in E|]; lia).
    destruct (@GalleryFacts.index_inside _ images k Hk) as [image Himage].
    exists k, image. cbv zeta. fold cur. fold k. rewrite Himage.
    cbn [fst snd scrollY setScrollY].
    repeat split; try lia; eauto using index_In.
Qed.

Lemma navigation_stays_in_collection_witness :
  exists (k : Z) (image : GalleryImage.t),
    0 <= k < len GALLERY_IMAGES /\
    index GALLERY_IMAGES k = Some image /\
    In image GALLERY_IMAGES /\
    snd (thumbEffect GALLERY_IMAGES 1700000000100
           (Cases.showing (Some Samples.downSignal) (Some Cases.stranger))
           initialStore initialStore) = [onImageSelect (Some image) None] /\
    scrollY (fst (thumbEffect GALLERY_IMAGES 1700000000100
                    (Cases.showing (Some Samples.downSignal)
                                    (Some Cases.stranger))
                    initialStore initialStore)) = Z.max 0 (k * 140 - 100) /\
    0 <= k * 140
         - scrollY (fst (thumbEffect GALLERY_IMAGES 1700000000100
                           (Cases.showing (Some Samples.downSignal)
                                           (Some Cases.stranger))
                           initialStore initialStore)) <= 100.
Proof.
  apply (@navigation_stays_in_collection GALLERY_IMAGES 1700000000100
           (Cases.showing (Some Samples.downSignal) (Some Cases.stranger))
           initialStore initialStore Samples.downSignal).
  - discriminate.
  - reflexivity.
  - reflexivity.
  - cbn. lia.
  - right. reflexivity.
Defined.

(** X9.  Navigation from an image that the collection does not hold.
    When the selected image has an identifier that no image of the
    collection has, a thumbs-up selects the first image and a thumbs-down
    the last. *)
Theorem navigation_from_unknown_image (images : list GalleryImage.t)
        (now : Z) (p : Props) (r c : Store) (hand : HandData.t)
        (sel : GalleryImage.t) :
  rightHand p = Some hand -> draggedImage r = None ->
  now - lastThumbActionTime c >= 1000 ->
  selectedImage p = Some sel ->
  (forall img, In img images -> GalleryImage.id img <> GalleryImage.id sel) ->
  (HandData.isThumbsUp hand = true ->
   snd (thumbEffect images now p r c) =
     [onImageSelect (index images 0) None]) /\
  (HandData.isThumbsUp hand = false -> HandData.isThumbsDown hand = true ->
   snd (thumbEffect images now p r c) =
     [onImageSelect (index images (len images - 1)) None]).
Proof.
  intros Hhand Hdrag Hnow Hsel Hunknown. unfold thumbEffect.
  rewrite Hhand, Hdrag.
  replace (now - lastThumbActionTime c <? 1000) with false
    by (symmetry; apply Z.ltb_ge; lia).
  assert (Hcur : forall dflt c',
             currentIndex images dflt p c' = -1).
  { intros dflt c'. unfold currentIndex. rewrite Hsel.
    apply findIndex_missing. intros img Himg. apply String.eqb_neq.
    now apply Hunknown. }
  split.
  - intros ->. cbv zeta. rewrite Hcur. cbn [Z.add Z.opp Z.pos_sub].
    unfold len. destruct images; reflexivity.
  - intros -> ->. cbv zeta. rewrite Hcur. reflexivity.
Qed.

Lemma navigation_from_unknown_image_witness :
  (HandData.isThumbsUp Samples.upSignal = true ->
   snd (thumbEffect GALLERY_IMAGES 1700000000100
          (Cases.showing (Some Samples.upSignal) (Some Cases.stranger))
          initialStore initialStore) =
     [onImageSelect (index GALLERY_IMAGES 0) None]) /\
  (HandData.isThumbsUp Samples.upSignal = false ->
   HandData.isThumbsDown Samples.upSignal = true ->
   snd (thumbEffect GALLERY_IMAGES 1700000000100
          (Cases.showing (Some Samples.upSignal) (Some Cases.stranger))
          initialStore initialStore) =
     [onImageSelect (index GALLERY_IMAGES (len GALLERY_IMAGES - 1)) None]).
Proof.
  apply (@navigation_from_unknown_image GALLERY_IMAGES 1700000000100
           (Cases.showing (Some Samples.upSignal) (Some Cases.stranger))
           initialStore initialStore Samples.upSignal Cases.stranger).
  - reflexivity.
  - reflexivity.
  - cbn. lia.
  - reflexivity.
  - intros img Himg. cbn in Himg.
    repeat (destruct Himg as [<-|Himg]; [discriminate|]). contradiction.
Defined.

(** *** What each effect leaves alone, field by field *)

Lemma trackSelectedEffect_keeps (p : Props) (r c : Store) :
  let c' := fst (trackSelectedEffect p r c) in
  scrollY c' = scrollY c /\ hoveredImage c' = hoveredImage c /\
  draggedImage c' = draggedImage c /\ dragPosition c' = dragPosition c /\
  lastPinchState c' = lastPinchState c /\
  lastSelectedId c' = match selectedImage p with
                      | Some sel => Some (GalleryImage.id sel)
                      | None => lastSelectedId c
                      end.
Proof.
  unfold trackSelectedEffect. destruct (selectedImage p);
    repeat split; reflexivity.
Qed.

Lemma thumbEffect_keeps (images : list GalleryImage.t) (now : Z)
      (p : Props) (r c : Store) :
  let out := thumbEffect images now p r c in
  hoveredImage (fst out) = hoveredImage c /\
  draggedImage (fst out) = draggedImage c /\
  dragPosition (fst out) = dragPosition c /\
  lastPinchState (fst out) = lastPinchState c /\
  lastSelectedId (fst out) = lastSelectedId c /\
  (snd out = [] \/ exists image, snd out = [onImageSelect image None]).
Proof.
  unfold thumbEffect.
  destruct (rightHand p) as [hand|], (draggedImage r);
    cbn [fst snd]; auto 10.
  destruct (_ <? _); cbn [fst snd]; auto 10.
  destruct (HandData.isThumbsUp hand); cbn; eauto 10.
  destruct (HandData.isThumbsDown hand); cbn; eauto 10.
Qed.

(** The pinch-start effect either starts a drag, with everything that
    takes, or starts none. *)
Lemma pinchStartEffect_cases (images : list GalleryImage.t) (dom : Dom)
      (p : Props) (r c : Store) :
  let out := pinchStartEffect images dom p r c in
  (snd out = [] /\ draggedImage (fst out) = draggedImage c /\
   dragPosition (fst out) = dragPosition c /\
   (lastPinchState (fst out) = lastPinchState c \/
    exists hand, rightHand p = Some hand /\
                 lastPinchState (fst out) = HandData.isPinching hand)) \/
  (exists hand rect id image,
     rightHand p = Some hand /\ draggedImage r = None /\
     HandData.isThumbsUp hand = false /\
     HandData.isThumbsDown hand = false /\
     galleryRect dom = Some rect /\ HandData.isPinching hand = true /\
     isInGallery rect (pinchX (window dom) hand) (pinchY (window dom) hand)
       = true /\
     lastPinchState c = false /\
     imageIdAt dom (pinchX (window dom) hand) (pinchY (window dom) hand)
       = Some id /\
     find (fun img => String.eqb (GalleryImage.id img) id) images
       = Some image /\
     out = (setLastPinchState true
              (setDragPosition
                 (Point.mk (pinchX (window dom) hand)
                           (pinchY (window dom) hand))
                 (setDraggedImage (Some image) c)),
            [setIsDragging true])).
Proof.
  unfold pinchStartEffect.
  destruct (rightHand p) as [hand|] eqn:Hhand; [|left; repeat split; auto].
  destruct (draggedImage r) eqn:Hdrag; [left; repeat split; auto|].
  destruct (HandData.isThumbsUp hand) eqn:Hup;
    [left; repeat split; auto|].
  destruct (HandData.isThumbsDown hand) eqn:Hdown;
    [left; repeat split; auto|].
  cbn [orb]. destruct (galleryRect dom) as [rect|] eqn:Hrect;
    [|left; repeat split; auto].
  cbv zeta.
  destruct (HandData.isPinching hand) eqn:Hpinch;
    [|left; cbn [andb fst snd]; repeat split; eauto].
  destruct (isInGallery rect _ _) eqn:Hin;
    [|left; cbn [andb fst snd]; repeat split; eauto].
  cbn [andb].
  destruct (lastPinchState c) eqn:Hlast;
    [left; cbn [negb fst snd]; repeat split; eauto|].
  cbn [negb].
  destruct (imageIdAt dom _ _) as [id|] eqn:Hid;
    [|left; cbn [fst snd]; repeat split; eauto].
  destruct (find _ images) as [image|] eqn:Hfind;
    [|left; cbn [fst snd]; repeat split; eauto].
  right. exists hand, rect, id, image. cbn [fst snd].
  repeat split; auto.
Qed.

Lemma pinchStartEffect_keeps (images : list GalleryImage.t) (dom : Dom)
      (p : Props) (r c : Store) :
  let c' := fst (pinchStartEffect images dom p r c) in
  scrollY c' = scrollY c /\ hoveredImage c' = hoveredImage c /\
  lastSelectedId c' = lastSelectedId c.
Proof.
  unfold pinchStartEffect.
  destruct (rightHand p) as [hand|], (draggedImage r);
    try (repeat split; reflexivity).
  destruct (_ || _); [repeat split; reflexivity|].
  destruct (galleryRect dom); [|repeat split; reflexivity].
  cbv zeta. destruct (_ && _); [|repeat split; reflexivity].
  destruct (negb _); [|repeat split; reflexivity].
  destruct (imageIdAt dom _ _); [|repeat split; reflexivity].
  destruct (find _ images); repeat split; reflexivity.
Qed.

Lemma dragEffect_keeps (w : Window) (p : Props) (r c : Store) :
  let c' := fst (dragEffect w p r c) in
  scrollY c' = scrollY c /\ hoveredImage c' = hoveredImage c /\
  lastPinchState c' = lastPinchState c /\
  lastSelectedId c' = lastSelectedId c.
Proof.
  unfold dragEffect.
  destruct (draggedImage r), (rightHand p) as [hand|];
    try (repeat split; reflexivity).
  cbv zeta. destruct (negb _); repeat split; reflexivity.
Qed.

Lemma hoverEffect_keeps (dom : Dom) (p : Props) (r c : Store) :
  let out := hoverEffect dom p r c in
  snd out = [] /\
  scrollY (fst out) = scrollY c /\ draggedImage (fst out) = draggedImage c /\
  dragPosition (fst out) = dragPosition c /\
  lastPinchState (fst out) = lastPinchState c /\
  lastSelectedId (fst out) = lastSelectedId c.
Proof.
  unfold hoverEffect.
  destruct (rightHand p) as [hand|], (draggedImage r);
    try (repeat split; reflexivity).
  destruct (galleryRect dom); [|repeat split; reflexivity].
  cbv zeta. destruct (isInGallery _ _ _); [|repeat split; reflexivity].
  destruct (imageIdAt dom _ _); repeat split; reflexivity.
Qed.

(** *** Pinch-to-drag *)

(** A commit at which the pinch latch is set and nothing is dragged. *)
Lemma commit_latched (images : list GalleryImage.t) (now : Z) (dom : Dom)
      (p : Props) (s : Store) :
  draggedImage s = None -> lastPinchState s = true ->
  Terms.noRelease (now, p) ->
  let out := commit images now dom p s in
  draggedImage (fst out) = None /\ lastPinchState (fst out) = true /\
  forall dragging, ~ In (setIsDragging dragging) (snd out).
Proof.
  intros Hdrag Hlatch Hpinch. rewrite GalleryFacts.commit_effects.
  cbv zeta. cbn [fst snd].
  destruct (trackSelectedEffect_keeps p s s) as (_ & _ & Dt & _ & Lt & _).
  set (c1 := fst (trackSelectedEffect p s s)) in *.
  destruct (thumbEffect_keeps images now p s c1)
    as (_ & Dth & _ & Lth & _ & Eth).
  set (c2 := fst (thumbEffect images now p s c1)) in *.
  destruct (pinchStartEffect_cases images dom p s c2)
    as [(Eps & Dps & _ & Lps)|(hand & rect & id & image & Hstart)].
  2:{ destruct Hstart as (_ & _ & _ & _ & _ & _ & _ & Hfalse & _).
      congruence. }
  set (c3 := fst (pinchStartEffect images dom p s c2)) in *.
  rewrite (@GalleryFacts.dragEffect_no_drag (window dom) p s c3
             (or_introl Hdrag)).
  cbn [fst snd].
  destruct (hoverEffect_keeps dom p s c3) as (Eh & _ & Dh & _ & Lh & _).
  rewrite Dh, Lh, Eh, Eps, Dps, Dth, Dt.
  destruct (GalleryFacts.trackSelectedEffect_frame p s s) as [Et _].
  rewrite Et. cbn [app]. rewrite app_nil_r. split; [assumption|]. split.
  - destruct Lps as [->|(hand & Hhand & ->)]; [congruence|].
    unfold Terms.noRelease in Hpinch. cbn [snd] in Hpinch.
    now rewrite Hhand in Hpinch.
  - intros dragging. destruct Eth as [->|[image ->]]; cbn; [tauto|].
    intros [H|[]]. discriminate.
Qed.

(** The commit of a pinch outside the gallery sets the latch. *)
Lemma commit_sets_latch (images : list GalleryImage.t) (now : Z) (dom : Dom)
      (p : Props) (s : Store) (hand : HandData.t) (rect : Rect) :
  galleryRect dom = Some rect -> draggedImage s = None ->
  rightHand p = Some hand ->
  HandData.isThumbsUp hand = false -> HandData.isThumbsDown hand = false ->
  HandData.isPinching hand = true ->
  isInGallery rect (pinchX (window dom) hand) (pinchY (window dom) hand)
    = false ->
  let out := commit images now dom p s in
  draggedImage (fst out) = None /\ lastPinchState (fst out) = true /\
  forall dragging, ~ In (setIsDragging dragging) (snd out).
Proof.
  intros Hrect Hdrag Hhand Hup Hdown Hpinch Hout.
  rewrite GalleryFacts.commit_effects. cbv zeta. cbn [fst snd].
  destruct (trackSelectedEffect_keeps p s s) as (_ & _ & Dt & _).
  destruct (GalleryFacts.trackSelectedEffect_frame p s s) as [Et _].
  set (c1 := fst (trackSelectedEffect p s s)) in *.
  destruct (thumbEffect_keeps images now p s c1)
    as (_ & Dth & _ & _ & _ & Eth).
  set (c2 := fst (thumbEffect images now p s c1)) in *.
  assert (Hps : pinchStartEffect images dom p s c2 =
                  (setLastPinchState true c2, [])).
  { unfold pinchStartEffect.
    rewrite Hhand, Hdrag, Hup, Hdown, Hrect. cbn [orb]. cbv zeta.
    rewrite Hpinch, Hout. reflexivity. }
  rewrite Hps. cbn [fst snd].
  rewrite (@GalleryFacts.dragEffect_no_drag (window dom) p s _
             (or_introl Hdrag)).
  cbn [fst snd].
  destruct (hoverEffect_keeps dom p s (setLastPinchState true c2))
    as (Eh & _ & Dh & _ & Lh & _).
  rewrite Dh, Lh, Eh, Et.
  cbn [app draggedImage setLastPinchState lastPinchState].
  rewrite app_nil_r, Dth, Dt. repeat split; auto.
  intros dragging. destruct Eth as [->|[image ->]]; cbn; [tauto|].
  intros [H|[]]. discriminate.
Qed.

Lemma run_latched (images : list GalleryImage.t) (dom : Dom)
      (ticks : list (Z * Props)) :
  forall s : Store,
    Forall Terms.noRelease ticks ->
    draggedImage s = None -> lastPinchState s = true ->
    draggedImage (fst (run images dom ticks s)) = None /\
    forall t dragging,
      ~ In (t, setIsDragging dragging) (snd (run images dom ticks s)).
Proof.
  induction ticks as [|[now p] ticks IH]; intros s Hticks Hdrag Hlatch.
  - cbn. auto.
  - rewrite GalleryFacts.run_cons. cbn [fst snd].
    destruct (@commit_latched images now dom p s Hdrag Hlatch
                (Forall_inv Hticks)) as (Hdrag1 & Hlatch1 & Hcalls).
    destruct (IH _ (Forall_inv_tail Hticks) Hdrag1 Hlatch1)
      as [Hdrag2 Hcalls2].
    split; [assumption|]. intros t dragging Hin.
    apply in_app_or in Hin. destruct Hin as [Hin|Hin].
    + apply in_map_iff in Hin. destruct Hin as (e & [= _ ->] & Hin).
      now apply (Hcalls dragging).
    + now apply (Hcalls2 t dragging).
Qed.

(** X10.  A drag starts only with a pinch that begins over the gallery.
    After a snapshot in which the hand pinches outside the gallery, no
    drag starts as long as the pinch is held (or the hand is out of
    sight), wherever the hand goes: the run calls [setIsDragging] at no
    time and ends with no dragged image. *)
Theorem held_pinch_never_grabs (images : list GalleryImage.t) (dom : Dom)
        (now : Z) (p : Props) (rest : list (Z * Props)) (s : Store)
        (hand : HandData.t) (rect : Rect) :
  galleryRect dom = Some rect -> draggedImage s = None ->
  rightHand p = Some hand ->
  HandData.isThumbsUp hand = false -> HandData.isThumbsDown hand = false ->
  HandData.isPinching hand = true ->
  isInGallery rect (pinchX (window dom) hand) (pinchY (window dom) hand)
    = false ->
  Forall Terms.noRelease rest ->
  let out := run images dom ((now, p) :: rest) s in
  draggedImage (fst out) = None /\
  forall t dragging, ~ In (t, setIsDragging dragging) (snd out).
Proof.
  intros Hrect Hdrag Hhand Hup Hdown Hpinch Hout Hheld.
  cbv zeta. rewrite GalleryFacts.run_cons. cbn [fst snd].
  destruct (@commit_sets_latch images now dom p s hand rect)
    as (Hdrag1 & Hlatch1 & Hcalls); try assumption.
  destruct (@run_latched images dom rest _ Hheld Hdrag1 Hlatch1)
    as [Hdrag2 Hcalls2].
  split; [assumption|]. intros t dragging Hin.
  apply in_app_or in Hin. destruct Hin as [Hin|Hin].
  - apply in_map_iff in Hin. destruct Hin as (e & [= _ ->] & Hin).
    now apply (Hcalls dragging).
  - now apply (Hcalls2 t dragging).
Qed.

Lemma held_pinch_never_grabs_witness :
  let out :=
    run GALLERY_IMAGES Cases.domOverImage
        [ (1700000000000, Cases.showing (Some Samples.pinchMid) None);
          (1700000000100,
           Cases.showing (Some Cases.pinchOverGallery) None) ]
        initialStore in
  draggedImage (fst out) = None /\
  forall t dragging, ~ In (t, setIsDragging dragging) (snd out).
Proof.
  apply (@held_pinch_never_grabs GALLERY_IMAGES Cases.domOverImage
           1700000000000 (Cases.showing (Some Samples.pinchMid) None)
           [ (1700000000100,
              Cases.showing (Some Cases.pinchOverGallery) None) ]
           initialStore Samples.pinchMid
           {| left := 960; right := 1280; top := 60; bottom := 720 |});
    try reflexivity.
  - unfold isInGallery, JS.geb.
    rewrite (proj2 (JSFacts.leb_false 960 _))
      by (unfold pinchX; cbn; lra).
    reflexivity.
  - repeat constructor.
Defined.

(** X11.  A thumb gesture has priority over a pinch.  In a commit whose
    hand shows a thumbs-up or a thumbs-down, no drag starts, even when the
    hand also pinches over an image: nothing is dragged afterwards, the
    pinch latch is not touched, and the only call there can be is the
    [onImageSelect] of the navigation. *)
Theorem thumb_gesture_never_grabs (images : list GalleryImage.t) (now : Z)
        (dom : Dom) (p : Props) (s : Store) (hand : HandData.t) :
  rightHand p = Some hand -> draggedImage s = None ->
  HandData.isThumbsUp hand = true \/ HandData.isThumbsDown hand = true ->
  let out := commit images now dom p s in
  draggedImage (fst out) = None /\
  lastPinchState (fst out) = lastPinchState s /\
  (snd out = [] \/ exists image, snd out = [onImageSelect image None]).
Proof.
  intros Hhand Hdrag Hthumb. rewrite GalleryFacts.commit_effects.
  cbv zeta. cbn [fst snd].
  destruct (trackSelectedEffect_keeps p s s) as (_ & _ & Dt & _ & Lt & _).
  destruct (GalleryFacts.trackSelectedEffect_frame p s s) as [Et _].
  set (c1 := fst (trackSelectedEffect p s s)) in *.
  destruct (thumbEffect_keeps images now p s c1)
    as (_ & Dth & _ & Lth & _ & Eth).
  set (c2 := fst (thumbEffect images now p s c1)) in *.
  assert (Hps : pinchStartEffect images dom p s c2 = (c2, [])).
  { unfold pinchStartEffect. rewrite Hhand, Hdrag.
    destruct Hthumb as [-> | ->]; [reflexivity|].
    now rewrite orb_true_r. }
  rewrite Hps. cbn [fst snd].
  rewrite (@GalleryFacts.dragEffect_no_drag (window dom) p s c2
             (or_introl Hdrag)).
  cbn [fst snd].
  destruct (hoverEffect_keeps dom p s c2) as (Eh & _ & Dh & _ & Lh & _).
  rewrite Dh, Lh, Eh, Et, Dth, Lth, Dt, Lt. cbn [app]. rewrite app_nil_r.
  auto.
Qed.

Lemma thumb_gesture_never_grabs_witness :
  let out :=
    commit GALLERY_IMAGES 1700000000000 Cases.domOverImage
           (Cases.showing (Some Samples.upSignal) None) initialStore in
  draggedImage (fst out) = None /\
  lastPinchState (fst out) = lastPinchState initialStore /\
  (snd out = [] \/ exists image, snd out = [onImageSelect image None]).
Proof.
  apply (@thumb_gesture_never_grabs GALLERY_IMAGES 1700000000000
           Cases.domOverImage (Cases.showing (Some Samples.upSignal) None)
           initialStore Samples.upSignal).
  - reflexivity.
  - reflexivity.
  - left. reflexivity.
Defined.

(** *** The gallery and the page *)

Lemma galleryCalls_isDragging (events : list Event) (home : Home.Store) :
  Home.isDragging (Home.galleryCalls events home) =
    Terms.lastDragging events (Home.isDragging home).
Proof.
  unfold Home.galleryCalls, Terms.lastDragging. revert home.
  induction events as [|e events IH]; intros home; [reflexivity|].
  cbn [fold_left]. rewrite IH. now destruct e.
Qed.

Lemma lastDragging_app (events1 events2 : list Event) (init : bool) :
  Terms.lastDragging (events1 ++ events2) init =
    Terms.lastDragging events2 (Terms.lastDragging events1 init).
Proof. unfold Terms.lastDragging. apply fold_left_app. Qed.

(** X12.  The page's [isDragging] follows the gallery.  If [isDragging]
    is true exactly when the gallery holds a dragged image, it is so again
    after a snapshot has gone through the gallery and the gallery's calls
    through the page. *)
Theorem isDragging_follows_gallery (images : list GalleryImage.t) (now : Z)
        (dom : Dom) (tracking : HandTracking.HandTrackingState)
        (app : Home.Store * Store) :
  Terms.inSync app ->
  Terms.inSync (Home.galleryTick images now dom tracking app).
Proof.
  destruct app as [home s]. unfold Terms.inSync, Home.galleryTick.
  cbn [fst snd]. intros Hsync.
  set (p := Home.galleryProps tracking home).
  destruct (commit images now dom p s) as [gallery events] eqn:Hcommit.
  cbn [fst snd]. rewrite galleryCalls_isDragging.
  assert (Hg : gallery = fst (commit images now dom p s))
    by now rewrite Hcommit.
  assert (He : events = snd (commit images now dom p s))
    by now rewrite Hcommit.
  clear Hcommit. rewrite GalleryFacts.commit_effects in Hg, He.
  cbv zeta in Hg, He. cbn [fst snd] in Hg, He.
  destruct (trackSelectedEffect_keeps p s s) as (_ & _ & Dt & _).
  destruct (GalleryFacts.trackSelectedEffect_frame p s s) as [Et _].
  set (c1 := fst (trackSelectedEffect p s s)) in *.
  destruct (thumbEffect_keeps images now p s c1)
    as (_ & Dth & _ & _ & _ & Eth).
  set (c2 := fst (thumbEffect images now p s c1)) in *.
  destruct (hoverEffect_keeps dom p s
              (fst (dragEffect (window dom) p s
                      (fst (pinchStartEffect images dom p s c2)))))
    as (Eh & _ & Dh & _).
  rewrite Et, Eh in He. cbn [app] in He. rewrite app_nil_r in He.
  subst gallery events. rewrite Dh. rewrite !lastDragging_app.
  assert (Hth : Terms.lastDragging
                  (snd (thumbEffect images now p s c1))
                  (Home.isDragging home) = Home.isDragging home)
    by (destruct Eth as [->|[image ->]]; reflexivity).
  rewrite Hth. clear Hth.
  destruct (draggedImage s) as [dragged|] eqn:Hdrag.
  - (* an image is dragged: only the drag effect can act *)
    destruct (@GalleryFacts.pinchStartEffect_quiet images dom p s c2)
      as [Eps [Dps _]].
    { right. congruence. }
    rewrite Eps. cbn [Terms.lastDragging fold_left].
    set (c3 := fst (pinchStartEffect images dom p s c2)) in *.
    unfold dragEffect. rewrite Hdrag.
    destruct (rightHand p) as [hand|].
    + cbv zeta. destruct (negb (HandData.isPinching hand)).
      * cbn [fst snd draggedImage setDraggedImage].
        rewrite lastDragging_app. reflexivity.
      * cbn [fst snd draggedImage setDragPosition Terms.lastDragging
             fold_left].
        rewrite Dps, Dth, Dt, ?Hdrag. exact Hsync.
    + cbn [fst snd Terms.lastDragging fold_left].
      rewrite Dps, Dth, Dt, ?Hdrag. exact Hsync.
  - (* nothing is dragged: only the pinch-start effect can act *)
    rewrite (@GalleryFacts.dragEffect_no_drag (window dom) p s _
               (or_introl Hdrag)).
    cbn [fst snd Terms.lastDragging fold_left].
    destruct (pinchStartEffect_cases images dom p s c2)
      as [(Eps & Dps & _)|(hand & rect & id & image & Hstart)].
    + rewrite Eps, Dps, Dth, Dt, ?Hdrag. exact Hsync.
    + destruct Hstart as (_ & _ & _ & _ & _ & _ & _ & _ & _ & _ & ->).
      reflexivity.
Qed.

Lemma isDragging_follows_gallery_witness :
  Terms.inSync
    (Home.galleryTick GALLERY_IMAGES 1700000000000 Cases.domOverImage
       {| HandTracking.leftHand := None;
          HandTracking.rightHand := Some Cases.pinchOverGallery;
          HandTracking.isReady := true |}
       (Home.initialStore, initialStore)).
Proof.
  apply (@isDragging_follows_gallery GALLERY_IMAGES 1700000000000
           Cases.domOverImage
           {| HandTracking.leftHand := None;
              HandTracking.rightHand := Some Cases.pinchOverGallery;
              HandTracking.isReady := true |}
           (Home.initialStore, initialStore)).
  reflexivity.
Defined.

(** X13.  Where a dragged image is dropped.  When the pinch ends, the
    gallery lets go of the image and the page's [isDragging] becomes false;
    if the hand is over the main view (left of 75% of the window width) the
    page selects the image, with the place of the drop as the initial
    position of the viewer, and otherwise selection and initial position
    stay as they were. *)
Theorem drop_selects_in_main_view (w : Window) (p : Props) (r c : Store)
        (home : Home.Store) (dragged : GalleryImage.t) (hand : HandData.t) :
  draggedImage r = Some dragged -> rightHand p = Some hand ->
  HandData.isPinching hand = false ->
  let x := pinchX w hand in
  let y := pinchY w hand in
  let out := dragEffect w p r c in
  let home' := Home.galleryCalls (snd out) home in
  draggedImage (fst out) = None /\ Home.isDragging home' = false /\
  ((x < innerWidth w * 0.75)%R ->
   Home.selectedImage home' = Some dragged /\
   Home.initialDragPos home' = Some (Point.mk x y)) /\
  ((x >= innerWidth w * 0.75)%R ->
   Home.selectedImage home' = Home.selectedImage home /\
   Home.initialDragPos home' = Home.initialDragPos home).
Proof.
  intros Hdrag Hhand Hpinch x y. unfold dragEffect.
  rewrite Hdrag, Hhand, Hpinch. cbv zeta. cbn [negb]. fold x y.
  destruct (JS.ltb x (innerWidth w * 0.75)) eqn:Hmain.
  - apply JSFacts.ltb_true in Hmain. cbn. repeat split; auto; lra.
  - apply JSFacts.ltb_false in Hmain. cbn. repeat split; auto; lra.
Qed.

Lemma drop_selects_in_main_view_witness :
  let p := Cases.showing (Some Cases.openOverMain) None in
  let x := pinchX Samples.window Cases.openOverMain in
  let y := pinchY Samples.window Cases.openOverMain in
  let out :=
    dragEffect Samples.window p Samples.draggingStore Samples.draggingStore in
  let home' := Home.galleryCalls (snd out) Home.initialStore in
  draggedImage (fst out) = None /\ Home.isDragging home' = false /\
  ((x < innerWidth Samples.window * 0.75)%R ->
   Home.selectedImage home' = Samples.image 0 /\
   Home.initialDragPos home' = Some (Point.mk x y)) /\
  ((x >= innerWidth Samples.window * 0.75)%R ->
   Home.selectedImage home' = Home.selectedImage Home.initialStore /\
   Home.initialDragPos home' = Home.initialDragPos Home.initialStore).
Proof.
  apply (@drop_selects_in_main_view Samples.window
           (Cases.showing (Some Cases.openOverMain) None)
           Samples.draggingStore Samples.draggingStore Home.initialStore
           (GalleryImage.mk "1" "/gallery/image1.jpg" "codeforces")
           Cases.openOverMain); reflexivity.
Defined.

(** X14.  The gallery remembers the image selected last.  Through any run
    the ref [lastSelectedId] holds the identifier of the selected image of
    the latest tick that had one; ticks without a selected image (the
    viewer was closed) leave it alone, and nothing ever clears it. *)
Theorem last_selection_is_remembered (images : list GalleryImage.t)
        (dom : Dom) (ticks : list (Z * Props)) (s : Store) :
  lastSelectedId (fst (run images dom ticks s)) =
    Terms.remembered (lastSelectedId s) ticks.
Proof.
  revert s. induction ticks as [|[now p] ticks IH]; intros s; [reflexivity|].
  rewrite GalleryFacts.run_cons. cbn [fst Terms.remembered].
  rewrite IH. f_equal. rewrite GalleryFacts.commit_effects.
  cbv zeta. cbn [fst].
  destruct (trackSelectedEffect_keeps p s s) as (_ & _ & _ & _ & _ & St).
  set (c1 := fst (trackSelectedEffect p s s)) in *.
  destruct (thumbEffect_keeps images now p s c1) as (_ & _ & _ & _ & Sth & _).
  set (c2 := fst (thumbEffect images now p s c1)) in *.
  destruct (pinchStartEffect_keeps images dom p s c2) as (_ & _ & Sps).
  set (c3 := fst (pinchStartEffect images dom p s c2)) in *.
  destruct (dragEffect_keeps (window dom) p s c3) as (_ & _ & _ & Sd).
  set (c4 := fst (dragEffect (window dom) p s c3)) in *.
  destruct (hoverEffect_keeps dom p s c4) as (_ & _ & _ & _ & _ & Sh).
  now rewrite Sh, Sd, Sps, Sth, St.
Qed.

(** X15.  When the gallery announces a drag, it holds the image under the
    hand.  A commit that calls [setIsDragging(true)] was made with a
    pinching hand whose pinch had not been seen before, nothing was
    dragged, and after it the dragged image is an image of the collection,
    the one whose identifier is under the hand; the same image is the
    hovered one, and the drag position is the place of the hand. *)
Theorem grabbed_image_is_hovered (images : list GalleryImage.t) (now : Z)
        (dom : Dom) (p : Props) (s : Store) :
  Spec.idsNonEmpty images ->
  In (setIsDragging true) (snd (commit images now dom p s)) ->
  exists (hand : HandData.t) (image : GalleryImage.t),
    rightHand p = Some hand /\ HandData.isPinching hand = true /\
    draggedImage s = None /\ lastPinchState s = false /\
    In image images /\
    imageIdAt dom (pinchX (window dom) hand) (pinchY (window dom) hand)
      = Some (GalleryImage.id image) /\
    draggedImage (fst (commit images now dom p s)) = Some image /\
    hoveredImage (fst (commit images now dom p s))
      = Some (GalleryImage.id image) /\
    dragPosition (fst (commit images now dom p s))
      = Point.mk (pinchX (window dom) hand) (pinchY (window dom) hand).
Proof.
  intros Hids. rewrite GalleryFacts.commit_effects.
  cbv zeta. cbn [fst snd].
  destruct (trackSelectedEffect_keeps p s s) as (_ & _ & Dt & _ & Lt & _).
  destruct (GalleryFacts.trackSelectedEffect_frame p s s) as [Et _].
  set (c1 := fst (trackSelectedEffect p s s)) in *.
  destruct (thumbEffect_keeps images now p s c1)
    as (_ & Dth & _ & Lth & _ & Eth).
  set (c2 := fst (thumbEffect images now p s c1)) in *.
  rewrite Et. cbn [app]. intros Hin.
  apply in_app_or in Hin. destruct Hin as [Hin|Hin].
  { destruct Eth as [E|[image E]]; rewrite E in Hin; cbn in Hin;
      [tauto|]. destruct Hin as [H|[]]. discriminate. }
  destruct (pinchStartEffect_cases images dom p s c2)
    as [(Eps & Dps & _)|(hand & rect & id & image & Hstart)].
  - (* no drag started: the call cannot come from the drag effect *)
    rewrite Eps in Hin. cbn [app] in Hin.
    apply in_app_or in Hin. destruct Hin as [Hin|Hin].
    + exfalso. revert Hin. unfold dragEffect.
      destruct (draggedImage s), (rightHand p) as [hand|]; cbn; try tauto.
      destruct (negb _); cbn; [|tauto].
      destruct (JS.ltb _ _); cbn; intuition discriminate.
    + destruct (hoverEffect_keeps dom p s
                  (fst (dragEffect (window dom) p s
                          (fst (pinchStartEffect images dom p s c2)))))
        as (Eh & _). rewrite Eh in Hin. destruct Hin.
  - destruct Hstart as (Hhand & Hdrag & Hup & Hdown & Hrect & Hpinch &
                        Hinside & Hlatch & Hid & Hfind & Hout).
    clear Hin. rewrite Hout. cbn [fst snd].
    rewrite (@GalleryFacts.dragEffect_no_drag (window dom) p s _
               (or_introl Hdrag)).
    cbn [fst snd]. apply find_some in Hfind. destruct Hfind as [Himage Heq].
    apply String.eqb_eq in Heq. subst id.
    assert (Hhover : forall c,
               hoverEffect dom p s c =
                 (setHoveredImage (Some (GalleryImage.id image)) c, [])).
    { intros c. unfold hoverEffect. rewrite Hhand, Hdrag, Hrect. cbv zeta.
      rewrite Hinside, Hid.
      unfold Spec.idsNonEmpty in Hids. rewrite Forall_forall in Hids.
      specialize (Hids image Himage).
      destruct (GalleryImage.id image); [contradiction|reflexivity]. }
    rewrite Hhover. cbn [fst].
    exists hand, image. repeat split; auto; congruence.
Qed.

Lemma pinchOverGallery_inside :
  isInGallery {| left := 960; right := 1280; top := 60; bottom := 720 |}
              (pinchX Samples.window Cases.pinchOverGallery)
              (pinchY Samples.window Cases.pinchOverGallery) = true.
Proof.
  unfold isInGallery, JS.geb.
  rewrite !(proj2 (JSFacts.leb_true _ _))
    by (unfold pinchX, pinchY; cbn; lra).
  reflexivity.
Qed.

Lemma grab_sample :
  snd (commit GALLERY_IMAGES 1700000000000 Cases.domOverImage
              (Cases.showing (Some Cases.pinchOverGallery) None)
              initialStore) = [setIsDragging true].
Proof.
  rewrite GalleryFacts.commit_effects. cbv zeta.
  unfold trackSelectedEffect, thumbEffect, pinchStartEffect, dragEffect,
    hoverEffect.
  cbn [Cases.showing Cases.domOverImage rightHand selectedImage fst snd
       initialStore draggedImage HandData.isThumbsUp HandData.isThumbsDown
       HandData.isPinching Cases.pinchOverGallery Samples.pinchSignal
       galleryRect window imageIdAt lastThumbActionTime orb andb negb
       setIsThumbScrolling lastPinchState].
  rewrite pinchOverGallery_inside. reflexivity.
Qed.

Lemma grabbed_image_is_hovered_witness :
  exists (hand : HandData.t) (image : GalleryImage.t),
    Some Cases.pinchOverGallery = Some hand /\
    HandData.isPinching hand = true /\
    draggedImage initialStore = None /\
    lastPinchState initialStore = false /\
    In image GALLERY_IMAGES /\
    Some "3"%string = Some (GalleryImage.id image) /\
    draggedImage
      (fst (commit GALLERY_IMAGES 1700000000000 Cases.domOverImage
              (Cases.showing (Some Cases.pinchOverGallery) None)
              initialStore)) = Some image /\
    hoveredImage
      (fst (commit GALLERY_IMAGES 1700000000000 Cases.domOverImage
              (Cases.showing (Some Cases.pinchOverGallery) None)
              initialStore)) = Some (GalleryImage.id image) /\
    dragPosition
      (fst (commit GALLERY_IMAGES 1700000000000 Cases.domOverImage
              (Cases.showing (Some Cases.pinchOverGallery) None)
              initialStore))
      = Point.mk (pinchX Samples.window hand) (pinchY Samples.window hand).
Proof.
  apply (@grabbed_image_is_hovered GALLERY_IMAGES 1700000000000
           Cases.domOverImage
           (Cases.showing (Some Cases.pinchOverGallery) None)
           initialStore).
  - exact GalleryFacts.idsNonEmpty_GALLERY_IMAGES.
  - rewrite grab_sample. now left.
Defined.

(** X16.  A drag has priority over navigation.  While an image is
    dragged, a commit selects nothing by thumb gesture, whatever the hand
    shows and whatever the time: the cooldown clock and the scroll offset
    stay as they are, and [onImageSelect] is not called without a drag
    position (the call of a release carries one). *)
Theorem drag_blocks_navigation (images : list GalleryImage.t) (now : Z)
        (dom : Dom) (p : Props) (s : Store) (dragged : GalleryImage.t) :
  draggedImage s = Some dragged ->
  let out := commit images now dom p s in
  lastThumbActionTime (fst out) = lastThumbActionTime s /\
  scrollY (fst out) = scrollY s /\
  forall image, ~ In (onImageSelect image None) (snd out).
Proof.
  intros Hdrag. rewrite GalleryFacts.commit_effects.
  cbv zeta. cbn [fst snd].
  destruct (GalleryFacts.trackSelectedEffect_frame p s s) as [Et [_ Tt]].
  destruct (trackSelectedEffect_keeps p s s) as (St & _).
  set (c1 := fst (trackSelectedEffect p s s)) in *.
  assert (Hth : thumbEffect images now p s c1
                = (setIsThumbScrolling None c1, [])).
  { unfold thumbEffect. rewrite Hdrag. now destruct (rightHand p). }
  assert (Hps : forall c, pinchStartEffect images dom p s c = (c, [])).
  { intros c. unfold pinchStartEffect. rewrite Hdrag.
    now destruct (rightHand p). }
  rewrite Hth, Et. cbn [fst snd]. rewrite Hps. cbn [fst snd app].
  destruct (hoverEffect_keeps dom p s
              (fst (dragEffect (window dom) p s
                      (setIsThumbScrolling None c1))))
    as (Eh & Sh & _).
  destruct (dragEffect_keeps (window dom) p s (setIsThumbScrolling None c1))
    as (Sd & _).
  rewrite Eh, Sh, Sd, app_nil_r.
  cbn [scrollY setIsThumbScrolling]. rewrite St.
  repeat split.
  - unfold hoverEffect, dragEffect. rewrite Hdrag.
    destruct (rightHand p) as [hand|]; cbn; try congruence.
    destruct (negb _); cbn; congruence.
  - intros image. unfold dragEffect. rewrite Hdrag.
    destruct (rightHand p) as [hand|]; cbn; try tauto.
    destruct (negb _); cbn; [|tauto].
    destruct (JS.ltb _ _); cbn; intuition discriminate.
Qed.

Lemma drag_blocks_navigation_witness :
  let out :=
    commit GALLERY_IMAGES 1700000000000 Samples.dom
           (Cases.showing (Some Samples.upSignal) None)
           Samples.draggingStore in
  lastThumbActionTime (fst out) = lastThumbActionTime Samples.draggingStore /\
  scrollY (fst out) = scrollY Samples.draggingStore /\
  forall image, ~ In (onImageSelect image None) (snd out).
Proof.
  apply (@drag_blocks_navigation GALLERY_IMAGES 1700000000000 Samples.dom
           (Cases.showing (Some Samples.upSignal) None)
           Samples.draggingStore
           (GalleryImage.mk "1" "/gallery/image1.jpg" "codeforces")).
  reflexivity.
Defined.

(** *** The gallery and the viewer *)

(** A commit of the gallery that announces a drag was made with a hand
    that pinches inside the gallery element. *)
Lemma commit_grabs (images : list GalleryImage.t) (now : Z) (dom : Dom)
      (p : Props) (s : Store) :
  In (setIsDragging true) (snd (commit images now dom p s)) ->
  exists hand rect,
    rightHand p = Some hand /\ galleryRect dom = Some rect /\
    HandData.isPinching hand = true /\
    isInGallery rect (pinchX (window dom) hand) (pinchY (window dom) hand)
      = true.
Proof.
  rewrite GalleryFacts.commit_effects. cbv zeta. cbn [fst snd].
  destruct (GalleryFacts.trackSelectedEffect_frame p s s) as [Et _].
  set (c1 := fst (trackSelectedEffect p s s)) in *.
  destruct (thumbEffect_keeps images now p s c1) as (_ & _ & _ & _ & _ & Eth).
  set (c2 := fst (thumbEffect images now p s c1)) in *.
  rewrite Et. cbn [app]. intros Hin.
  apply in_app_or in Hin. destruct Hin as [Hin|Hin].
  { destruct Eth as [E|[image E]]; rewrite E in Hin; cbn in Hin;
      [tauto|]. destruct Hin as [H|[]]. discriminate. }
  destruct (pinchStartEffect_cases images dom p s c2)
    as [(Eps & _)|(hand & rect & id & image & Hstart)].
  - exfalso. rewrite Eps in Hin. cbn [app] in Hin.
    apply in_app_or in Hin. destruct Hin as [Hin|Hin].
    + revert Hin. unfold dragEffect.
      destruct (draggedImage s), (rightHand p) as [hand|]; cbn; try tauto.
      destruct (negb _); cbn; [|tauto].
      destruct (JS.ltb _ _); cbn; intuition discriminate.
    + destruct (hoverEffect_keeps dom p s
                  (fst (dragEffect (window dom) p s
                          (fst (pinchStartEffect images dom p s c2)))))
        as (Eh & _). rewrite Eh in Hin. destruct Hin.
  - exists hand, rect. intuition auto.
Qed.

(** X17.  One pinch acts on one component.  With the gallery element in
    the right quarter of the window (its left edge at 75% of the window
    width or beyond), a snapshot whose right hand makes the gallery
    announce a drag gives the viewer nothing to do with that hand: the
    right-hand effect of the viewer leaves the store as it is and calls
    nothing, so the viewer's image is not moved by the pinch that takes an
    image from the gallery. *)
Theorem pinch_acts_on_one_component (images : list GalleryImage.t) (now : Z)
        (dom : Dom) (p : Props) (s : Store) (rect : Rect)
        (vp : ImageViewer.Props) (vr vc : ImageViewer.Store) :
  galleryRect dom = Some rect ->
  (left rect >= innerWidth (window dom) * 0.75)%R ->
  ImageViewer.rightHand vp = rightHand p ->
  In (setIsDragging true) (snd (commit images now dom p s)) ->
  ImageViewer.rightHandEffect (window dom) vp vr vc = (vc, []).
Proof.
  intros Hrect Hleft Hsame Hgrab.
  destruct (commit_grabs images now dom p s Hgrab)
    as (hand & rect' & Hhand & Hrect' & Hpinch & Hinside).
  rewrite Hrect in Hrect'. injection Hrect' as <-.
  unfold ImageViewer.rightHandEffect. rewrite Hsame, Hhand, Hpinch.
  destruct (ImageViewer.image vp); [|reflexivity].
  destruct (ImageViewer.isDismissing vr); [reflexivity|]. cbv zeta.
  unfold isInGallery in Hinside.
  apply andb_prop in Hinside. destruct Hinside as [Hinside _].
  apply andb_prop in Hinside. destruct Hinside as [Hinside _].
  apply andb_prop in Hinside. destruct Hinside as [Hinside _].
  unfold JS.geb in Hinside. apply JSFacts.leb_true in Hinside.
  replace (JS.ltb (pinchX (window dom) hand) (innerWidth (window dom) * 0.75))
    with false by (symmetry; apply JSFacts.ltb_false; lra).
  reflexivity.
Qed.

Lemma pinch_acts_on_one_component_witness :
  ImageViewer.rightHandEffect Samples.window
    (Samples.viewing None (Some Cases.pinchOverGallery))
    ImageViewer.initialStore ImageViewer.initialStore
  = (ImageViewer.initialStore, []).
Proof.
  apply (@pinch_acts_on_one_component GALLERY_IMAGES 1700000000000
           Cases.domOverImage
           (Cases.showing (Some Cases.pinchOverGallery) None)
           initialStore
           {| left := 960; right := 1280; top := 60; bottom := 720 |}).
  - reflexivity.
  - cbn. lra.
  - reflexivity.
  - rewrite grab_sample. now left.
Defined.

End GalleryMore.

(** ** The scrolling gallery *)

Module ScrollFacts.

Import ImageGalleryScroll.
Local Open Scope R_scope.

Lemma scroll_commit_effects (dom : Dom) (p : Props) (r : Store) :
  commit dom p r =
    let sc := scrollEffect dom p r r in
    let ps := pinchStartEffect dom p r (fst sc) in
    let d := dragEffect (window dom) p r (fst ps) in
    let h := hoverEffect dom p r (fst d) in
    (fst h, snd sc ++ snd ps ++ snd d ++ snd h).
Proof.
  unfold commit.
  destruct (scrollEffect dom p r r) as [c1 e1]. cbn [fst snd].
  destruct (pinchStartEffect dom p r c1) as [c2 e2]. cbn [fst snd].
  destruct (dragEffect (window dom) p r c2) as [c3 e3]. cbn [fst snd].
  destruct (hoverEffect dom p r c3) as [c4 e4]. reflexivity.
Qed.

Lemma scrollEffect_calls_nothing (dom : Dom) (p : Props) (r c : Store) :
  snd (scrollEffect dom p r c) = [] /\
  draggedImage (fst (scrollEffect dom p r c)) = draggedImage c /\
  lastPinchState (fst (scrollEffect dom p r c)) = lastPinchState c.
Proof.
  unfold scrollEffect.
  destruct (rightHand p) as [hand|], (draggedImage r);
    try (repeat split; reflexivity).
  destruct (galleryRect dom); [|repeat split; reflexivity].
  cbv zeta. destruct (HandData.isThumbsUp hand); [repeat split; reflexivity|].
  destruct (HandData.isThumbsDown hand); repeat split; reflexivity.
Qed.

Lemma scroll_pinchStartEffect_scrollY (dom : Dom) (p : Props) (r c : Store) :
  scrollY (fst (pinchStartEffect dom p r c)) = scrollY c.
Proof.
  unfold pinchStartEffect.
  destruct (rightHand p) as [hand|], (draggedImage r); try reflexivity.
  destruct (_ || _); [reflexivity|].
  destruct (galleryRect dom); [|reflexivity].
  cbv zeta. destruct (_ && _); [|reflexivity].
  destruct (negb _); [|reflexivity].
  destruct (inRange _); reflexivity.
Qed.

Lemma scroll_dragEffect_scrollY (w : Window) (p : Props) (r c : Store) :
  scrollY (fst (dragEffect w p r c)) = scrollY c.
Proof.
  unfold dragEffect.
  destruct (draggedImage r), (rightHand p) as [hand|]; try reflexivity.
  cbv zeta. destruct (negb _); reflexivity.
Qed.

Lemma scroll_hoverEffect_keeps (dom : Dom) (p : Props) (r c : Store) :
  snd (hoverEffect dom p r c) = [] /\
  scrollY (fst (hoverEffect dom p r c)) = scrollY c /\
  draggedImage (fst (hoverEffect dom p r c)) = draggedImage c.
Proof.
  unfold hoverEffect.
  destruct (rightHand p) as [hand|], (draggedImage r);
    try (repeat split; reflexivity).
  destruct (galleryRect dom); [|repeat split; reflexivity].
  cbv zeta. destruct (isInGallery _ _ _); [|repeat split; reflexivity].
  destruct (inRange _); repeat split; reflexivity.
Qed.

(** X18.  The scrolling gallery never scrolls out of range.  With the
    gallery element in place, a commit keeps the scroll offset between 0
    and [maxScroll] (the height of the eight items less the visible
    height, at least 0), and it moves the offset by [SCROLL_SPEED] (16 px)
    at most. *)
Theorem scroll_stays_in_range (dom : Dom) (p : Props) (s : Store)
        (rect : Rect) :
  galleryRect dom = Some rect ->
  let maxScroll :=
    Rmax 0 (IZR (ImageGallery.len GALLERY_IMAGES) * 140 - (height rect - 60))
  in
  0 <= scrollY s <= maxScroll ->
  let s' := fst (commit dom p s) in
  0 <= scrollY s' <= maxScroll /\
  Rabs (scrollY s' - scrollY s) <= SCROLL_SPEED.
Proof.
  intros Hrect maxScroll Hrange s'. subst s'. rewrite scroll_commit_effects.
  cbv zeta. cbn [fst].
  destruct (scroll_hoverEffect_keeps dom p s
              (fst (dragEffect (window dom) p s
                      (fst (pinchStartEffect dom p s
                              (fst (scrollEffect dom p s s)))))))
    as (_ & -> & _).
  rewrite scroll_dragEffect_scrollY, scroll_pinchStartEffect_scrollY.
  unfold scrollEffect, SCROLL_SPEED. rewrite Hrect. cbv zeta. fold maxScroll.
  assert (H0 : Rabs (scrollY s - scrollY s) <= 16)
    by (rewrite Rminus_diag, Rabs_R0; lra).
  assert (Hmax : 0 <= maxScroll) by apply Rmax_l.
  destruct (rightHand p) as [hand|], (draggedImage s); cbn [fst scrollY];
    auto.
  destruct (HandData.isThumbsUp hand); cbn [fst scrollY setScrollY].
  - unfold Rmax. destruct (Rle_dec 0 (scrollY s - 16)); split;
      try lra; unfold Rabs; destruct (Rcase_abs _); lra.
  - destruct (HandData.isThumbsDown hand); cbn [fst scrollY setScrollY];
      auto.
    unfold Rmin. destruct (Rle_dec maxScroll (scrollY s + 16)); split;
      try lra; unfold Rabs; destruct (Rcase_abs _); lra.
Qed.

Lemma scroll_stays_in_range_witness :
  let maxScroll :=
    Rmax 0 (IZR (ImageGallery.len GALLERY_IMAGES) * 140 - (660 - 60)) in
  let s' :=
    fst (commit Cases.scrollDom {| rightHand := Some Samples.downSignal |}
                Cases.scrollStore) in
  0 <= scrollY s' <= maxScroll /\
  Rabs (scrollY s' - scrollY Cases.scrollStore) <= SCROLL_SPEED.
Proof.
  apply (@scroll_stays_in_range Cases.scrollDom
           {| rightHand := Some Samples.downSignal |} Cases.scrollStore
           {| left := 960; right := 1280; top := 60; bottom := 720;
              height := 660 |}).
  - reflexivity.
  - cbn [scrollY Cases.scrollStore height]. split; [lra|apply Rmax_l].
Defined.

(** [Math.floor(relY / 140)] is the item whose 140 px contain [relY]. *)
Lemma imageIndex_bounds (relY : R) :
  IZR (imageIndex relY) * 140 <= relY < (IZR (imageIndex relY) + 1) * 140.
Proof.
  unfold imageIndex. destruct (base_Int_part (relY / 140)) as [Hlo Hhi].
  lra.
Qed.

Lemma inRange_index (k : Z) :
  inRange k = true ->
  exists image, ImageGallery.index GALLERY_IMAGES k = Some image.
Proof.
  unfold inRange. intros H. apply andb_prop in H. destruct H as [Hlo Hhi].
  apply Z.geb_le in Hlo. apply Z.ltb_lt in Hhi.
  apply GalleryFacts.index_inside. lia.
Qed.

Lemma scroll_pinchStartEffect_cases (dom : Dom) (p : Props) (r c : Store) :
  let out := pinchStartEffect dom p r c in
  (snd out = [] /\ draggedImage (fst out) = draggedImage c) \/
  (exists hand rect,
     rightHand p = Some hand /\ draggedImage r = None /\
     galleryRect dom = Some rect /\
     isInGallery rect (pinchX (window dom) hand) (pinchY (window dom) hand)
       = true /\
     let relY := pinchY (window dom) hand - top rect + scrollY r in
     inRange (imageIndex relY) = true /\
     out = (setLastPinchState true
              (setDragPosition
                 (Point.mk (pinchX (window dom) hand)
                           (pinchY (window dom) hand))
                 (setDraggedImage
                    (ImageGallery.index GALLERY_IMAGES (imageIndex relY)) c)),
            [ImageGallery.setIsDragging true])).
Proof.
  unfold pinchStartEffect.
  destruct (rightHand p) as [hand|]; [|now left].
  destruct (draggedImage r); [now left|].
  destruct (_ || _); [now left|].
  destruct (galleryRect dom) as [rect|]; [|now left].
  cbv zeta. destruct (HandData.isPinching hand); [|now left].
  destruct (isInGallery rect _ _) eqn:Hinside; [|now left].
  cbn [andb]. destruct (lastPinchState c); [now left|]. cbn [negb].
  destruct (inRange _) eqn:Hrange; [|now left].
  right. exists hand, rect. cbn [fst snd]. auto 10.
Qed.

Lemma scroll_dragEffect_calls (w : Window) (p : Props) (r c : Store) :
  ~ In (ImageGallery.setIsDragging true) (snd (dragEffect w p r c)) /\
  (draggedImage r = None -> dragEffect w p r c = (c, [])).
Proof.
  unfold dragEffect.
  destruct (draggedImage r), (rightHand p) as [hand|];
    try (split; [cbn; tauto|auto; discriminate]).
  cbv zeta. split; [|discriminate].
  destruct (negb _); cbn; [|tauto].
  destruct (JS.ltb _ _); cbn; intuition discriminate.
Qed.

(** X19.  In the scrolling gallery a drag takes the item under the hand.
    A commit that calls [setIsDragging(true)] was made with nothing
    dragged; after it the dragged image is the item of the list within
    whose 140 px the hand is, counted from the top of the gallery element
    plus the scroll offset, and the same item is the hovered one. *)
Theorem scroll_grab_takes_item_under_hand (dom : Dom) (p : Props)
        (s : Store) :
  In (ImageGallery.setIsDragging true) (snd (commit dom p s)) ->
  exists (hand : HandData.t) (rect : Rect) (k : Z) (image : GalleryImage.t),
    rightHand p = Some hand /\ galleryRect dom = Some rect /\
    draggedImage s = None /\
    (let relY := pinchY (window dom) hand - top rect + scrollY s in
     IZR k * 140 <= relY < (IZR k + 1) * 140) /\
    ImageGallery.index GALLERY_IMAGES k = Some image /\
    draggedImage (fst (commit dom p s)) = Some image /\
    hoveredImage (fst (commit dom p s)) = Some (GalleryImage.id image).
Proof.
  rewrite scroll_commit_effects. cbv zeta. cbn [fst snd].
  destruct (scrollEffect_calls_nothing dom p s s) as (Esc & _).
  set (c1 := fst (scrollEffect dom p s s)) in *.
  rewrite Esc. cbn [app]. intros Hin.
  destruct (scroll_pinchStartEffect_cases dom p s c1)
    as [(Eps & _)|(hand & rect & Hhand & Hdrag & Hrect & Hinside & Hstart)].
  - exfalso. rewrite Eps in Hin. cbn [app] in Hin.
    apply in_app_or in Hin. destruct Hin as [Hin|Hin].
    + now apply (scroll_dragEffect_calls (window dom) p s
                   (fst (pinchStartEffect dom p s c1))).
    + destruct (scroll_hoverEffect_keeps dom p s
                  (fst (dragEffect (window dom) p s
                          (fst (pinchStartEffect dom p s c1)))))
        as (Eh & _). rewrite Eh in Hin. destruct Hin.
  - clear Hin. cbv zeta in Hstart. destruct Hstart as [Hrange Hout].
    rewrite Hout. cbn [fst].
    rewrite (proj2 (scroll_dragEffect_calls (window dom) p s _) Hdrag).
    cbn [fst].
    destruct (inRange_index _ Hrange) as [image Himage].
    exists hand, rect, (imageIndex (pinchY (window dom) hand - top rect
                                    + scrollY s)), image.
    unfold hoverEffect. rewrite Hhand, Hdrag, Hrect. cbv zeta.
    rewrite Hinside, Hrange, Himage. cbn.
    repeat split; auto; apply imageIndex_bounds.
Qed.

Lemma scrollGrab_sample :
  snd (commit Cases.scrollDom
              {| rightHand := Some (Samples.pinchSignal Right 0.1 0.5) |}
              Cases.scrollStore) = [ImageGallery.setIsDragging true].
Proof.
  rewrite scroll_commit_effects. cbv zeta.
  unfold scrollEffect, pinchStartEffect, dragEffect, hoverEffect.
  cbn [Cases.scrollDom Cases.scrollStore rightHand fst snd draggedImage
       HandData.isThumbsUp HandData.isThumbsDown HandData.isPinching
       Samples.pinchSignal galleryRect window orb andb negb
       setIsThumbScrolling lastPinchState scrollY top].
  assert (Hinside :
            isInGallery {| left := 960; right := 1280; top := 60;
                           bottom := 720; height := 660 |}
                        (pinchX Samples.window
                                (Samples.pinchSignal Right 0.1 0.5))
                        (pinchY Samples.window
                                (Samples.pinchSignal Right 0.1 0.5)) = true).
  { unfold isInGallery, JS.geb.
    rewrite !(proj2 (JSFacts.leb_true _ _))
      by (unfold pinchX, pinchY; cbn; lra).
    reflexivity. }
  rewrite Hinside.
  assert (Hindex : imageIndex
                     (pinchY Samples.window
                             (Samples.pinchSignal Right 0.1 0.5) - 60 + 0)
                   = 2%Z).
  { unfold imageIndex. symmetry. apply Int_part_spec.
    unfold pinchY. cbn. lra. }
  rewrite Hindex. reflexivity.
Qed.

Lemma scroll_grab_takes_item_under_hand_witness :
  exists (hand : HandData.t) (rect : Rect) (k : Z) (image : GalleryImage.t),
    Some (Samples.pinchSignal Right 0.1 0.5) = Some hand /\
    galleryRect Cases.scrollDom = Some rect /\
    draggedImage Cases.scrollStore = None /\
    (let relY := pinchY Samples.window hand - top rect + 0 in
     IZR k * 140 <= relY < (IZR k + 1) * 140) /\
    ImageGallery.index GALLERY_IMAGES k = Some image /\
    draggedImage
      (fst (commit Cases.scrollDom
              {| rightHand := Some (Samples.pinchSignal Right 0.1 0.5) |}
              Cases.scrollStore)) = Some image /\
    hoveredImage
      (fst (commit Cases.scrollDom
              {| rightHand := Some (Samples.pinchSignal Right 0.1 0.5) |}
              Cases.scrollStore)) = Some (GalleryImage.id image).
Proof.
  apply (@scroll_grab_takes_item_under_hand Cases.scrollDom
           {| rightHand := Some (Samples.pinchSignal Right 0.1 0.5) |}
           Cases.scrollStore).
  rewrite scrollGrab_sample. now left.
Defined.

End ScrollFacts.

(** ** The viewer, further *)

Module ViewerMore.

Import ImageViewer Viewing.
Local Open Scope R_scope.

Lemma rightHandEffect_zoom (w : Window) (p : Props) (r c : Store) :
  zoom (fst (rightHandEffect w p r c)) = zoom c.
Proof.
  unfold rightHandEffect.
  destruct (image p), (rightHand p) as [hand|]; try reflexivity.
  destruct (isDismissing r); [reflexivity|]. cbv zeta.
  destruct (_ && _).
  - destruct (rightPinchStart c); reflexivity.
  - destruct (negb _), (rightPinchStart c); try reflexivity.
    destruct (isInDismissZone r); reflexivity.
Qed.

Lemma leftHandEffect_zoom (w : Window) (p : Props) (r c : Store) :
  0.5 <= zoom c <= 4 -> 0.5 <= zoom (fst (leftHandEffect w p r c)) <= 4.
Proof.
  intros Hzoom. unfold leftHandEffect.
  destruct (image p), (leftHand p) as [hand|]; try assumption.
  destruct (isDraggingWithRight r); [assumption|]. cbv zeta.
  destruct (HandData.isPinching hand); [|assumption].
  destruct (negb _); [assumption|].
  destruct (Rabs _ >? Rabs _ * 0.5); destruct (Rabs _ >? 5);
    cbn [fst zoom setLastPinch setPan setZoom]; try assumption;
    unfold Rmax, Rmin;
    repeat match goal with
           | |- context [Rle_dec ?a ?b] => destruct (Rle_dec a b)
           end; lra.
Qed.

Lemma act_zoom (w : Window) (a : Action) (c : Store) :
  0.5 <= zoom c <= 4 -> 0.5 <= zoom (act w c a) <= 4.
Proof.
  intros Hzoom. destruct a as [p r|p r| |]; cbn [act].
  - now rewrite rightHandEffect_zoom.
  - now apply leftHandEffect_zoom.
  - cbn. lra.
  - exact Hzoom.
Qed.

(** X20.  The zoom never leaves its range.  Whatever effects of the
    viewer run, in whatever order and for whatever hands, renders and
    window (right-hand effect, left-hand effect, reset on a new image,
    callback of the dismiss timer), the zoom stays between 0.5 and 4, and
    the bar of the zoom indicator between 0% and 100%. *)
Theorem zoom_stays_in_range (w : Window) (actions : list Action) :
  let s := acts w actions initialStore in
  0.5 <= zoom s <= 4 /\ 0 <= zoomBarWidth s <= 100.
Proof.
  assert (Hall : forall c, 0.5 <= zoom c <= 4 ->
                           0.5 <= zoom (acts w actions c) <= 4).
  { unfold acts. induction actions as [|a actions IH]; intros c Hzoom;
      [exact Hzoom|].
    cbn [fold_left]. apply IH. now apply act_zoom. }
  cbv zeta. assert (Hzoom := Hall initialStore ltac:(cbn; lra)).
  split; [exact Hzoom|]. unfold zoomBarWidth. lra.
Qed.

(** *** A drag with the right hand *)

(** One tick of a drag that has its anchor. *)
Lemma commit_dragging (w : Window) (id : string) (p : Props) (s : Store)
      (start : Point.t) (hand : HandData.t) :
  isDraggingWithRight s = true -> isDismissing s = false ->
  rightPinchStart s = Some start ->
  imageId p = Some id -> rightHand p = Some hand ->
  HandData.isPinching hand = true ->
  pinchX w hand < innerWidth w * 0.75 ->
  commit w (Some (Some id)) p s =
    (setIsInDismissZone (pinchY w hand >? innerHeight w * 0.85)
       (setPan (Point.mk (pinchX w hand - Point.x start)
                         (pinchY w hand - Point.y start)) s), []).
Proof.
  intros Hright Hdismissing Hstart Hid Hhand Hpinch Hmain.
  rewrite <- Hid, ViewerFacts.viewer_commit_same.
  unfold imageId in Hid.
  destruct (image p) as [shown|] eqn:Eimage; [|discriminate].
  rewrite (@ViewerFacts.rightHandEffect_track w p s s shown hand start)
    by assumption.
  cbn [fst snd]. unfold leftHandEffect. rewrite Eimage, Hright.
  destruct (leftHand p); reflexivity.
Qed.

(** How a commit ends when [image?.id] has changed. *)
Lemma commit_new_image (w : Window) (last : option string) (p : Props)
      (s : Store) :
  sameId last (imageId p) = false ->
  let s' := fst (commit w (Some last) p s) in
  zoom s' = 1 /\ pan s' = Point.mk 0 0 /\
  isDraggingWithRight s' = false /\ isInDismissZone s' = false /\
  isDismissing s' = false /\ rightPinchStart s' = None.
Proof.
  intros Hchanged. cbv zeta.
  rewrite ViewerFacts.viewer_commit_reset by assumption.
  cbn. auto 10.
Qed.

(** X21.  During a drag with the right hand the image follows that hand
    and nothing else, for as long as the same image is shown.  From a
    store in which the drag has its anchor, through any run of ticks that
    show the image [id] and a right hand pinching over the main view,
    whatever the left hand does: the pan is the displacement of the hand
    of the last tick from the anchor, the dismiss flag says whether that
    hand is below 85% of the window height, zoom and anchor are as before,
    and nothing is called.  A tick that then shows another image, or
    none, ends the drag: its commit leaves zoom 1, pan (0, 0), no anchor
    and the three flags down. *)
Theorem right_drag_follows_hand (w : Window) (id : string)
        (ticks : list Props) (p : Props) (s : Store) (start : Point.t)
        (hand : HandData.t) :
  isDraggingWithRight s = true -> isDismissing s = false ->
  rightPinchStart s = Some start ->
  Forall (dragging w id) (ticks ++ [p]) ->
  rightHand p = Some hand ->
  let out := run w (Some (Some id)) (ticks ++ [p]) s in
  pan (fst out) = Point.mk (pinchX w hand - Point.x start)
                           (pinchY w hand - Point.y start) /\
  isInDismissZone (fst out) = (pinchY w hand >? innerHeight w * 0.85) /\
  zoom (fst out) = zoom s /\ rightPinchStart (fst out) = Some start /\
  isDraggingWithRight (fst out) = true /\ snd out = [] /\
  (forall q, sameId (Some id) (imageId q) = false ->
             let s' := fst (commit w (Some (Some id)) q (fst out)) in
             zoom s' = 1 /\ pan s' = Point.mk 0 0 /\
             isDraggingWithRight s' = false /\ isInDismissZone s' = false /\
             isDismissing s' = false /\ rightPinchStart s' = None).
Proof.
  revert s. induction ticks as [|q ticks IH];
    intros s Hright Hdismissing Hstart Hticks Hhand.
  - cbn [app] in *. apply Forall_inv in Hticks.
    destruct Hticks as (Hid & hand' & Hhand' & Hpinch & Hmain).
    rewrite Hhand in Hhand'. injection Hhand' as <-.
    cbv zeta. rewrite ViewerFacts.viewer_run_cons.
    rewrite (@commit_dragging w id p s start hand) by assumption.
    cbn [run fst snd app]. do 3 (split; [reflexivity|]).
    split; [exact Hstart|]. split; [exact Hright|]. split; [reflexivity|].
    intros q Hchanged. now apply commit_new_image.
  - cbn [app] in *. pose proof (Forall_inv Hticks) as Hq.
    apply Forall_inv_tail in Hticks.
    destruct Hq as (Hid & hand' & Hhand' & Hpinch & Hmain).
    cbv zeta. rewrite ViewerFacts.viewer_run_cons.
    rewrite (@commit_dragging w id q s start hand') by assumption.
    cbn [fst snd app]. rewrite Hid.
    set (s1 := setIsInDismissZone _ _).
    destruct (IH s1)
      as (Hpan & Hzone & Hzoom & Hanchor & Hflag & Hcalls & Hreset);
      try assumption; try reflexivity.
    auto 10.
Qed.

Lemma viewing_dragging (left : option HandData.t) (hand : HandData.t) :
  HandData.isPinching hand = true ->
  pinchX Samples.window hand < innerWidth Samples.window * 0.75 ->
  dragging Samples.window "1" (Samples.viewing left (Some hand)).
Proof.
  intros Hpinch Hmain. split; [reflexivity|]. exists hand. auto.
Qed.

Lemma right_drag_follows_hand_witness :
  let s :=
    setIsDraggingWithRight true
      (setRightPinchStart (Some (Point.mk 640 360)) initialStore) in
  let out :=
    run Samples.window (Some (Some "1"%string))
        ([Samples.viewing (Some Samples.leftPinch) (Some Samples.pinchMid)]
         ++ [Samples.viewing (Some Samples.leftPinchMoved)
                             (Some Samples.pinchLow)]) s in
  pan (fst out) = Point.mk (pinchX Samples.window Samples.pinchLow - 640)
                           (pinchY Samples.window Samples.pinchLow - 360) /\
  isInDismissZone (fst out) =
    (pinchY Samples.window Samples.pinchLow >? 720 * 0.85) /\
  zoom (fst out) = 1 /\
  rightPinchStart (fst out) = Some (Point.mk 640 360) /\
  isDraggingWithRight (fst out) = true /\ snd out = [] /\
  (forall q, sameId (Some "1"%string) (imageId q) = false ->
             let s' :=
               fst (commit Samples.window (Some (Some "1"%string)) q
                           (fst out)) in
             zoom s' = 1 /\ pan s' = Point.mk 0 0 /\
             isDraggingWithRight s' = false /\ isInDismissZone s' = false /\
             isDismissing s' = false /\ rightPinchStart s' = None).
Proof.
  apply (@right_drag_follows_hand Samples.window "1"
           [Samples.viewing (Some Samples.leftPinch) (Some Samples.pinchMid)]
           (Samples.viewing (Some Samples.leftPinchMoved)
                            (Some Samples.pinchLow))
           (setIsDraggingWithRight true
              (setRightPinchStart (Some (Point.mk 640 360)) initialStore))
           (Point.mk 640 360) Samples.pinchLow); try reflexivity.
  apply Forall_cons; [|apply Forall_cons; [|apply Forall_nil]];
    (apply viewing_dragging; [reflexivity|unfold pinchX; cbn; lra]).
Defined.

(** X22.  Zoom and pan follow the left hand, at a bounded rate.  On a
    tick of a left-hand pinch that has its reference, with zoom between
    0.5 and 4 and the horizontal pan between -300 and 300: moving the hand
    up never zooms out and moving it down never zooms in, and the zoom
    changes by at most 0.008 per pixel of vertical motion; the pan moves
    to the side the hand moves to, by at most half the horizontal motion,
    and its vertical part is not touched. *)
Theorem left_hand_moves_are_bounded (w : Window) (p : Props) (r c : Store)
        (shown : GalleryImage.t) (hand : HandData.t) :
  image p = Some shown -> leftHand p = Some hand ->
  isDraggingWithRight r = false ->
  HandData.isPinching hand = true -> isPinching c = true ->
  0.5 <= zoom c <= 4 -> -300 <= Point.x (pan c) <= 300 ->
  let dx := pinchX w hand - lastPinchX c in
  let dy := pinchY w hand - lastPinchY c in
  let c' := fst (leftHandEffect w p r c) in
  (dy <= 0 -> zoom c <= zoom c') /\ (0 <= dy -> zoom c' <= zoom c) /\
  Rabs (zoom c' - zoom c) <= 0.008 * Rabs dy /\
  (dx <= 0 -> Point.x (pan c') <= Point.x (pan c)) /\
  (0 <= dx -> Point.x (pan c) <= Point.x (pan c')) /\
  Rabs (Point.x (pan c') - Point.x (pan c)) <= 0.5 * Rabs dx /\
  Point.y (pan c') = Point.y (pan c).
Proof.
  intros Himage Hhand Hright Hpinch Hlatch Hzoom Hpan dx dy c'. subst c'.
  unfold leftHandEffect. rewrite Himage, Hhand, Hright, Hpinch, Hlatch.
  cbv zeta. cbn [negb]. fold dx dy.
  assert (Hdy : 0 <= Rabs dy) by apply Rabs_pos.
  assert (Hdx : 0 <= Rabs dx) by apply Rabs_pos.
  assert (H0 : Rabs 0 = 0) by apply Rabs_R0.
  destruct (Rabs dy >? Rabs dx * 0.5); destruct (Rabs dx >? 5);
    cbn [fst zoom pan setLastPinch setPan setZoom Point.x Point.y];
    rewrite ?Rminus_diag, ?H0;
    repeat split; intros; try lra;
    unfold Rmax, Rmin, Rabs in *;
    repeat match goal with
           | |- context [Rle_dec ?a ?b] => destruct (Rle_dec a b)
           | |- context [Rcase_abs ?a] => destruct (Rcase_abs a)
           | H : context [Rcase_abs ?a] |- _ => destruct (Rcase_abs a)
           | H : context [Rle_dec ?a ?b] |- _ => destruct (Rle_dec a b)
           end; lra.
Qed.

Lemma left_hand_moves_are_bounded_witness :
  let c := setIsPinching true (setLastPinch 640 360 initialStore) in
  let p := Samples.viewing (Some Samples.leftPinchMoved) None in
  let dx := pinchX Samples.window Samples.leftPinchMoved - 640 in
  let dy := pinchY Samples.window Samples.leftPinchMoved - 360 in
  let c' := fst (leftHandEffect Samples.window p c c) in
  (dy <= 0 -> zoom c <= zoom c') /\ (0 <= dy -> zoom c' <= zoom c) /\
  Rabs (zoom c' - zoom c) <= 0.008 * Rabs dy /\
  (dx <= 0 -> Point.x (pan c') <= Point.x (pan c)) /\
  (0 <= dx -> Point.x (pan c) <= Point.x (pan c')) /\
  Rabs (Point.x (pan c') - Point.x (pan c)) <= 0.5 * Rabs dx /\
  Point.y (pan c') = Point.y (pan c).
Proof.
  apply (@left_hand_moves_are_bounded Samples.window
           (Samples.viewing (Some Samples.leftPinchMoved) None)
           (setIsPinching true (setLastPinch 640 360 initialStore))
           (setIsPinching true (setLastPinch 640 360 initialStore))
           (GalleryImage.mk "1" "/gallery/image1.jpg" "codeforces")
           Samples.leftPinchMoved); try reflexivity; cbn; lra.
Defined.

(** A commit at which there is nothing to act on. *)
Lemma commit_still (w : Window) (last : option string) (p : Props)
      (s : Store) :
  still last s p -> commit w (Some last) p s = (s, []).
Proof.
  intros [<- Hstill]. rewrite ViewerFacts.viewer_commit_same.
  unfold rightHandEffect, leftHandEffect.
  destruct Hstill as [->|[-> ->]]; [reflexivity|].
  destruct (image p); [|reflexivity]. cbn [fst snd].
  destruct (leftHand p); reflexivity.
Qed.

(** X23.  The viewer stands still when there is nothing to act on.
    Through any run of ticks that leave [image?.id] as it was, at each of
    which no image is shown, or the right hand is out of sight during a
    drag with the right hand, the store does not change and nothing is
    called, whatever the left hand does: a right hand that is lost in the
    middle of a drag keeps the drag and keeps zoom and pan suspended. *)
Theorem viewer_stands_still (w : Window) (last : option string)
        (ticks : list Props) (s : Store) :
  Forall (still last s) ticks -> run w (Some last) ticks s = (s, []).
Proof.
  induction 1 as [|p ticks Hstill _ IH]; [reflexivity|].
  rewrite ViewerFacts.viewer_run_cons, (commit_still w Hstill).
  cbn [fst snd]. destruct Hstill as [-> _]. now rewrite IH.
Qed.

Lemma viewer_stands_still_witness :
  let s :=
    setIsDraggingWithRight true
      (setRightPinchStart (Some (Point.mk 640 360)) initialStore) in
  run Samples.window (Some (Some "1"%string))
      [ Samples.viewing (Some Samples.leftPinch) None;
        Samples.viewing (Some Samples.leftPinchMoved) None;
        Samples.viewing None None ] s = (s, []).
Proof.
  apply (@viewer_stands_still Samples.window (Some "1"%string)
           [ Samples.viewing (Some Samples.leftPinch) None;
             Samples.viewing (Some Samples.leftPinchMoved) None;
             Samples.viewing None None ]).
  repeat apply Forall_cons; try apply Forall_nil;
    (split; [reflexivity|right; split; reflexivity]).
Defined.

End ViewerMore.

(** ** The page *)

Module HomeFacts.

Import Home.
Local Open Scope R_scope.

(** X24.  The mirrored camera image covers the canvas.  For a video and
    a window of positive size, the rectangle that [drawFrame] fills
    contains the whole canvas, has the aspect ratio of the video, is
    centred on the canvas, and fits it exactly in width or in height. *)
Theorem camera_image_covers_canvas (video : Video) (w : Window) :
  0 < videoWidth video -> 0 < videoHeight video ->
  0 < innerWidth w -> 0 < innerHeight w ->
  let rect := drawn (cover video w) in
  let width := ImageGallery.right rect - ImageGallery.left rect in
  let height := ImageGallery.bottom rect - ImageGallery.top rect in
  ImageGallery.left rect <= 0 /\ innerWidth w <= ImageGallery.right rect /\
  ImageGallery.top rect <= 0 /\ innerHeight w <= ImageGallery.bottom rect /\
  width * videoHeight video = height * videoWidth video /\
  ImageGallery.left rect + ImageGallery.right rect = innerWidth w /\
  ImageGallery.top rect + ImageGallery.bottom rect = innerHeight w /\
  (width = innerWidth w \/ height = innerHeight w).
Proof.
  intros Hvw Hvh Hw Hh. unfold cover.
  destruct video as [vw vh], w as [W H].
  cbn [videoWidth videoHeight innerWidth innerHeight] in *.
  assert (Hratio : W / (vw / vh) = W * vh / vw) by (field; lra).
  assert (Hlt : forall a b c d, 0 < b -> 0 < d ->
                                (a / b > c / d <-> a * d > c * b)).
  { intros a b c d Hb Hd. split; intros Hcmp.
    - apply (Rmult_lt_compat_r (b * d)) in Hcmp; [|nra].
      replace (c / d * (b * d)) with (c * b) in Hcmp by (field; lra).
      replace (a / b * (b * d)) with (a * d) in Hcmp by (field; lra).
      lra.
    - apply (Rmult_lt_reg_r (b * d)); [nra|].
      replace (c / d * (b * d)) with (c * b) by (field; lra).
      replace (a / b * (b * d)) with (a * d) by (field; lra).
      lra. }
  destruct (W / H >? vw / vh) eqn:Hcmp.
  - apply JSFacts.gtb_true in Hcmp.
    apply (proj1 (Hlt W H vw vh Hh Hvh)) in Hcmp.
    cbv zeta. unfold drawn.
    cbn [drawWidth drawHeight offsetX offsetY ImageGallery.left
         ImageGallery.right ImageGallery.top ImageGallery.bottom].
    rewrite Hratio.
    assert (Htall : H <= W * vh / vw).
    { apply (Rmult_le_reg_r vw); [assumption|].
      replace (W * vh / vw * vw) with (W * vh) by (field; lra). nra. }
    repeat split; try lra; field; lra.
  - apply JSFacts.gtb_false in Hcmp.
    assert (Hcmp' : ~ W / H > vw / vh) by lra.
    rewrite (Hlt W H vw vh Hh Hvh) in Hcmp'.
    cbv zeta. unfold drawn.
    cbn [drawWidth drawHeight offsetX offsetY ImageGallery.left
         ImageGallery.right ImageGallery.top ImageGallery.bottom].
    assert (Hwide : W <= H * (vw / vh)).
    { apply (Rmult_le_reg_r vh); [assumption|].
      replace (H * (vw / vh) * vh) with (H * vw) by (field; lra). nra. }
    repeat split; try lra; field; lra.
Qed.

Lemma camera_image_covers_canvas_witness :
  let rect := drawn (cover Cases.camera Samples.window) in
  let width := ImageGallery.right rect - ImageGallery.left rect in
  let height := ImageGallery.bottom rect - ImageGallery.top rect in
  ImageGallery.left rect <= 0 /\ 1280 <= ImageGallery.right rect /\
  ImageGallery.top rect <= 0 /\ 720 <= ImageGallery.bottom rect /\
  width * 480 = height * 640 /\
  ImageGallery.left rect + ImageGallery.right rect = 1280 /\
  ImageGallery.top rect + ImageGallery.bottom rect = 720 /\
  (width = 1280 \/ height = 720).
Proof.
  apply (@camera_image_covers_canvas Cases.camera Samples.window);
    cbn; lra.
Defined.

(** X25.  A dismissal closes the viewer and resets it.  When the timer
    of a dismissal fires and the page has handled its call, the dismissal
    is over and the page has no selected image and no initial drag
    position.  The viewer, which showed the image [id], is handed no image
    from then on: through the snapshots that follow it calls nothing, and
    after the first of them and after every later one its store is the
    reset one, zoom 1, pan (0, 0), no drag, no anchor and both dismiss
    flags down, with the latch and the reference of the left hand as they
    were, whatever the hands do. *)
Theorem dismissal_closes_viewer (w : Window) (home : Store)
        (c : ImageViewer.Store) (id : string)
        (tracking : HandTracking.HandTrackingState)
        (snapshots : list HandTracking.HandTrackingState) :
  let c' := fst (ImageViewer.dismissTimeout c) in
  let home' := viewerCalls (snd (ImageViewer.dismissTimeout c)) home in
  let out :=
    Viewing.run w (Some (Some id))
      (map (fun tracking => viewerProps tracking home')
           (tracking :: snapshots)) c' in
  ImageViewer.isDismissing c' = false /\
  ImageViewer.isInDismissZone c' = false /\
  selectedImage home' = None /\ initialDragPos home' = None /\
  isDragging home' = isDragging home /\
  fst out =
    {| ImageViewer.zoom := 1;
       ImageViewer.pan := Point.mk 0 0;
       ImageViewer.isDraggingWithRight := false;
       ImageViewer.isInDismissZone := false;
       ImageViewer.isDismissing := false;
       ImageViewer.lastPinchY := ImageViewer.lastPinchY c;
       ImageViewer.lastPinchX := ImageViewer.lastPinchX c;
       ImageViewer.isPinching := ImageViewer.isPinching c;
       ImageViewer.rightPinchStart := None |} /\
  snd out = [].
Proof.
  cbv zeta. repeat (split; [reflexivity|]).
  cbn [map]. rewrite ViewerFacts.viewer_run_cons.
  rewrite ViewerFacts.viewer_commit_reset by reflexivity.
  cbn [fst snd ImageViewer.rightHandEffect ImageViewer.leftHandEffect
       ImageViewer.image viewerProps selectedImage viewerCalls fold_left
       viewerCall ImageViewer.dismissTimeout handleCloseImage app
       Viewing.imageId].
  set (reset := fst (ImageViewer.resetEffect _)).
  assert (Hrest : forall later,
             Viewing.run w (Some None)
               (map (fun tracking =>
                       viewerProps tracking
                         (viewerCalls (snd (ImageViewer.dismissTimeout c))
                                      home)) later) reset = (reset, [])).
  { induction later as [|t later IH]; [reflexivity|].
    cbn [map]. rewrite ViewerFacts.viewer_run_cons.
    rewrite ViewerMore.commit_still
      by (split; [reflexivity|left; reflexivity]).
    cbn [fst snd app].
    change (Viewing.imageId (viewerProps t _)) with (@None string).
    now rewrite IH. }
  cbn [viewerCalls fold_left viewerCall ImageViewer.dismissTimeout snd
       handleCloseImage] in Hrest.
  rewrite Hrest. split; reflexivity.
Qed.

End HomeFacts.

(** ** The timer *)

Module TimerFacts.

Import Timer.

Lemma ticks_count (n : nat) : Nat.iter n tick 0 = n.
Proof.
  induction n as [|n IH]; [reflexivity|]. rewrite Nat.iter_succ, IH.
  unfold tick. lia.
Qed.

(** The display depends on the seconds modulo ten minutes only. *)
Lemma formatTime_mod (n : nat) : formatTime n = formatTime (n mod 600).
Proof.
  assert (Hsplit : n mod 600 = n mod 60 + 60 * ((n / 60) mod 10))
    by (change 600 with (60 * 10); apply Nat.Div0.mod_mul_r).
  assert (Hs : n mod 60 < 60) by (apply Nat.mod_upper_bound; lia).
  assert (Hm : (n / 60) mod 10 < 10) by (apply Nat.mod_upper_bound; lia).
  unfold formatTime, minutes, secs. rewrite Hsplit.
  replace ((n mod 60 + 60 * ((n / 60) mod 10)) / 60) with ((n / 60) mod 10).
  2:{ rewrite (Nat.mul_comm 60), Nat.div_add by lia.
      rewrite (Nat.div_small (n mod 60)) by assumption. reflexivity. }
  replace ((n mod 60 + 60 * ((n / 60) mod 10)) mod 60) with (n mod 60).
  2:{ rewrite (Nat.mul_comm 60), Nat.Div0.mod_add.
      symmetry. now apply Nat.mod_small. }
  now rewrite Nat.Div0.mod_mod.
Qed.

(** Within ten minutes: four characters, from which the seconds can be
    read back. *)
Lemma formatTime_table :
  forallb (fun a =>
             (String.length (formatTime a) =? 4) &&
             (readTime (formatTime a) =? a))
          (seq 0 600) = true.
Proof. vm_compute. reflexivity. Qed.

Lemma formatTime_small (a : nat) :
  a < 600 ->
  String.length (formatTime a) = 4 /\ readTime (formatTime a) = a.
Proof.
  intros Ha. pose proof formatTime_table as Htable.
  rewrite forallb_forall in Htable.
  specialize (Htable a ltac:(apply in_seq; lia)).
  apply andb_prop in Htable. destruct Htable as [Hlen Hread].
  split; now apply Nat.eqb_eq.
Qed.

(** X26.  The timer display.  After [n] ticks the display shows the
    seconds counted, as one digit of minutes, a colon and two digits of
    seconds: four characters, from which the count can be read back up to
    ten minutes.  It starts again after ten minutes: two counts have the
    same display exactly when they differ by a multiple of 600. *)
Theorem timer_display (n : nat) :
  display n = formatTime n /\
  String.length (display n) = 4 /\
  readTime (display n) = n mod 600 /\
  display (n + 600) = display n /\
  forall m, display m = display n <-> m mod 600 = n mod 600.
Proof.
  assert (Hdisplay : forall k, display k = formatTime k)
    by (intros k; unfold display; now rewrite ticks_count).
  assert (Hmod : forall k, k mod 600 < 600)
    by (intros k; apply Nat.mod_upper_bound; lia).
  assert (Hread : forall k, readTime (formatTime k) = k mod 600).
  { intros k. rewrite formatTime_mod. now apply formatTime_small. }
  rewrite !Hdisplay. split; [reflexivity|]. split; [|split; [|split]].
  - rewrite formatTime_mod. now apply formatTime_small.
  - apply Hread.
  - rewrite (formatTime_mod (n + 600)), (formatTime_mod n).
    replace (n + 600) with (n + 1 * 600) by lia.
    now rewrite Nat.Div0.mod_add.
  - intros m. rewrite !Hdisplay. split.
    + intros Heq. rewrite <- !Hread. now rewrite Heq.
    + intros Heq. rewrite (formatTime_mod m), (formatTime_mod n).
      now rewrite Heq.
Qed.

End TimerFacts.
